(** * Bitcoin-Inheritance: the contract script and the spending transactions

    A shallow embedding of the Go packages [script] (timelock encoder,
    redeem-script builder, script validation) and [transaction] (withdrawal
    builders, signers, transaction validation), together with the parts of
    the btcd libraries [txscript] and [wire] these packages call.

    Conventions.
    - A Go [int64] is a [Z] kept in range by [Int64.wrap]; a [uint32] is a
      [Z] reduced by [Uint32.wrap]; a [byte] is a [Z] in [0, 255]; a
      [[]byte] is a [list Z].
    - A Go function returning [(T, error)] returns [outcome T]; a run-time
      panic (index out of range) is the third constructor [Panic].
    - Hash functions, the signature-hash algorithm and ECDSA belong to
      btcd and are taken as an interface ([BtcdCrypto]). *)

From Stdlib Require Import ZArith List Lia Bool.
From Stdlib Require String Ascii.
Import ListNotations.
Local Open Scope Z_scope.

(* ================================================================== *)
(** ** Machine integers *)

Module Int64.
Definition min_int : Z := - 2 ^ 63.
Definition max_int : Z := 2 ^ 63 - 1.

(** Two's-complement wrap-around of a mathematical integer. *)
Definition wrap (z : Z) : Z := (z + 2 ^ 63) mod 2 ^ 64 - 2 ^ 63.

Definition InRange (z : Z) : Prop := min_int <= z <= max_int.

Definition add (a b : Z) : Z := wrap (a + b).
Definition sub (a b : Z) : Z := wrap (a - b).
Definition mul (a b : Z) : Z := wrap (a * b).
Definition neg (a : Z) : Z := wrap (- a).
(** Go's [/] truncates toward zero. *)
Definition div (a b : Z) : Z := wrap (Z.quot a b).
End Int64.

Module Uint32.
(** The conversion [uint32(x)] keeps the low 32 bits. *)
Definition wrap (z : Z) : Z := z mod 2 ^ 32.
End Uint32.

(** The conversion [byte(x)]. *)
Definition byte_of (z : Z) : Z := Z.land z 0xff.

Definition is_byte (z : Z) : Prop := 0 <= z <= 255.

(** [len(s)] as an [int]. *)
Definition len {A : Type} (l : list A) : Z := Z.of_nat (length l).

(* ================================================================== *)
(** ** Errors and outcomes *)

Inductive error : Type :=
| ErrScriptNotCanonical                 (* txscript.ScriptBuilder *)
| ErrUnsupportedAddress                 (* txscript.PayToAddrScript *)
| ErrWitnessProgramLength               (* btcutil.NewAddressWitnessScriptHash *)
| ErrSigHashFailure                     (* txscript.CalcWitnessSigHash *)
| ErrBuildRedeemScript (cause : error)  (* "failed to build redeem script: %w" *)
| ErrP2WSHAddress (cause : error)       (* "failed to create P2WSH address: %w" *)
| ErrEmptyScript                        (* "redeem script is empty" *)
| ErrOwnerKeyLength                     (* "owner public key must be 33 bytes (compressed)" *)
| ErrInheritorKeyLength                 (* "inheritor public key must be 33 bytes (compressed)" *)
| ErrNonPositiveTimelock                (* "relative timelock must be positive" *)
| ErrInsufficientFunds (fee amount : Z) (* "insufficient funds: fee (%v) exceeds UTXO amount (%v)" *)
| ErrDestinationScript (cause : error)  (* "failed to create destination script: %w" *)
| ErrP2WSHScript (cause : error)        (* "failed to create P2WSH script: %w" *)
| ErrSignatureHash (cause : error)      (* "failed to calculate signature hash: %w" *)
| ErrNilTransaction                     (* "transaction is nil" *)
| ErrNoInputs                           (* "transaction has no inputs" *)
| ErrNoOutputs                          (* "transaction has no outputs" *)
| ErrNegativeOutputValue.               (* "transaction has negative output value" *)

Inductive outcome (A : Type) : Type :=
| Ok (a : A)
| Err (e : error)
| Panic.
Arguments Ok {A} a.
Arguments Err {A} e.
Arguments Panic {A}.

Definition bind {A B : Type} (m : outcome A) (k : A -> outcome B) : outcome B :=
  match m with
  | Ok a => k a
  | Err e => Err e
  | Panic => Panic
  end.

(** [wrapErr w m] is Go's [if err != nil { return ..., fmt.Errorf("...: %w", err) }]. *)
Definition wrapErr {A : Type} (w : error -> error) (m : outcome A) : outcome A :=
  match m with
  | Ok a => Ok a
  | Err e => Err (w e)
  | Panic => Panic
  end.

Notation "x <- m ;; k" := (bind m (fun x => k))
  (at level 61, m at next level, right associativity).

(* ================================================================== *)
(** ** btcd [btcutil] and [crypto/sha256]: hashes and addresses *)

Module btcutil.

(** The hash functions are taken as an interface: [Sum256] is
    [sha256.Sum256] (32 bytes) and [Hash160] is [btcutil.Hash160], that is
    RIPEMD-160 of SHA-256 (20 bytes). *)
Class Hashes : Type := {
  Sum256 : list Z -> list Z;
  Sum256_length : forall m, length (Sum256 m) = 32%nat;
  Hash160 : list Z -> list Z;
  Hash160_length : forall m, length (Hash160 m) = 20%nat
}.

(** The [btcutil.Address] interface: the nil interface value, the
    implementations [txscript.PayToAddrScript] knows, and any other. *)
Inductive Address : Type :=
| NilAddress
| AddressPubKeyHash (hash : list Z)
| AddressScriptHash (hash : list Z)
| AddressPubKey (serialized : list Z)
| AddressWitnessPubKeyHash (program : list Z)
| AddressWitnessScriptHash (program : list Z)
| AddressTaproot (program : list Z)
| AddressOther.

(** [NewAddressWitnessScriptHash] accepts only a 32-byte program. *)
Definition NewAddressWitnessScriptHash (witnessProg : list Z) : outcome Address :=
  if len witnessProg =? 32 then Ok (AddressWitnessScriptHash witnessProg)
  else Err ErrWitnessProgramLength.

End btcutil.

(* ================================================================== *)
(** ** btcd [wire]: transactions *)

Module wire.

Definition TxVersion : Z := 1.
Definition MaxTxInSequenceNum : Z := 0xffffffff.
(** Bit 31 of a sequence number switches the relative lock-time off. *)
Definition SequenceLockTimeDisabled : Z := Z.shiftl 1 31.

Record OutPoint : Type := mkOutPoint {
  Hash : list Z;
  Index : Z
}.

Record TxIn : Type := mkTxIn {
  PreviousOutPoint : OutPoint;
  SignatureScript : list Z;
  Witness : list (list Z);
  Sequence : Z
}.

Record TxOut : Type := mkTxOut {
  Value : Z;
  PkScript : list Z
}.

(** The fields [TxIn] and [TxOut] of the source are [TxIns] and [TxOuts]
    here, the singular being the names of the element types. *)
Record MsgTx : Type := mkMsgTx {
  Version : Z;
  TxIns : list TxIn;
  TxOuts : list TxOut;
  LockTime : Z
}.

Definition NewMsgTx (version : Z) : MsgTx :=
  {| Version := version; TxIns := []; TxOuts := []; LockTime := 0 |}.

Definition NewOutPoint (hash : list Z) (index : Z) : OutPoint :=
  {| Hash := hash; Index := index |}.

Definition NewTxIn (prevOut : OutPoint) (signatureScript : list Z)
    (witness : list (list Z)) : TxIn :=
  {| PreviousOutPoint := prevOut;
     SignatureScript := signatureScript;
     Witness := witness;
     Sequence := MaxTxInSequenceNum |}.

Definition NewTxOut (value : Z) (pkScript : list Z) : TxOut :=
  {| Value := value; PkScript := pkScript |}.

Definition AddTxIn (tx : MsgTx) (ti : TxIn) : MsgTx :=
  {| Version := Version tx; TxIns := TxIns tx ++ [ti];
     TxOuts := TxOuts tx; LockTime := LockTime tx |}.

Definition AddTxOut (tx : MsgTx) (to : TxOut) : MsgTx :=
  {| Version := Version tx; TxIns := TxIns tx;
     TxOuts := TxOuts tx ++ [to]; LockTime := LockTime tx |}.

(** The assignment [txIn.Sequence = v]. *)
Definition setSequence (ti : TxIn) (v : Z) : TxIn :=
  {| PreviousOutPoint := PreviousOutPoint ti;
     SignatureScript := SignatureScript ti;
     Witness := Witness ti;
     Sequence := v |}.

(** The assignment [txIn.Witness = w]. *)
Definition setWitness (ti : TxIn) (w : list (list Z)) : TxIn :=
  {| PreviousOutPoint := PreviousOutPoint ti;
     SignatureScript := SignatureScript ti;
     Witness := w;
     Sequence := Sequence ti |}.

End wire.

(* ================================================================== *)
(** ** btcd [txscript]: opcodes, script numbers and the script builder *)

Module txscript.

Definition OP_0 : Z := 0x00.
Definition OP_DATA_1 : Z := 0x01.
Definition OP_DATA_75 : Z := 0x4b.
Definition OP_PUSHDATA1 : Z := 0x4c.
Definition OP_PUSHDATA2 : Z := 0x4d.
Definition OP_PUSHDATA4 : Z := 0x4e.
Definition OP_1NEGATE : Z := 0x4f.
Definition OP_1 : Z := 0x51.
Definition OP_IF : Z := 0x63.
Definition OP_ELSE : Z := 0x67.
Definition OP_ENDIF : Z := 0x68.
Definition OP_DROP : Z := 0x75.
Definition OP_DUP : Z := 0x76.
Definition OP_EQUAL : Z := 0x87.
Definition OP_EQUALVERIFY : Z := 0x88.
Definition OP_HASH160 : Z := 0xa9.
Definition OP_CHECKSIG : Z := 0xac.
Definition OP_CHECKSEQUENCEVERIFY : Z := 0xb2.

Definition MaxScriptSize : Z := 10000.
Definition MaxScriptElementSize : Z := 520.

Definition SigHashAll : Z := 0x1.

(** *** [scriptNum.Bytes] *)

(** The loop [for n > 0 { result = append(result, byte(n&0xff)); n >>= 8 }].
    A positive [int64] is exhausted after eight rounds. *)
Fixpoint scriptNum_loop (fuel : nat) (n : Z) (result : list Z) : list Z :=
  match fuel with
  | O => result
  | S fuel' =>
      if 0 <? n
      then scriptNum_loop fuel' (Z.shiftr n 8) (result ++ [byte_of (Z.land n 0xff)])
      else result
  end.

(** [result[len(result)-1]], which panics on an empty slice. *)
Definition last_byte (result : list Z) : option Z :=
  match result with
  | [] => None
  | _ => Some (last result 0)
  end.

(** [None] stands for the index-out-of-range panic, reached only at
    [math.MinInt64], whose negation is itself. *)
Definition scriptNum_Bytes (n : Z) : option (list Z) :=
  if n =? 0 then Some []
  else
    let isNegative := n <? 0 in
    let n := if isNegative then Int64.neg n else n in
    let result := scriptNum_loop 8 n [] in
    match last_byte result with
    | None => None
    | Some msb =>
        if negb (Z.land msb 0x80 =? 0)
        then Some (result ++ [if isNegative then 0x80 else 0x00])
        else if isNegative
             then Some (removelast result ++ [Z.lor msb 0x80])
             else Some result
    end.

(** *** [ScriptBuilder] *)

Record ScriptBuilder : Type := mkBuilder {
  script : list Z;
  err : option error
}.

Definition NewScriptBuilder : ScriptBuilder :=
  {| script := []; err := None |}.

Definition fail (b : ScriptBuilder) : ScriptBuilder :=
  {| script := script b; err := Some ErrScriptNotCanonical |}.

Definition push (b : ScriptBuilder) (bytes : list Z) : ScriptBuilder :=
  {| script := script b ++ bytes; err := err b |}.

Definition AddOp (b : ScriptBuilder) (opcode : Z) : ScriptBuilder :=
  match err b with
  | Some _ => b
  | None =>
      if len (script b) + 1 >? MaxScriptSize then fail b
      else push b [opcode]
  end.

Definition canonicalDataSize (data : list Z) : Z :=
  let dataLen := len data in
  if dataLen =? 0 then 1
  else if (dataLen =? 1) && (hd 0 data <=? 16) then 1
  else if (dataLen =? 1) && (hd 0 data =? 0x81) then 1
  else if dataLen <? OP_PUSHDATA1 then 1 + dataLen
  else if dataLen <=? 0xff then 2 + dataLen
  else if dataLen <=? 0xffff then 3 + dataLen
  else 5 + dataLen.

(** [binary.LittleEndian.PutUint16] and [PutUint32]. *)
Definition PutUint16 (v : Z) : list Z :=
  [byte_of v; byte_of (Z.shiftr v 8)].
Definition PutUint32 (v : Z) : list Z :=
  [byte_of v; byte_of (Z.shiftr v 8); byte_of (Z.shiftr v 16); byte_of (Z.shiftr v 24)].

Definition addData (b : ScriptBuilder) (data : list Z) : ScriptBuilder :=
  let dataLen := len data in
  if (dataLen =? 0) || ((dataLen =? 1) && (hd 0 data =? 0)) then push b [OP_0]
  else if (dataLen =? 1) && (hd 0 data <=? 16) then push b [byte_of ((OP_1 - 1) + hd 0 data)]
  else if (dataLen =? 1) && (hd 0 data =? 0x81) then push b [OP_1NEGATE]
  else
    let b :=
      if dataLen <? OP_PUSHDATA1 then push b [byte_of ((OP_DATA_1 - 1) + dataLen)]
      else if dataLen <=? 0xff then push b [OP_PUSHDATA1; byte_of dataLen]
      else if dataLen <=? 0xffff then push b (OP_PUSHDATA2 :: PutUint16 dataLen)
      else push b (OP_PUSHDATA4 :: PutUint32 dataLen) in
    push b data.

Definition AddData (b : ScriptBuilder) (data : list Z) : ScriptBuilder :=
  match err b with
  | Some _ => b
  | None =>
      let dataSize := canonicalDataSize data in
      if len (script b) + dataSize >? MaxScriptSize then fail b
      else
        let dataLen := len data in
        if dataLen >? MaxScriptElementSize then fail b
        else addData b data
  end.

(** [AddInt64]; the outer [option] is [None] when [scriptNum.Bytes] panics. *)
Definition AddInt64 (b : ScriptBuilder) (val : Z) : option ScriptBuilder :=
  match err b with
  | Some _ => Some b
  | None =>
      if len (script b) + 1 >? MaxScriptSize then Some (fail b)
      else if val =? 0 then Some (push b [OP_0])
      else if (val =? -1) || ((1 <=? val) && (val <=? 16))
           then Some (push b [byte_of ((OP_1 - 1) + val)])
           else option_map (AddData b) (scriptNum_Bytes val)
  end.

Definition Script (b : ScriptBuilder) : outcome (list Z) :=
  match err b with
  | Some e => Err e
  | None => Ok (script b)
  end.

(** *** [PayToAddrScript] *)

Definition PayToAddrScript (addr : btcutil.Address) : outcome (list Z) :=
  match addr with
  | btcutil.AddressPubKeyHash hash =>
      Script (AddOp (AddOp (AddData (AddOp (AddOp NewScriptBuilder OP_DUP) OP_HASH160) hash)
                       OP_EQUALVERIFY) OP_CHECKSIG)
  | btcutil.AddressScriptHash hash =>
      Script (AddOp (AddData (AddOp NewScriptBuilder OP_HASH160) hash) OP_EQUAL)
  | btcutil.AddressPubKey serialized =>
      Script (AddOp (AddData NewScriptBuilder serialized) OP_CHECKSIG)
  | btcutil.AddressWitnessPubKeyHash program =>
      Script (AddData (AddOp NewScriptBuilder OP_0) program)
  | btcutil.AddressWitnessScriptHash program =>
      Script (AddData (AddOp NewScriptBuilder OP_0) program)
  | btcutil.AddressTaproot program =>
      Script (AddData (AddOp NewScriptBuilder OP_1) program)
  | btcutil.NilAddress | btcutil.AddressOther => Err ErrUnsupportedAddress
  end.

(** *** Previous outputs, signature hashes and signatures *)

(** [MultiPrevOutFetcher]: a map from outpoints to previous outputs, the
    latest entry first. *)
Definition MultiPrevOutFetcher : Type := list (wire.OutPoint * wire.TxOut).

Definition NewMultiPrevOutFetcher : MultiPrevOutFetcher := [].

Definition AddPrevOut (f : MultiPrevOutFetcher) (op : wire.OutPoint)
    (txOut : wire.TxOut) : MultiPrevOutFetcher :=
  (op, txOut) :: f.

(** The signature-hash algorithm and ECDSA, as an interface. *)
Class SigLib : Type := {
  TxSigHashes : Type;
  NewTxSigHashes : wire.MsgTx -> MultiPrevOutFetcher -> TxSigHashes;
  (** [CalcWitnessSigHash script sigHashes hashType tx idx amt] *)
  CalcWitnessSigHash :
    list Z -> TxSigHashes -> Z -> wire.MsgTx -> Z -> Z -> outcome (list Z);
  PrivateKey : Type;
  (** [ecdsa.Sign(key, hash).Serialize()] *)
  SignSerialize : PrivateKey -> list Z -> list Z
}.

End txscript.

(* ================================================================== *)
(** ** Package [script] *)

Module script.
Import txscript.

Inductive ChainParams : Type := MainNetParams | TestNet3Params | RegressionNetParams.

Record InheritanceScript : Type := mkInheritanceScript {
  OwnerPubKey : list Z;
  InheritorPubKey : list Z;
  RelativeTimelock : Z;
  RedeemScript : list Z;
  Params : ChainParams
}.

(** [calculateRelativeTimelock]: days to the BIP 68 encoding. *)
Definition calculateRelativeTimelock (days : Z) : Z :=
  let totalSeconds := Int64.mul (Int64.mul (Int64.mul days 24) 60) 60 in
  let intervals := Int64.div totalSeconds 512 in
  Z.lor intervals 0x400000.

(** [buildRedeemScript]: the builder is threaded through the calls in the
    order of the source. *)
Definition buildRedeemScript (ownerPubKey inheritorPubKey : list Z)
    (relativeTimelock : Z) : outcome (list Z) :=
  let builder := NewScriptBuilder in
  let builder := AddOp builder OP_IF in
  let builder := AddData builder ownerPubKey in
  let builder := AddOp builder OP_CHECKSIG in
  let builder := AddOp builder OP_ELSE in
  match AddInt64 builder relativeTimelock with
  | None => Panic
  | Some builder =>
      let builder := AddOp builder OP_CHECKSEQUENCEVERIFY in
      let builder := AddOp builder OP_DROP in
      let builder := AddData builder inheritorPubKey in
      let builder := AddOp builder OP_CHECKSIG in
      let builder := AddOp builder OP_ENDIF in
      Script builder
  end.

Definition NewInheritanceScript (ownerPubKey inheritorPubKey : list Z)
    (timelockDays : Z) (chainParams : ChainParams) : outcome InheritanceScript :=
  let relativeTimelock := calculateRelativeTimelock timelockDays in
  redeemScript <- wrapErr ErrBuildRedeemScript
                    (buildRedeemScript ownerPubKey inheritorPubKey relativeTimelock) ;;
  Ok {| OwnerPubKey := ownerPubKey;
        InheritorPubKey := inheritorPubKey;
        RelativeTimelock := relativeTimelock;
        RedeemScript := redeemScript;
        Params := chainParams |}.

(** [ValidateScript]: the four checks in the order of the source. *)
Definition ValidateScript (is_ : InheritanceScript) : outcome unit :=
  if len (RedeemScript is_) =? 0 then Err ErrEmptyScript
  else if negb (len (OwnerPubKey is_) =? 33) then Err ErrOwnerKeyLength
  else if negb (len (InheritorPubKey is_) =? 33) then Err ErrInheritorKeyLength
  else if RelativeTimelock is_ <=? 0 then Err ErrNonPositiveTimelock
  else Ok tt.

Section Commitment.
Context {H : btcutil.Hashes}.

Definition GetP2WSHAddress (is_ : InheritanceScript) : outcome btcutil.Address :=
  let scriptHash := btcutil.Sum256 (RedeemScript is_) in
  wrapErr ErrP2WSHAddress (btcutil.NewAddressWitnessScriptHash scriptHash).

Definition GetScriptHash (is_ : InheritanceScript) : list Z :=
  btcutil.Sum256 (RedeemScript is_).

Definition GetScriptPubKey (is_ : InheritanceScript) : outcome (list Z) :=
  addr <- GetP2WSHAddress is_ ;;
  PayToAddrScript addr.
End Commitment.

End script.

(* ================================================================== *)
(** ** Package [transaction] *)

Module transaction.
Import wire txscript.

(** [UtxoPkScript] is the field [PkScript] of the source. *)
Record UTXO : Type := mkUTXO {
  TxHash : list Z;
  Vout : Z;
  Amount : Z;
  UtxoPkScript : list Z
}.

Record TransactionBuilder : Type := mkTransactionBuilder {
  chainParams : script.ChainParams;
  fee : Z
}.

Definition NewTransactionBuilder (chainParams : script.ChainParams) (fee : Z)
    : TransactionBuilder :=
  {| chainParams := chainParams; fee := fee |}.

Definition BuildOwnerWithdrawTx (tb : TransactionBuilder) (contractUTXO : UTXO)
    (destinationAddr : btcutil.Address) (redeemScript : list Z) : outcome MsgTx :=
  let tx := NewMsgTx TxVersion in
  let outPoint := NewOutPoint (TxHash contractUTXO) (Vout contractUTXO) in
  let txIn := NewTxIn outPoint [] [] in
  let tx := AddTxIn tx txIn in
  let outputAmount := Int64.sub (Amount contractUTXO) (fee tb) in
  if outputAmount <=? 0
  then Err (ErrInsufficientFunds (fee tb) (Amount contractUTXO))
  else
    destinationScript <- wrapErr ErrDestinationScript (PayToAddrScript destinationAddr) ;;
    let txOut := NewTxOut outputAmount destinationScript in
    let tx := AddTxOut tx txOut in
    Ok tx.

Definition BuildInheritorWithdrawTx (tb : TransactionBuilder) (contractUTXO : UTXO)
    (destinationAddr : btcutil.Address) (redeemScript : list Z)
    (relativeTimelock : Z) : outcome MsgTx :=
  let tx := NewMsgTx TxVersion in
  let outPoint := NewOutPoint (TxHash contractUTXO) (Vout contractUTXO) in
  let txIn := NewTxIn outPoint [] [] in
  let txIn := setSequence txIn (Uint32.wrap relativeTimelock) in
  let tx := AddTxIn tx txIn in
  let outputAmount := Int64.sub (Amount contractUTXO) (fee tb) in
  if outputAmount <=? 0
  then Err (ErrInsufficientFunds (fee tb) (Amount contractUTXO))
  else
    destinationScript <- wrapErr ErrDestinationScript (PayToAddrScript destinationAddr) ;;
    let txOut := NewTxOut outputAmount destinationScript in
    let tx := AddTxOut tx txOut in
    Ok tx.

(** The assignment [tx.TxIn[0].Witness = witness], which panics when the
    transaction has no input. *)
Definition setFirstWitness (tx : MsgTx) (witness : list (list Z)) : outcome MsgTx :=
  match TxIns tx with
  | [] => Panic
  | ti :: rest =>
      Ok {| Version := Version tx;
            TxIns := setWitness ti witness :: rest;
            TxOuts := TxOuts tx;
            LockTime := LockTime tx |}
  end.

Section Signing.
Context {H : btcutil.Hashes} {L : SigLib}.

Definition SignOwnerTransaction (tb : TransactionBuilder) (tx : MsgTx)
    (contractUTXO : UTXO) (redeemScript : list Z) (ownerPrivateKey : PrivateKey)
    : outcome MsgTx :=
  let prevOutFetcher := NewMultiPrevOutFetcher in
  let scriptHash := btcutil.Hash160 redeemScript in
  p2wshScript <- wrapErr ErrP2WSHScript
                   (Script (AddData (AddOp NewScriptBuilder OP_0) scriptHash)) ;;
  let prevOut := {| Value := Amount contractUTXO; PkScript := p2wshScript |} in
  let prevOutFetcher :=
    AddPrevOut prevOutFetcher
      (NewOutPoint (TxHash contractUTXO) (Vout contractUTXO)) prevOut in
  let sigHashes := NewTxSigHashes tx prevOutFetcher in
  let hashType := SigHashAll in
  sigHash <- wrapErr ErrSignatureHash
               (CalcWitnessSigHash redeemScript sigHashes hashType tx 0
                  (Amount contractUTXO)) ;;
  let sigBytes := SignSerialize ownerPrivateKey sigHash ++ [byte_of hashType] in
  let witness := [sigBytes; [OP_1]; redeemScript] in
  setFirstWitness tx witness.

Definition SignInheritorTransaction (tb : TransactionBuilder) (tx : MsgTx)
    (contractUTXO : UTXO) (redeemScript : list Z) (inheritorPrivateKey : PrivateKey)
    : outcome MsgTx :=
  let prevOutFetcher := NewMultiPrevOutFetcher in
  let scriptHash := btcutil.Hash160 redeemScript in
  p2wshScript <- wrapErr ErrP2WSHScript
                   (Script (AddData (AddOp NewScriptBuilder OP_0) scriptHash)) ;;
  let prevOut := {| Value := Amount contractUTXO; PkScript := p2wshScript |} in
  let prevOutFetcher :=
    AddPrevOut prevOutFetcher
      (NewOutPoint (TxHash contractUTXO) (Vout contractUTXO)) prevOut in
  let sigHashes := NewTxSigHashes tx prevOutFetcher in
  let hashType := SigHashAll in
  sigHash <- wrapErr ErrSignatureHash
               (CalcWitnessSigHash redeemScript sigHashes hashType tx 0
                  (Amount contractUTXO)) ;;
  let sigBytes := SignSerialize inheritorPrivateKey sigHash ++ [byte_of hashType] in
  let witness := [sigBytes; [OP_0]; redeemScript] in
  setFirstWitness tx witness.
End Signing.

(** The loop [for _, out := range tx.TxOut { totalOut += out.Value }]. *)
Fixpoint sumOutputs (totalOut : Z) (outs : list TxOut) : Z :=
  match outs with
  | [] => totalOut
  | out :: rest => sumOutputs (Int64.add totalOut (Value out)) rest
  end.

(** [ValidateTransaction]; a nil pointer is [None]. *)
Definition ValidateTransaction (tb : TransactionBuilder) (tx : option MsgTx)
    : outcome unit :=
  match tx with
  | None => Err ErrNilTransaction
  | Some tx =>
      if len (TxIns tx) =? 0 then Err ErrNoInputs
      else if len (TxOuts tx) =? 0 then Err ErrNoOutputs
      else
        let totalOut := sumOutputs 0 (TxOuts tx) in
        if totalOut <? 0 then Err ErrNegativeOutputValue
        else Ok tt
  end.

End transaction.

(* ================================================================== *)
(** ** Reading scripts: script numbers, instructions, branches *)

Module Layout.
Import txscript.

(** The value of a little-endian byte string. *)
Fixpoint le_combine (bs : list Z) : Z :=
  match bs with
  | [] => 0
  | b :: rest => b + 256 * le_combine rest
  end.

(** The ledger's script-number reading of a byte string: little-endian
    magnitude, the top bit of the last byte is the sign. *)
Definition scriptNum_decode (bs : list Z) : Z :=
  match bs with
  | [] => 0
  | _ =>
      let v := le_combine bs in
      let sign := 2 ^ (8 * len bs - 1) in
      if sign <=? v then - (v - sign) else v
  end.

(** The minimal-encoding rule for script numbers: no most significant
    byte that is zero apart from the sign bit, unless the byte below it
    needs the room for its own top bit. *)
Definition minimally_encoded (bs : list Z) : bool :=
  match rev bs with
  | [] => true
  | msb :: below =>
      if Z.land msb 0x7f =? 0
      then match below with
           | [] => false
           | b :: _ => negb (Z.land b 0x80 =? 0)
           end
      else true
  end.

Definition is_byteb (z : Z) : bool := (0 <=? z) && (z <=? 255).

(** A script instruction: a plain opcode, or a data push with its opcode. *)
Inductive instr : Type :=
| IOp (opcode : Z)
| IPush (opcode : Z) (data : list Z).

(** The bytes of an instruction whose push, if any, is a direct one
    ([OP_DATA_1] to [OP_DATA_75]). *)
Definition encode_instr (i : instr) : list Z :=
  match i with
  | IOp op => [op]
  | IPush op data => op :: data
  end.

Definition encode_script (l : list instr) : list Z :=
  concat (map encode_instr l).

Definition direct (i : instr) : bool :=
  match i with
  | IOp op => negb ((OP_DATA_1 <=? op) && (op <=? OP_PUSHDATA4))
  | IPush op data => (OP_DATA_1 <=? op) && (op <=? OP_DATA_75) && (len data =? op)
  end.

(** Splitting a script into instructions; [None] on a truncated push.
    Every round consumes at least one byte, so the length of the script
    is enough fuel. *)
Fixpoint disassemble_fuel (fuel : nat) (s : list Z) : option (list instr) :=
  match s with
  | [] => Some []
  | op :: rest =>
      match fuel with
      | O => None
      | S fuel' =>
          let pushed (n : Z) (body : list Z) :=
            if len body <? n then None
            else option_map (cons (IPush op (firstn (Z.to_nat n) body)))
                   (disassemble_fuel fuel' (skipn (Z.to_nat n) body)) in
          if (OP_DATA_1 <=? op) && (op <=? OP_DATA_75) then pushed op rest
          else if op =? OP_PUSHDATA1 then
            match rest with
            | n :: body => pushed n body
            | _ => None
            end
          else if op =? OP_PUSHDATA2 then
            match rest with
            | n0 :: n1 :: body => pushed (le_combine [n0; n1]) body
            | _ => None
            end
          else if op =? OP_PUSHDATA4 then
            match rest with
            | n0 :: n1 :: n2 :: n3 :: body => pushed (le_combine [n0; n1; n2; n3]) body
            | _ => None
            end
          else option_map (cons (IOp op)) (disassemble_fuel fuel' rest)
      end
  end.

Definition disassemble (s : list Z) : option (list instr) :=
  disassemble_fuel (length s) s.

Definition is_op (op : Z) (i : instr) : bool :=
  match i with
  | IOp o => o =? op
  | IPush _ _ => false
  end.

Definition count_op (op : Z) (l : list instr) : nat :=
  length (filter (is_op op) l).

(** The instructions before, and after, the first occurrence of an opcode. *)
Fixpoint before (op : Z) (l : list instr) : list instr :=
  match l with
  | [] => []
  | i :: rest => if is_op op i then [] else i :: before op rest
  end.

Fixpoint after (op : Z) (l : list instr) : list instr :=
  match l with
  | [] => []
  | i :: rest => if is_op op i then rest else after op rest
  end.

Definition if_branch (l : list instr) : list instr :=
  before OP_ELSE (after OP_IF l).

Definition else_branch (l : list instr) : list instr :=
  before OP_ENDIF (after OP_ELSE l).

(** [minimal_num_push t i]: the instruction [i] is the minimal push of the
    script number [t]: the small-integer opcode where there is one,
    otherwise a direct push of the minimal encoding of [t]. *)
Definition minimal_num_push (t : Z) (i : instr) : bool :=
  match i with
  | IOp op =>
      ((t =? 0) && (op =? OP_0))
      || ((t =? -1) && (op =? OP_1NEGATE))
      || ((1 <=? t) && (t <=? 16) && (op =? OP_1 - 1 + t))
  | IPush op bs =>
      negb ((-1 <=? t) && (t <=? 16))
      && (op =? len bs) && (1 <=? op) && (op <=? 9)
      && forallb is_byteb bs
      && (scriptNum_decode bs =? t)
      && minimally_encoded bs
  end.

(** The ten instructions of the locking script around the push [num] of
    the timelock; 0x21 is [OP_DATA_33]. *)
Definition redeem_layout (owner inheritor : list Z) (num : instr) : list instr :=
  [IOp OP_IF; IPush 0x21 owner; IOp OP_CHECKSIG; IOp OP_ELSE; num;
   IOp OP_CHECKSEQUENCEVERIFY; IOp OP_DROP; IPush 0x21 inheritor;
   IOp OP_CHECKSIG; IOp OP_ENDIF].

(** [needle] occurs in [hay] as a contiguous run, as [bytes.Contains]. *)
Definition contains_run (hay needle : list Z) : Prop :=
  exists before_ after_, hay = before_ ++ needle ++ after_.

(** The commitment's spend script: version-0 push opcode, 0x20, and the
    single SHA-256 of the locking script. *)
Definition spendScript {H : btcutil.Hashes} (lockingScript : list Z) : list Z :=
  [OP_0; 0x20] ++ btcutil.Sum256 lockingScript.

(** The selectors the minimal-IF rule admits: one byte 0x01 for the IF
    branch, the empty string for the ELSE branch. *)
Definition minimal_true_selector : list Z := [0x01].
Definition minimal_false_selector : list Z := [].

(** Script truth of a stack element: some byte is non-zero, a final 0x80
    (negative zero) apart. *)
Fixpoint asBool (v : list Z) : bool :=
  match v with
  | [] => false
  | [b] => negb ((b =? 0) || (b =? 0x80))
  | b :: rest => negb (b =? 0) || asBool rest
  end.

End Layout.

(* ================================================================== *)
(** ** Test doubles and sample data *)

Module Sample.
Import wire txscript.

(** Stand-ins of the right output lengths for the two hash functions. *)
Definition checksum (m : list Z) : Z := fold_right Z.add 0 m mod 256.

Definition hashes : btcutil.Hashes :=
  {| btcutil.Sum256 := fun m => repeat (checksum m) 32;
     btcutil.Sum256_length := fun m => repeat_length (checksum m) 32;
     btcutil.Hash160 := fun m => repeat (checksum m) 20;
     btcutil.Hash160_length := fun m => repeat_length (checksum m) 20 |}.

(** A stand-in signer: the digest records the script code and the amount,
    and the input index is checked against the transaction. *)
Definition sigLib : SigLib :=
  {| TxSigHashes := MultiPrevOutFetcher;
     NewTxSigHashes := fun _ fetcher => fetcher;
     CalcWitnessSigHash := fun script_ _ hashType tx idx amt =>
       if idx <? len (TxIns tx)
       then Ok [checksum script_; byte_of amt; byte_of hashType]
       else Err ErrSigHashFailure;
     PrivateKey := Z;
     SignSerialize := fun key digest => 0x30 :: byte_of key :: digest |}.

(** The keys of the package's tests. *)
Definition ownerPubKey : list Z :=
  [0x03; 0x2e; 0x58; 0xd0; 0x8c; 0xa4; 0x5c; 0x7d; 0xa8; 0x7b; 0x2f; 0xc6; 0x9c; 0x5b; 0x8a; 0x5e;
   0x1a; 0x3b; 0x4c; 0x5d; 0x6e; 0x7f; 0x8a; 0x9b; 0x0c; 0x1d; 0x2e; 0x3f; 0x4a; 0x5b; 0x6c; 0x7d; 0x8e].

Definition inheritorPubKey : list Z :=
  [0x02; 0x4a; 0x5b; 0x6c; 0x7d; 0x8e; 0x9f; 0xa1; 0xb2; 0xc3; 0xd4; 0xe5; 0xf6; 0x07; 0x18; 0x29;
   0x3a; 0x4b; 0x5c; 0x6d; 0x7e; 0x8f; 0x90; 0xa1; 0xb2; 0xc3; 0xd4; 0xe5; 0xf6; 0x07; 0x18; 0x29; 0x3a].

Definition fundingHash : list Z := repeat 0xab 32.

Definition utxo (amount : Z) : transaction.UTXO :=
  {| transaction.TxHash := fundingHash;
     transaction.Vout := 0;
     transaction.Amount := amount;
     transaction.UtxoPkScript := [] |}.

Definition builder (fee : Z) : transaction.TransactionBuilder :=
  transaction.NewTransactionBuilder script.TestNet3Params fee.

(** A pay-to-witness-public-key-hash destination. *)
Definition destination : btcutil.Address :=
  btcutil.AddressWitnessPubKeyHash (repeat 0x11 20).

(** An unsigned transaction spending the sample output. *)
Definition spendTx : MsgTx :=
  {| Version := TxVersion;
     TxIns := [NewTxIn (NewOutPoint fundingHash 0) [] []];
     TxOuts := [NewTxOut 99500 (OP_0 :: 0x14 :: repeat 0x11 20)];
     LockTime := 0 |}.

(** A transaction with one input and the outputs -1 and 5. *)
Definition mixedTx : MsgTx :=
  {| Version := TxVersion;
     TxIns := [NewTxIn (NewOutPoint fundingHash 0) [] []];
     TxOuts := [NewTxOut (-1) [OP_0]; NewTxOut 5 [OP_0]];
     LockTime := 0 |}.

(** The redeem script of the sample keys with a 180-day timelock. *)
Definition redeemScript : list Z :=
  match script.buildRedeemScript ownerPubKey inheritorPubKey
          (script.calculateRelativeTimelock 180) with
  | Ok s => s
  | _ => []
  end.

End Sample.

(* ================================================================== *)
(** ** Go strings *)

(** A Go [string] is a sequence of bytes, as a [[]byte] is; [str] turns a
    literal into its bytes. *)
Module gostring.
Import Stdlib.Strings.String.

Definition str (s : String.string) : list Z :=
  map (fun a => Z.of_N (Ascii.N_of_ascii a)) (String.list_ascii_of_string s).

(** The comparison [a == b]. *)
Fixpoint eqb (a b : list Z) : bool :=
  match a, b with
  | [], [] => true
  | x :: a', y :: b' => (x =? y) && eqb a' b'
  | _, _ => false
  end.

(** [s[len(s)-n:]], for [n <= len(s)]. *)
Definition suffix (n : nat) (s : list Z) : list Z :=
  skipn (List.length s - n) s.

(** [s[:len(s)-n]], for [n <= len(s)]. *)
Definition dropEnd (n : nat) (s : list Z) : list Z :=
  firstn (List.length s - n) s.

End gostring.

(** A result of the command-line layers: a value, an error of the layer, or
    a run-time panic. *)
Inductive result (E A : Type) : Type :=
| Done (a : A)
| Failed (e : E)
| Crashed.
Arguments Done {E A} a.
Arguments Failed {E A} e.
Arguments Crashed {E A}.

(* ================================================================== *)
(** ** Package [contract] *)

Module contract.
Import Stdlib.Strings.String.

Record ContractInfo : Type := mkContractInfo {
  ContractID : list Z;
  CreatedAt : Z;
  Network : list Z;
  TimelockDays : Z;
  OwnerWIF : list Z;
  InheritorWIF : list Z;
  RedeemScript : list Z;      (* hex encoded *)
  P2WSHAddress : list Z;
  ScriptHash : list Z;        (* hex encoded *)
  IsFunded : bool;
  FundingTxID : list Z;
  FundingAmount : Z;
  FundingVout : Z
}.

(** An entry of [os.ReadDir]. *)
Record DirEntry : Type := mkDirEntry {
  Name : list Z;
  IsDir : bool
}.

Inductive contractError (E : Type) : Type :=
| ErrReadContractsDir (cause : E).  (* "failed to read contracts directory: %w" *)
Arguments ErrReadContractsDir {E} cause.

Definition jsonExt : list Z := gostring.str ".json".
Definition mainnetPrefix : list Z := gostring.str "mainnet".
Definition testnetPrefix : list Z := gostring.str "testnet".
Definition underscore : list Z := gostring.str "_".

(** [filepath.Ext]: the scan from the end of the path for the last dot of
    its last element ('/' is 47, '.' is 46). *)
Fixpoint Ext_scan (reversed : list Z) (seen : list Z) : list Z :=
  match reversed with
  | [] => []
  | c :: rest =>
      if c =? 47 then []
      else if c =? 46 then c :: seen
      else Ext_scan rest (c :: seen)
  end.

Definition Ext (path : list Z) : list Z := Ext_scan (rev path) [].

(** The loop of [ListContracts] over the directory entries. *)
Fixpoint listLoop (files : list DirEntry) (contractIDs : list (list Z))
    : list (list Z) :=
  match files with
  | [] => contractIDs
  | file :: rest =>
      if negb (IsDir file) && gostring.eqb (Ext (Name file)) jsonExt
      then listLoop rest (contractIDs ++ [gostring.dropEnd 5 (Name file)])
      else listLoop rest contractIDs
  end.

(** [ListContracts]: [dirMissing] is the answer of
    [os.IsNotExist(os.Stat("contracts"))] and [readDir] the result of
    [os.ReadDir("contracts")]. *)
Definition ListContracts {E : Type} (dirMissing : bool)
    (readDir : result E (list DirEntry)) : result (contractError E) (list (list Z)) :=
  if dirMissing then Done []
  else match readDir with
       | Failed e => Failed (ErrReadContractsDir e)
       | Crashed => Crashed
       | Done files => Done (listLoop files [])
       end.

(** The file name [fmt.Sprintf("%s.json", contractID)] that
    [LoadContractInfo] and [SaveContractInfo] open. *)
Definition contractFileName (contractID : list Z) : list Z :=
  contractID ++ jsonExt.

(** [GenerateContractID]: [EncodeAddress] is the method of the address, a
    nil address panics at the call, and so does the slice when the address
    has fewer than 8 bytes. *)
Definition GenerateContractID (EncodeAddress : btcutil.Address -> list Z)
    (p2wshAddr : btcutil.Address) (chainParams : script.ChainParams)
    : result unit (list Z) :=
  match p2wshAddr with
  | btcutil.NilAddress => Crashed
  | _ =>
      let addrStr := EncodeAddress p2wshAddr in
      let networkPrefix :=
        match chainParams with
        | script.MainNetParams => mainnetPrefix
        | _ => testnetPrefix
        end in
      if len addrStr <? 8 then Crashed
      else Done (networkPrefix ++ underscore ++ gostring.suffix 8 addrStr)
  end.

End contract.

(* ================================================================== *)
(** ** Package [config] *)

Module config.
Import Stdlib.Strings.String.

Record RPCConfig : Type := mkRPCConfig {
  Host : list Z;
  User : list Z;
  Pass : list Z;
  HTTPPostMode : bool;
  DisableTLS : bool
}.

Record ContractConfig : Type := mkContractConfig {
  TimelockDays : Z;
  DefaultFee : Z
}.

Record Config : Type := mkConfig {
  ChainParams : script.ChainParams;
  RPC : RPCConfig;          (* the field [RPCConfig] of the source *)
  Contract : ContractConfig
}.

(** The two ways [log.Fatalf] ends the process. *)
Inductive fatal : Type :=
| DotEnvNotFound                       (* ".env file not found: %v" *)
| RequiredEnvNotSet (key : list Z).    (* "Required environment variable %s is not set" *)

(** The environment as [os.Getenv] shows it: the empty string when a
    variable is not set. *)
Definition Env : Type := list Z -> list Z.

Definition isEmpty (s : list Z) : bool :=
  match s with
  | [] => true
  | _ => false
  end.

(** [strconv.ParseInt(value, 10, 64)]: an optional sign, then decimal
    digits, within the range of an [int64]; [None] is its error. *)
Fixpoint parseDigits (acc : Z) (s : list Z) : option Z :=
  match s with
  | [] => Some acc
  | c :: rest =>
      if (48 <=? c) && (c <=? 57) then parseDigits (acc * 10 + (c - 48)) rest
      else None
  end.

Definition ParseInt (s : list Z) : option Z :=
  match s with
  | [] => None
  | c :: rest =>
      let neg := c =? 45 in
      let digits := if (c =? 43) || (c =? 45) then rest else s in
      match digits with
      | [] => None
      | _ =>
          match parseDigits 0 digits with
          | None => None
          | Some un =>
              if neg
              then if un <=? 2 ^ 63 then Some (- un) else None
              else if un <? 2 ^ 63 then Some un else None
          end
      end
  end.

(** [strconv.ParseBool]. *)
Definition ParseBool (s : list Z) : option bool :=
  if existsb (gostring.eqb s)
       [gostring.str "1"; gostring.str "t"; gostring.str "T";
        gostring.str "TRUE"; gostring.str "true"; gostring.str "True"]
  then Some true
  else if existsb (gostring.eqb s)
            [gostring.str "0"; gostring.str "f"; gostring.str "F";
             gostring.str "FALSE"; gostring.str "false"; gostring.str "False"]
  then Some false
  else None.

Definition getEnvString (env : Env) (key defaultValue : list Z) : list Z :=
  let value := env key in
  if negb (isEmpty value) then value else defaultValue.

Definition getRequiredEnvString (env : Env) (key : list Z) : result fatal (list Z) :=
  let value := env key in
  if isEmpty value then Failed (RequiredEnvNotSet key) else Done value.

Definition getEnvInt64 (env : Env) (key : list Z) (defaultValue : Z) : Z :=
  let value := env key in
  if negb (isEmpty value)
  then match ParseInt value with
       | Some intValue => intValue
       | None => defaultValue
       end
  else defaultValue.

Definition getEnvBool (env : Env) (key : list Z) (defaultValue : bool) : bool :=
  let value := env key in
  if negb (isEmpty value)
  then match ParseBool value with
       | Some boolValue => boolValue
       | None => defaultValue
       end
  else defaultValue.

Definition BITCOIN_NETWORK : list Z := gostring.str "BITCOIN_NETWORK".
Definition TIMELOCK_DAYS : list Z := gostring.str "TIMELOCK_DAYS".
Definition DEFAULT_FEE_SATOSHIS : list Z := gostring.str "DEFAULT_FEE_SATOSHIS".
Definition TESTNET_RPC_HOST : list Z := gostring.str "TESTNET_RPC_HOST".
Definition TESTNET_RPC_USER : list Z := gostring.str "TESTNET_RPC_USER".
Definition TESTNET_RPC_PASS : list Z := gostring.str "TESTNET_RPC_PASS".
Definition TESTNET_RPC_HTTP_POST_MODE : list Z := gostring.str "TESTNET_RPC_HTTP_POST_MODE".
Definition TESTNET_RPC_DISABLE_TLS : list Z := gostring.str "TESTNET_RPC_DISABLE_TLS".
Definition MAINNET_RPC_HOST : list Z := gostring.str "MAINNET_RPC_HOST".
Definition MAINNET_RPC_USER : list Z := gostring.str "MAINNET_RPC_USER".
Definition MAINNET_RPC_PASS : list Z := gostring.str "MAINNET_RPC_PASS".
Definition MAINNET_RPC_HTTP_POST_MODE : list Z := gostring.str "MAINNET_RPC_HTTP_POST_MODE".
Definition MAINNET_RPC_DISABLE_TLS : list Z := gostring.str "MAINNET_RPC_DISABLE_TLS".
Definition mainnet : list Z := gostring.str "mainnet".
Definition testnet : list Z := gostring.str "testnet".

(** The fields of the struct literal are evaluated in order, so the first
    missing required variable is the one reported. *)
Definition createTestnetConfig (env : Env) : result fatal Config :=
  match getRequiredEnvString env TESTNET_RPC_HOST with
  | Failed f => Failed f
  | Crashed => Crashed
  | Done host =>
  match getRequiredEnvString env TESTNET_RPC_USER with
  | Failed f => Failed f
  | Crashed => Crashed
  | Done user =>
  match getRequiredEnvString env TESTNET_RPC_PASS with
  | Failed f => Failed f
  | Crashed => Crashed
  | Done pass =>
      Done {| ChainParams := script.TestNet3Params;
              RPC := {| Host := host;
                        User := user;
                        Pass := pass;
                        HTTPPostMode := getEnvBool env TESTNET_RPC_HTTP_POST_MODE true;
                        DisableTLS := getEnvBool env TESTNET_RPC_DISABLE_TLS false |};
              Contract := {| TimelockDays := getEnvInt64 env TIMELOCK_DAYS 180;
                             DefaultFee := getEnvInt64 env DEFAULT_FEE_SATOSHIS 2000 |} |}
  end end end.

Definition createMainnetConfig (env : Env) : result fatal Config :=
  match getRequiredEnvString env MAINNET_RPC_HOST with
  | Failed f => Failed f
  | Crashed => Crashed
  | Done host =>
  match getRequiredEnvString env MAINNET_RPC_USER with
  | Failed f => Failed f
  | Crashed => Crashed
  | Done user =>
  match getRequiredEnvString env MAINNET_RPC_PASS with
  | Failed f => Failed f
  | Crashed => Crashed
  | Done pass =>
      Done {| ChainParams := script.MainNetParams;
              RPC := {| Host := host;
                        User := user;
                        Pass := pass;
                        HTTPPostMode := getEnvBool env MAINNET_RPC_HTTP_POST_MODE true;
                        DisableTLS := getEnvBool env MAINNET_RPC_DISABLE_TLS false |};
              Contract := {| TimelockDays := getEnvInt64 env TIMELOCK_DAYS 180;
                             DefaultFee := getEnvInt64 env DEFAULT_FEE_SATOSHIS 2000 |} |}
  end end end.

Definition setTimelockDays (cfg : Config) (v : Z) : Config :=
  {| ChainParams := ChainParams cfg;
     RPC := RPC cfg;
     Contract := {| TimelockDays := v; DefaultFee := DefaultFee (Contract cfg) |} |}.

Definition setDefaultFee (cfg : Config) (v : Z) : Config :=
  {| ChainParams := ChainParams cfg;
     RPC := RPC cfg;
     Contract := {| TimelockDays := TimelockDays (Contract cfg); DefaultFee := v |} |}.

(** [LoadConfig]: [dotenvLoaded] tells whether [godotenv.Load] succeeded and
    [env] is the environment after it. *)
Definition LoadConfig (dotenvLoaded : bool) (env : Env) : result fatal Config :=
  if negb dotenvLoaded then Failed DotEnvNotFound
  else
    let network := getEnvString env BITCOIN_NETWORK testnet in
    match (if gostring.eqb network mainnet
           then createMainnetConfig env
           else createTestnetConfig env) with
    | Failed f => Failed f
    | Crashed => Crashed
    | Done cfg =>
        let timelockDays := getEnvInt64 env TIMELOCK_DAYS (TimelockDays (Contract cfg)) in
        let cfg := if timelockDays >? 0 then setTimelockDays cfg timelockDays else cfg in
        let defaultFee := getEnvInt64 env DEFAULT_FEE_SATOSHIS (DefaultFee (Contract cfg)) in
        let cfg := if defaultFee >? 0 then setDefaultFee cfg defaultFee else cfg in
        Done cfg
    end.

End config.


(* ================================================================== *)
(** ** Package [main]: the commands *)

Module cmd.
Import Stdlib.Strings.String.
Import wire txscript.

Definition yesShort : list Z := gostring.str "y".
Definition yesLong : list Z := gostring.str "yes".

(** [PersistentPreRun] of the root command: [testnet] and [timelockDays]
    are the two flags, [dotenvLoaded] and [env] what [config.LoadConfig]
    finds, at each of its calls. *)
Definition PersistentPreRun (testnet : bool) (timelockDays : Z)
    (dotenvLoaded : bool) (env : config.Env) : result config.fatal config.Config :=
  match config.LoadConfig dotenvLoaded env with
  | Failed f => Failed f
  | Crashed => Crashed
  | Done cfg =>
      match (if negb testnet then config.LoadConfig dotenvLoaded env else Done cfg) with
      | Failed f => Failed f
      | Crashed => Crashed
      | Done cfg =>
          let cfg := if timelockDays >? 0
                     then config.setTimelockDays cfg timelockDays
                     else cfg in
          Done cfg
      end
  end.

(** The errors the two withdrawal commands return, each wrapping its cause:
    [E] is the type of the errors of the collaborators (standard input,
    the contract file, the decoders, the RPC client). *)
Inductive cliError (E : Type) : Type :=
| ErrReadContractID (cause : E)        (* "failed to read contract ID: %w" *)
| ErrLoadContract (cause : E)          (* "failed to load contract: %w" *)
| ErrNotFunded                         (* "contract is not funded yet" *)
| ErrLoadKeys (cause : E)              (* "failed to load owner keys: %w", "... inheritor keys" *)
| ErrReadDestination (cause : E)       (* "failed to read destination address: %w" *)
| ErrInvalidDestination (cause : E)    (* "invalid destination address: %w" *)
| ErrInvalidFundingHash (cause : E)    (* "invalid funding transaction hash: %w" *)
| ErrDecodeRedeemScript (cause : E)    (* "failed to decode redeem script: %w" *)
| ErrBuildTransaction (cause : error)  (* "failed to build transaction: %w" *)
| ErrSignTransaction (cause : error)   (* "failed to sign transaction: %w" *)
| ErrValidation (cause : error)        (* "transaction validation failed: %w" *)
| ErrSerialize (cause : E)             (* "failed to serialize transaction: %w" *)
| ErrReadConfirmation (cause : E)      (* "failed to read confirmation: %w" *)
| ErrBroadcast (cause : E).            (* "failed to broadcast transaction: %w" *)
Arguments ErrReadContractID {E} cause.
Arguments ErrLoadContract {E} cause.
Arguments ErrNotFunded {E}.
Arguments ErrLoadKeys {E} cause.
Arguments ErrReadDestination {E} cause.
Arguments ErrInvalidDestination {E} cause.
Arguments ErrInvalidFundingHash {E} cause.
Arguments ErrDecodeRedeemScript {E} cause.
Arguments ErrBuildTransaction {E} cause.
Arguments ErrSignTransaction {E} cause.
Arguments ErrValidation {E} cause.
Arguments ErrSerialize {E} cause.
Arguments ErrReadConfirmation {E} cause.
Arguments ErrBroadcast {E} cause.

(** How a withdrawal command ends.  [Aborted] returns an error before any
    broadcast, [Cancelled] returns nil without a broadcast, and
    [BroadcastFailed] and [Broadcast] are the two ends after
    [BroadcastTransaction] has been called with the transaction. *)
Inductive withdrawal (E : Type) : Type :=
| Aborted (e : cliError E)
| Panicked
| Cancelled (tx : MsgTx)
| BroadcastFailed (tx : MsgTx) (e : cliError E)
| Broadcast (tx : MsgTx) (txid : list Z).
Arguments Aborted {E} e.
Arguments Panicked {E}.
Arguments Cancelled {E} tx.
Arguments BroadcastFailed {E} tx e.
Arguments Broadcast {E} tx txid.

(** The transaction a command has built, signed and validated, if it came
    that far, and the transaction it has handed to [BroadcastTransaction]. *)
Definition finished {E : Type} (w : withdrawal E) : option MsgTx :=
  match w with
  | Cancelled tx | BroadcastFailed tx _ | Broadcast tx _ => Some tx
  | Aborted _ | Panicked => None
  end.

Definition handedToBroadcast {E : Type} (w : withdrawal E) : option MsgTx :=
  match w with
  | BroadcastFailed tx _ | Broadcast tx _ => Some tx
  | Cancelled _ | Aborted _ | Panicked => None
  end.

(** The collaborators of the withdrawal commands. *)
Class Collaborators (E : Type) {L : SigLib} : Type := {
  (** [contract.LoadContractInfo] *)
  LoadContractInfo : list Z -> result E contract.ContractInfo;
  (** [keys.KeyPairFromWIF(...)], of which the private key is used *)
  KeyPairFromWIF : list Z -> script.ChainParams -> result E PrivateKey;
  (** [btcutil.DecodeAddress] *)
  DecodeAddress : list Z -> script.ChainParams -> result E btcutil.Address;
  (** [chainhash.NewHashFromStr] *)
  NewHashFromStr : list Z -> result E (list Z);
  (** [hex.DecodeString] *)
  DecodeString : list Z -> result E (list Z);
  (** [strings.TrimSpace] and [strings.ToLower] *)
  TrimSpace : list Z -> list Z;
  ToLower : list Z -> list Z;
  (** [TransactionBuilder.SerializeTransaction] *)
  SerializeTransaction : MsgTx -> result E (list Z);
  (** [RPCClient.BroadcastTransaction] *)
  BroadcastTransaction : MsgTx -> result E (list Z)
}.

(** The three lines read from standard input, in the order of the reads:
    the results of [reader.ReadString('\n')]. *)
Record Stdin (E : Type) : Type := mkStdin {
  readContractID : result E (list Z);
  readDestination : result E (list Z);
  readConfirmation : result E (list Z)
}.
Arguments readContractID {E} s.
Arguments readDestination {E} s.
Arguments readConfirmation {E} s.

Section Withdraw.
Context {E : Type} {H : btcutil.Hashes} {L : SigLib} {C : Collaborators E}.

(** A call of a collaborator, its error wrapped. *)
Definition call {A : Type} (r : result E A) (wrap : E -> cliError E)
    (k : A -> withdrawal E) : withdrawal E :=
  match r with
  | Done a => k a
  | Failed e => Aborted (wrap e)
  | Crashed => Panicked
  end.

(** A call into the packages modelled above, its error wrapped. *)
Definition step {A : Type} (r : outcome A) (wrap : error -> cliError E)
    (k : A -> withdrawal E) : withdrawal E :=
  match r with
  | Ok a => k a
  | Err e => Aborted (wrap e)
  | Panic => Panicked
  end.

Definition ownerWithdraw (cfg : config.Config) (stdin : Stdin E) : withdrawal E :=
  call (readContractID stdin) ErrReadContractID (fun contractID =>
  let contractID := TrimSpace contractID in
  call (LoadContractInfo contractID) ErrLoadContract (fun contractInfo =>
  if negb (contract.IsFunded contractInfo) then Aborted ErrNotFunded else
  call (KeyPairFromWIF (contract.OwnerWIF contractInfo) (config.ChainParams cfg))
    ErrLoadKeys (fun ownerKeys =>
  call (readDestination stdin) ErrReadDestination (fun destAddrStr =>
  let destAddrStr := TrimSpace destAddrStr in
  call (DecodeAddress destAddrStr (config.ChainParams cfg))
    ErrInvalidDestination (fun destAddr =>
  call (NewHashFromStr (contract.FundingTxID contractInfo))
    ErrInvalidFundingHash (fun fundingHash =>
  call (DecodeString (contract.RedeemScript contractInfo))
    ErrDecodeRedeemScript (fun redeemScript =>
  let contractUTXO :=
    {| transaction.TxHash := fundingHash;
       transaction.Vout := contract.FundingVout contractInfo;
       transaction.Amount := contract.FundingAmount contractInfo;
       transaction.UtxoPkScript := [] |} in
  let fee := 500 in
  let txBuilder := transaction.NewTransactionBuilder (config.ChainParams cfg) fee in
  step (transaction.BuildOwnerWithdrawTx txBuilder contractUTXO destAddr redeemScript)
    ErrBuildTransaction (fun tx =>
  step (transaction.SignOwnerTransaction txBuilder tx contractUTXO redeemScript ownerKeys)
    ErrSignTransaction (fun tx =>
  step (transaction.ValidateTransaction txBuilder (Some tx)) ErrValidation (fun _ =>
  call (SerializeTransaction tx) ErrSerialize (fun txHex =>
  call (readConfirmation stdin) ErrReadConfirmation (fun confirm =>
  let confirm := TrimSpace (ToLower confirm) in
  if negb (gostring.eqb confirm yesShort) && negb (gostring.eqb confirm yesLong)
  then Cancelled tx
  else match BroadcastTransaction tx with
       | Done txid => Broadcast tx txid
       | Failed e => BroadcastFailed tx (ErrBroadcast e)
       | Crashed => Panicked
       end)))))))))))).

Definition inheritorWithdraw (cfg : config.Config) (stdin : Stdin E) : withdrawal E :=
  call (readContractID stdin) ErrReadContractID (fun contractID =>
  let contractID := TrimSpace contractID in
  call (LoadContractInfo contractID) ErrLoadContract (fun contractInfo =>
  if negb (contract.IsFunded contractInfo) then Aborted ErrNotFunded else
  let relativeTimelock :=
    Int64.mul (Int64.mul (contract.TimelockDays contractInfo) 24) 6 in
  call (KeyPairFromWIF (contract.InheritorWIF contractInfo) (config.ChainParams cfg))
    ErrLoadKeys (fun inheritorKeys =>
  call (readDestination stdin) ErrReadDestination (fun destAddrStr =>
  let destAddrStr := TrimSpace destAddrStr in
  call (DecodeAddress destAddrStr (config.ChainParams cfg))
    ErrInvalidDestination (fun destAddr =>
  call (NewHashFromStr (contract.FundingTxID contractInfo))
    ErrInvalidFundingHash (fun fundingHash =>
  call (DecodeString (contract.RedeemScript contractInfo))
    ErrDecodeRedeemScript (fun redeemScript =>
  let contractUTXO :=
    {| transaction.TxHash := fundingHash;
       transaction.Vout := contract.FundingVout contractInfo;
       transaction.Amount := contract.FundingAmount contractInfo;
       transaction.UtxoPkScript := [] |} in
  let fee := 500 in
  let txBuilder := transaction.NewTransactionBuilder (config.ChainParams cfg) fee in
  step (transaction.BuildInheritorWithdrawTx txBuilder contractUTXO destAddr
          redeemScript relativeTimelock)
    ErrBuildTransaction (fun tx =>
  step (transaction.SignInheritorTransaction txBuilder tx contractUTXO redeemScript
          inheritorKeys)
    ErrSignTransaction (fun tx =>
  step (transaction.ValidateTransaction txBuilder (Some tx)) ErrValidation (fun _ =>
  call (SerializeTransaction tx) ErrSerialize (fun txHex =>
  call (readConfirmation stdin) ErrReadConfirmation (fun confirm =>
  let confirm := TrimSpace (ToLower confirm) in
  if negb (gostring.eqb confirm yesShort) && negb (gostring.eqb confirm yesLong)
  then Cancelled tx
  else match BroadcastTransaction tx with
       | Done txid => Broadcast tx txid
       | Failed e => BroadcastFailed tx (ErrBroadcast e)
       | Crashed => Panicked
       end)))))))))))).

End Withdraw.

End cmd.

(* ================================================================== *)
(** ** More sample data *)

Module Sample2.
Import Stdlib.Strings.String.

(** A stand-in for the text of an address: a fixed prefix and one letter
    for each byte of the program. *)
Definition encodeAddress (addr : btcutil.Address) : list Z :=
  match addr with
  | btcutil.AddressWitnessScriptHash program
  | btcutil.AddressWitnessPubKeyHash program
  | btcutil.AddressTaproot program =>
      gostring.str "tb1q" ++ map (fun b => 97 + b mod 26) program
  | _ => gostring.str "addr"
  end.

Definition directory : list contract.DirEntry :=
  [ {| contract.Name := gostring.str "testnet_abcdefgh.json"; contract.IsDir := false |};
    {| contract.Name := gostring.str "notes.txt"; contract.IsDir := false |};
    {| contract.Name := gostring.str "backup.json"; contract.IsDir := true |};
    {| contract.Name := gostring.str ".json"; contract.IsDir := false |} ].

(** An environment with the test network's RPC settings and a negative
    day count. *)
Definition env : config.Env := fun key =>
  if gostring.eqb key config.TESTNET_RPC_HOST then gostring.str "localhost:18334"
  else if gostring.eqb key config.TESTNET_RPC_USER then gostring.str "user"
  else if gostring.eqb key config.TESTNET_RPC_PASS then gostring.str "pass"
  else if gostring.eqb key config.TIMELOCK_DAYS then gostring.str "-5"
  else [].

Definition cfg : config.Config :=
  {| config.ChainParams := script.TestNet3Params;
     config.RPC := {| config.Host := gostring.str "localhost:18334";
                      config.User := gostring.str "user";
                      config.Pass := gostring.str "pass";
                      config.HTTPPostMode := true;
                      config.DisableTLS := false |};
     config.Contract := {| config.TimelockDays := 180; config.DefaultFee := 2000 |} |}.

(** A funded contract of 180 days. *)
Definition contractInfo : contract.ContractInfo :=
  {| contract.ContractID := gostring.str "testnet_abcdefgh";
     contract.CreatedAt := 0;
     contract.Network := gostring.str "testnet3";
     contract.TimelockDays := 180;
     contract.OwnerWIF := gostring.str "owner-wif";
     contract.InheritorWIF := gostring.str "inheritor-wif";
     contract.RedeemScript := gostring.str "hex-of-the-script";
     contract.P2WSHAddress := gostring.str "tb1qabcdefgh";
     contract.ScriptHash := gostring.str "hex-of-the-hash";
     contract.IsFunded := true;
     contract.FundingTxID := gostring.str "funding-txid";
     contract.FundingAmount := 100000;
     contract.FundingVout := 0 |}.

(** Stand-ins for the collaborators: every call succeeds. *)
Definition collaborators : @cmd.Collaborators unit Sample.sigLib :=
  {| cmd.LoadContractInfo := fun _ => Done contractInfo;
     cmd.KeyPairFromWIF := fun _ _ => @Done unit (@txscript.PrivateKey Sample.sigLib) 7;
     cmd.DecodeAddress := fun _ _ => Done Sample.destination;
     cmd.NewHashFromStr := fun _ => Done Sample.fundingHash;
     cmd.DecodeString := fun _ => Done Sample.redeemScript;
     cmd.TrimSpace := fun s => s;
     cmd.ToLower := fun s => s;
     cmd.SerializeTransaction := fun _ => Done (gostring.str "hex");
     cmd.BroadcastTransaction := fun _ => Done (gostring.str "txid") |}.

Definition stdin : cmd.Stdin unit :=
  {| cmd.readContractID := Done (gostring.str "testnet_abcdefgh");
     cmd.readDestination := Done (gostring.str "tb1qdestination");
     cmd.readConfirmation := Done (gostring.str "yes") |}.

End Sample2.

(* ================================================================== *)
(** * Properties *)

(** ** Machine integers and bytes *)

Lemma Int64_wrap_small (z : Z) : Int64.InRange z -> Int64.wrap z = z.
Proof.
  unfold Int64.InRange, Int64.wrap, Int64.min_int, Int64.max_int. intros H.
  rewrite Z.mod_small; lia.
Qed.

Lemma Int64_wrap_range (z : Z) : Int64.InRange (Int64.wrap z).
Proof.
  unfold Int64.InRange, Int64.wrap, Int64.min_int, Int64.max_int.
  pose proof (Z.mod_pos_bound (z + 2 ^ 63) (2 ^ 64) ltac:(lia)). lia.
Qed.

(** A property of bytes that holds by enumeration holds of every byte. *)
Lemma forall_bytes (P : Z -> bool) :
  forallb P (map Z.of_nat (seq 0 256)) = true ->
  forall b, is_byte b -> P b = true.
Proof.
  intros Hall b [Hlo Hhi].
  rewrite forallb_forall in Hall. apply Hall.
  apply in_map_iff. exists (Z.to_nat b). split; [lia|].
  apply in_seq. lia.
Qed.

Lemma is_byteb_spec (b : Z) : Layout.is_byteb b = true <-> is_byte b.
Proof. unfold Layout.is_byteb, is_byte. lia. Qed.

(* ------------------------------------------------------------------ *)
(** ** The timelock encoder *)

Lemma lor_flag_below (q : Z) :
  0 <= q < 0x400000 -> Z.land (Z.lor q 0x400000) 0x3FFFFF = q.
Proof.
  intros Hq.
  rewrite Z.land_lor_distr_l.
  change (Z.land 0x400000 0x3FFFFF) with 0. rewrite Z.lor_0_r.
  change 0x3FFFFF with (Z.ones 22). rewrite Z.land_ones by lia.
  apply Z.mod_small. change (2 ^ 22) with 0x400000. lia.
Qed.

Lemma lor_flag_set (q : Z) : Z.land (Z.lor q 0x400000) 0x400000 = 0x400000.
Proof.
  rewrite Z.land_lor_distr_l.
  change (Z.land 0x400000 0x400000) with 0x400000.
  apply Z.bits_inj'. intros n Hn.
  rewrite Z.lor_spec, Z.land_spec.
  destruct (Z.testbit 0x400000 n); [apply orb_true_r | now rewrite andb_false_r].
Qed.

Lemma totalSeconds_exact (days : Z) :
  - 100000000000000 <= days <= 100000000000000 ->
  Int64.mul (Int64.mul (Int64.mul days 24) 60) 60 = days * 86400.
Proof.
  intros H. unfold Int64.mul.
  rewrite (Int64_wrap_small (days * 24))
    by (unfold Int64.InRange, Int64.min_int, Int64.max_int; lia).
  rewrite (Int64_wrap_small (days * 24 * 60))
    by (unfold Int64.InRange, Int64.min_int, Int64.max_int; lia).
  rewrite Int64_wrap_small
    by (unfold Int64.InRange, Int64.min_int, Int64.max_int; lia).
  lia.
Qed.

Lemma lt_pow2_of_bits (x k : Z) :
  0 <= k -> 0 <= x -> (forall n, k <= n -> Z.testbit x n = false) -> x < 2 ^ k.
Proof.
  intros Hk Hx Hbits.
  destruct (Z.eq_dec x 0) as [-> | Hnz]; [apply Z.pow_pos_nonneg; lia|].
  apply Z.log2_lt_pow2; [lia|].
  destruct (Z_lt_le_dec (Z.log2 x) k) as [|Hle]; [assumption|].
  specialize (Hbits _ Hle). rewrite Z.bit_log2 in Hbits by lia. discriminate.
Qed.

Lemma bits_of_lt_pow2 (x k n : Z) :
  0 <= x < 2 ^ k -> k <= n -> Z.testbit x n = false.
Proof.
  intros [Hx Hlt] Hn.
  destruct (Z.eq_dec x 0) as [-> | Hnz]; [apply Z.bits_0|].
  apply Z.bits_above_log2; [lia|].
  assert (0 <= k).
  { destruct (Z_lt_le_dec k 0); [|assumption].
    rewrite Z.pow_neg_r in Hlt by lia. lia. }
  assert (Z.log2 x < k) by (apply Z.log2_lt_pow2; lia). lia.
Qed.

(** Setting bits of an [int64] keeps it an [int64]. *)
Lemma lor_in_range (q m : Z) :
  Int64.InRange q -> 0 <= m < 2 ^ 63 -> Int64.InRange (Z.lor q m).
Proof.
  unfold Int64.InRange, Int64.min_int, Int64.max_int. intros Hq Hm.
  destruct (Z_lt_le_dec q 0) as [Hneg | Hpos].
  - assert (Z.lor q m < 0) by (apply Z.lor_neg; lia).
    assert (Hy : Z.lnot (Z.lor q m) < 2 ^ 63).
    { rewrite Z.lnot_lor. apply lt_pow2_of_bits; [lia| |].
      - apply Z.land_nonneg. left. unfold Z.lnot. lia.
      - intros n Hn. rewrite Z.land_spec.
        rewrite (bits_of_lt_pow2 (Z.lnot q) 63 n); [reflexivity| |assumption].
        unfold Z.lnot. lia. }
    unfold Z.lnot in Hy. lia.
  - assert (0 <= Z.lor q m) by (apply Z.lor_nonneg; lia).
    assert (Z.lor q m < 2 ^ 63); [|lia].
    apply lt_pow2_of_bits; [lia|assumption|].
    intros n Hn. rewrite Z.lor_spec.
    rewrite (bits_of_lt_pow2 q 63 n), (bits_of_lt_pow2 m 63 n) by lia.
    reflexivity.
Qed.

(** The encoder never returns [math.MinInt64], and stays in range. *)
Lemma calculateRelativeTimelock_range (days : Z) :
  Int64.InRange (script.calculateRelativeTimelock days)
  /\ script.calculateRelativeTimelock days <> Int64.min_int.
Proof.
  unfold script.calculateRelativeTimelock.
  set (q := Int64.div _ 512).
  assert (Hq : Int64.InRange q) by apply Int64_wrap_range.
  split.
  - apply lor_in_range; [assumption|lia].
  - intros E.
    assert (Hbit : Z.testbit (Z.lor q 0x400000) 22 = true).
    { rewrite Z.lor_spec. change (Z.testbit 0x400000 22) with true. apply orb_true_r. }
    rewrite E in Hbit. discriminate Hbit.
Qed.

(** C5, as stated, fails: from 24856 days on the interval count needs more
    than 22 bits, and the low 22 bits of the encoding are no longer the
    count (146 against 4194450 at 24856 days). *)
Lemma calculateRelativeTimelock_low_bits_overflow :
  0 <= 24856
  /\ Z.land (script.calculateRelativeTimelock 24856) 0x3FFFFF = 146
  /\ Z.quot (24856 * 86400) 512 = 4194450
  /\ Z.land (script.calculateRelativeTimelock 24856) 0x3FFFFF
     <> Z.quot (24856 * 86400) 512.
Proof. repeat split; try reflexivity; try lia. vm_compute. discriminate. Qed.

(** C5, amended: for every day count the encoding has bit 22 set
    (encoding AND 0x400000 = 0x400000); for every day count from 0 to
    24855 the encoding AND 0x3FFFFF is (days*86400) div 512, the division
    truncating toward zero. *)
Theorem calculateRelativeTimelock_bits (days : Z) :
  Z.land (script.calculateRelativeTimelock days) 0x400000 = 0x400000
  /\ (0 <= days <= 24855 ->
      Z.land (script.calculateRelativeTimelock days) 0x3FFFFF
      = Z.quot (days * 86400) 512).
Proof.
  unfold script.calculateRelativeTimelock. split.
  - apply lor_flag_set.
  - intros Hd.
    rewrite totalSeconds_exact by lia.
    assert (Hq : 0 <= Z.quot (days * 86400) 512 < 0x400000).
    { rewrite Z.quot_div_nonneg by lia. split.
      - apply Z.div_pos; lia.
      - apply Z.div_lt_upper_bound; lia. }
    unfold Int64.div. rewrite Int64_wrap_small
      by (unfold Int64.InRange, Int64.min_int, Int64.max_int; lia).
    apply lor_flag_below. exact Hq.
Qed.

Lemma calculateRelativeTimelock_bits_witness :
  Z.land (script.calculateRelativeTimelock 365) 0x3FFFFF = Z.quot (365 * 86400) 512.
Proof. apply (calculateRelativeTimelock_bits 365). lia. Defined.

(** C8, as stated, fails: the encoding of 180 days is not 0x407647. *)
Lemma encoding_of_180_days_is_not_0x407647 :
  script.calculateRelativeTimelock 180 <> 0x407647.
Proof. vm_compute. discriminate. Qed.

(** C8, amended: the encoding of 180 days is 0x4076A7, computed as
    (180*86400/512) | 0x400000 = 30375 | 0x400000. *)
Theorem calculateRelativeTimelock_180 :
  script.calculateRelativeTimelock 180 = 0x4076A7
  /\ Z.quot (180 * 86400) 512 = 30375
  /\ Z.lor 30375 0x400000 = 0x4076A7.
Proof. repeat split. Qed.

(* ------------------------------------------------------------------ *)
(** ** Script validation *)

Lemma len_nil_iff {A : Type} (l : list A) : len l = 0 <-> l = [].
Proof.
  unfold len. destruct l; simpl; split; intros; try reflexivity; try discriminate; lia.
Qed.




(* ------------------------------------------------------------------ *)
(** ** Script numbers *)

Lemma len_cons {A : Type} (x : A) (l : list A) : len (x :: l) = len l + 1.
Proof. unfold len. simpl length. lia. Qed.

Lemma len_app {A : Type} (a b : list A) : len (a ++ b) = len a + len b.
Proof. unfold len. rewrite length_app. lia. Qed.

Lemma len_nonneg {A : Type} (l : list A) : 0 <= len l.
Proof. unfold len. lia. Qed.

Lemma le_combine_app (a b : list Z) :
  Layout.le_combine (a ++ b)
  = Layout.le_combine a + 256 ^ len a * Layout.le_combine b.
Proof.
  induction a as [|x a IH]; cbn [app Layout.le_combine].
  - change (len (@nil Z)) with 0. rewrite Z.pow_0_r. lia.
  - rewrite IH, len_cons, Z.pow_add_r by (pose proof (len_nonneg a); lia).
    rewrite Z.pow_1_r. ring.
Qed.

Lemma le_combine_bound (bs : list Z) :
  Forall is_byte bs -> 0 <= Layout.le_combine bs < 256 ^ len bs.
Proof.
  induction 1 as [|b bs Hb _ IH]; cbn [Layout.le_combine].
  - change (len (@nil Z)) with 0. rewrite Z.pow_0_r. lia.
  - rewrite len_cons, Z.pow_add_r by (pose proof (len_nonneg bs); lia).
    rewrite Z.pow_1_r. unfold is_byte in Hb. lia.
Qed.

Lemma byte_of_low (n : Z) : byte_of (Z.land n 0xff) = n mod 256.
Proof.
  unfold byte_of. rewrite <- Z.land_assoc.
  change (Z.land 0xff 0xff) with (Z.ones 8). rewrite Z.land_ones by lia. reflexivity.
Qed.

Lemma shiftr8_bound (n k : Z) :
  0 <= k -> 0 <= n < 256 * 256 ^ k -> 0 <= Z.shiftr n 8 < 256 ^ k.
Proof.
  intros Hk Hn. rewrite Z.shiftr_div_pow2 by lia. change (2 ^ 8) with 256. split.
  - apply Z.div_pos; lia.
  - apply Z.div_lt_upper_bound; lia.
Qed.

(** The loop writes the little-endian digits of [n], the last one non-zero. *)
Lemma scriptNum_loop_spec (fuel : nat) :
  forall n acc,
    0 <= n < 256 ^ Z.of_nat fuel ->
    exists bs,
      txscript.scriptNum_loop fuel n acc = acc ++ bs
      /\ Layout.le_combine bs = n
      /\ Forall is_byte bs
      /\ (length bs <= fuel)%nat
      /\ (n = 0 -> bs = [])
      /\ (0 < n -> 0 < last bs 0).
Proof.
  induction fuel as [|fuel IH]; intros n acc Hn.
  - exists []. simpl. rewrite app_nil_r. repeat split; auto; simpl in *; lia.
  - cbn [txscript.scriptNum_loop]. rewrite byte_of_low.
    destruct (Z.ltb_spec 0 n) as [Hpos | Hzero].
    + rewrite Nat2Z.inj_succ, Z.pow_succ_r in Hn by lia.
      pose proof (shiftr8_bound n (Z.of_nat fuel) ltac:(lia) Hn) as Hq.
      destruct (IH (Z.shiftr n 8) (acc ++ [n mod 256]) Hq)
        as (bs & Heq & Hval & Hbytes & Hlen & Hnil & Hlast).
      exists (n mod 256 :: bs). rewrite Heq, <- app_assoc.
      pose proof (Z.mod_pos_bound n 256 ltac:(lia)) as Hm.
      assert (Hdm : n = 256 * Z.shiftr n 8 + n mod 256).
      { rewrite Z.shiftr_div_pow2 by lia. change (2 ^ 8) with 256.
        apply Z.div_mod. lia. }
      repeat split.
      * cbn [Layout.le_combine]. rewrite Hval. lia.
      * constructor; [unfold is_byte; lia | assumption].
      * cbn [length]. lia.
      * lia.
      * intros _. destruct (Z.eq_dec (Z.shiftr n 8) 0) as [E | E].
        -- rewrite (Hnil E). cbn [last]. lia.
        -- destruct bs as [|b bs']; [cbn [Layout.le_combine] in Hval; lia|].
           change (last (n mod 256 :: b :: bs') 0) with (last (b :: bs') 0).
           apply Hlast. lia.
    + exists []. rewrite app_nil_r. repeat split; auto; simpl; try lia.
Qed.

Lemma byte_high_bit (m : Z) : is_byte m -> (Z.land m 0x80 =? 0) = (m <? 128).
Proof.
  intros Hm.
  apply (forall_bytes (fun m => Bool.eqb (Z.land m 0x80 =? 0) (m <? 128)))
    in Hm; [|vm_compute; reflexivity].
  apply Bool.eqb_prop. exact Hm.
Qed.

Lemma byte_set_sign (m : Z) : is_byte m -> m < 128 -> Z.lor m 0x80 = m + 128.
Proof.
  intros Hm Hlt.
  apply (forall_bytes (fun m => negb (m <? 128) || (Z.lor m 0x80 =? m + 128)))
    in Hm; [|vm_compute; reflexivity].
  destruct (Z.ltb_spec m 128); [|lia]. simpl in Hm. lia.
Qed.

Lemma byte_low7 (m : Z) : is_byte m -> Z.land m 0x7f = m mod 128.
Proof.
  intros Hm.
  apply (forall_bytes (fun m => Z.land m 0x7f =? m mod 128))
    in Hm; [|vm_compute; reflexivity].
  lia.
Qed.

Lemma scriptNum_decode_cons (bs : list Z) :
  bs <> [] ->
  Layout.scriptNum_decode bs
  = if 2 ^ (8 * len bs - 1) <=? Layout.le_combine bs
    then - (Layout.le_combine bs - 2 ^ (8 * len bs - 1))
    else Layout.le_combine bs.
Proof. destruct bs; [congruence | reflexivity]. Qed.

Lemma pow_sign (k : Z) : 0 <= k -> 2 ^ (8 * (k + 1) - 1) = 128 * 256 ^ k.
Proof.
  intros Hk. replace (8 * (k + 1) - 1) with (7 + 8 * k) by lia.
  rewrite Z.pow_add_r, Z.pow_mul_r by lia. reflexivity.
Qed.

Lemma minimally_encoded_snoc (init : list Z) (x : Z) :
  Layout.minimally_encoded (init ++ [x])
  = if Z.land x 0x7f =? 0
    then match rev init with
         | [] => false
         | b :: _ => negb (Z.land b 0x80 =? 0)
         end
    else true.
Proof. unfold Layout.minimally_encoded. rewrite rev_unit. reflexivity. Qed.

(** [scriptNum.Bytes] away from zero and from [math.MinInt64]: between one
    and nine bytes that read back as the number and are minimal. *)
Lemma scriptNum_Bytes_spec (t : Z) :
  Int64.InRange t -> t <> Int64.min_int -> t <> 0 ->
  exists bs,
    txscript.scriptNum_Bytes t = Some bs
    /\ Forall is_byte bs
    /\ 1 <= len bs <= 9
    /\ Layout.scriptNum_decode bs = t
    /\ Layout.minimally_encoded bs = true.
Proof.
  unfold Int64.InRange, Int64.min_int, Int64.max_int. intros Hr Hmin Hnz.
  unfold txscript.scriptNum_Bytes.
  destruct (Z.eqb_spec t 0) as [|_]; [contradiction|].
  set (n := if t <? 0 then Int64.neg t else t).
  assert (Hn : n = Z.abs t).
  { unfold n. destruct (Z.ltb_spec t 0); [|lia].
    unfold Int64.neg. rewrite Int64_wrap_small;
      unfold Int64.InRange, Int64.min_int, Int64.max_int; lia. }
  assert (Hnpos : 0 < n < 2 ^ 63) by lia.
  destruct (scriptNum_loop_spec 8 n []) as (bs & Heq & Hval & Hbytes & Hlen & _ & Hlast).
  { change (256 ^ Z.of_nat 8) with (2 ^ 64). lia. }
  simpl app in Heq. rewrite Heq. specialize (Hlast ltac:(lia)).
  destruct (exists_last (l := bs)) as (init & msb & ->).
  { intros ->. cbn in Hval. lia. }
  rewrite last_last in Hlast.
  apply Forall_app in Hbytes. destruct Hbytes as [Hinit Hmsb].
  inversion Hmsb as [|? ? Hm _]; subst x l.
  rewrite le_combine_app in Hval. cbn [Layout.le_combine] in Hval.
  pose proof (le_combine_bound init Hinit) as Hib.
  pose proof (len_nonneg init) as Hli.
  assert (Hpow : 0 < 256 ^ len init) by (apply Z.pow_pos_nonneg; lia).
  rewrite length_app in Hlen. cbn [length] in Hlen.
  assert (Hlen' : len init <= 7) by (unfold len; lia).
  unfold txscript.last_byte.
  replace (match init ++ [msb] with [] => None | _ :: _ => Some (last (init ++ [msb]) 0) end)
    with (Some msb)
    by (rewrite last_last; destruct init; reflexivity).
  rewrite byte_high_bit by assumption.
  destruct (Z.ltb_spec msb 128) as [Hsmall | Hbig]; cbn [negb].
  - (* the top byte has room for the sign *)
    destruct (Z.ltb_spec t 0) as [Hneg | Hnonneg].
    + rewrite removelast_last, byte_set_sign by assumption.
      eexists. split; [reflexivity|].
      split; [apply Forall_app; split; [assumption | constructor; [unfold is_byte in *; lia | constructor]]|].
      split; [rewrite len_app; change (len [msb + 128]) with 1; lia|].
      split.
      * rewrite scriptNum_decode_cons by (destruct init; discriminate).
        rewrite len_app. change (len [msb + 128]) with 1.
        rewrite pow_sign, le_combine_app by lia. cbn [Layout.le_combine].
        destruct (Z.leb_spec (128 * 256 ^ len init)
                    (Layout.le_combine init + 256 ^ len init * (msb + 128 + 256 * 0))); nia.
      * rewrite minimally_encoded_snoc, byte_low7 by (unfold is_byte in *; lia).
        replace ((msb + 128) mod 128) with msb
          by (apply (Z.mod_unique_pos (msb + 128) 128 1 msb); lia).
        destruct (Z.eqb_spec msb 0); [lia | reflexivity].
    + eexists. split; [reflexivity|].
      split; [apply Forall_app; split; assumption|].
      split; [rewrite len_app; change (len [msb]) with 1; lia|].
      split.
      * rewrite scriptNum_decode_cons by (destruct init; discriminate).
        rewrite len_app. change (len [msb]) with 1.
        rewrite pow_sign, le_combine_app by lia. cbn [Layout.le_combine].
        destruct (Z.leb_spec (128 * 256 ^ len init)
                    (Layout.le_combine init + 256 ^ len init * (msb + 256 * 0))); nia.
      * rewrite minimally_encoded_snoc, byte_low7 by assumption.
        rewrite Z.mod_small by lia.
        destruct (Z.eqb_spec msb 0); [lia | reflexivity].
  - (* the top bit is taken: one more byte carries the sign *)
    set (extra := if t <? 0 then 0x80 else 0x00).
    assert (Hextra : extra = 0 /\ 0 <= t \/ extra = 128 /\ t < 0).
    { unfold extra. destruct (Z.ltb_spec t 0); [right | left]; split; (reflexivity || lia). }
    eexists. split; [reflexivity|].
    split.
    { apply Forall_app; split; [apply Forall_app; split; assumption|].
      constructor; [unfold is_byte; lia | constructor]. }
    split; [rewrite !len_app; change (len [msb]) with 1; change (len [extra]) with 1; lia|].
    split.
    * rewrite scriptNum_decode_cons by (destruct init; discriminate).
      rewrite (len_app (init ++ [msb])). change (len [extra]) with 1.
      rewrite pow_sign by (rewrite len_app; change (len [msb]) with 1; lia).
      rewrite (le_combine_app (init ++ [msb])). cbn [Layout.le_combine].
      rewrite le_combine_app. cbn [Layout.le_combine].
      rewrite len_app. change (len [msb]) with 1.
      rewrite Z.pow_add_r, Z.pow_1_r by lia.
      unfold is_byte in Hm.
      destruct (Z.leb_spec (128 * (256 ^ len init * 256))
                  (Layout.le_combine init + 256 ^ len init * (msb + 256 * 0)
                   + 256 ^ len init * 256 * (extra + 256 * 0))); nia.
    * rewrite minimally_encoded_snoc, rev_unit.
      replace (Z.land extra 0x7f) with 0 by (destruct Hextra as [[-> _] | [-> _]]; reflexivity).
      rewrite byte_high_bit by assumption.
      destruct (Z.ltb_spec msb 128); [lia | reflexivity].
Qed.

(** ** The script builder *)

Import txscript.

Lemma byte_of_id (z : Z) : is_byte z -> byte_of z = z.
Proof.
  intros [Hlo Hhi]. unfold byte_of. change 0xff with (Z.ones 8).
  rewrite Z.land_ones by lia. apply Z.mod_small. change (2 ^ 8) with 256. lia.
Qed.

Lemma push_push (b : ScriptBuilder) (x y : list Z) :
  push (push b x) y = push b (x ++ y).
Proof. unfold push. cbn [script err]. now rewrite app_assoc. Qed.

Lemma AddOp_ok (b : ScriptBuilder) (op : Z) :
  err b = None -> len (script b) + 1 <= MaxScriptSize ->
  AddOp b op = push b [op].
Proof.
  intros He Hlen. unfold AddOp. rewrite He.
  destruct (Z.gtb_spec (len (script b) + 1) MaxScriptSize); [lia | reflexivity].
Qed.

(** A push of 2 to 75 bytes is the length byte followed by the data. *)
Lemma AddData_direct (b : ScriptBuilder) (data : list Z) :
  err b = None ->
  2 <= len data <= 75 ->
  len (script b) + 1 + len data <= MaxScriptSize ->
  AddData b data = push b (len data :: data).
Proof.
  intros He Hd Hlen. unfold AddData, canonicalDataSize, addData. rewrite He.
  destruct (Z.eqb_spec (len data) 0); [lia|].
  destruct (Z.eqb_spec (len data) 1); [lia|]. cbn [andb orb].
  unfold OP_PUSHDATA1, MaxScriptElementSize, OP_DATA_1 in *.
  destruct (Z.ltb_spec (len data) 0x4c); [|lia].
  destruct (Z.gtb_spec (len (script b) + (1 + len data)) MaxScriptSize); [lia|].
  destruct (Z.gtb_spec (len data) 520); [lia|].
  rewrite push_push, byte_of_id by (unfold is_byte; lia).
  replace (1 - 1 + len data) with (len data) by lia. reflexivity.
Qed.

(** A one-byte push that no small-integer opcode stands for. *)
Lemma AddData_single (b : ScriptBuilder) (x : Z) :
  err b = None ->
  16 < x -> x <> 0x81 ->
  len (script b) + 2 <= MaxScriptSize ->
  AddData b [x] = push b [1; x].
Proof.
  intros He Hx Hx' Hlen. unfold AddData, canonicalDataSize, addData. rewrite He.
  change (len [x]) with 1. change (hd 0 [x]) with x.
  change (1 =? 0) with false. change (1 =? 1) with true.
  change (1 <? OP_PUSHDATA1) with true.
  change (1 >? MaxScriptElementSize) with false.
  destruct (Z.leb_spec x 16); [lia|].
  destruct (Z.eqb_spec x 0x81); [lia|].
  destruct (Z.eqb_spec x 0); [lia|].
  cbn [andb orb].
  destruct (Z.gtb_spec (len (script b) + (1 + 1)) MaxScriptSize); [lia|].
  rewrite push_push. reflexivity.
Qed.

Lemma scriptNum_decode_single (x : Z) :
  is_byte x ->
  Layout.scriptNum_decode [x] = if x <? 128 then x else - (x - 128).
Proof.
  intros Hx. unfold Layout.scriptNum_decode. cbn [Layout.le_combine].
  change (2 ^ (8 * len [x] - 1)) with 128.
  destruct (Z.leb_spec 128 (x + 256 * 0)); destruct (Z.ltb_spec x 128); lia.
Qed.

Lemma forallb_is_byteb (bs : list Z) :
  Forall is_byte bs -> forallb Layout.is_byteb bs = true.
Proof.
  intros H. apply forallb_forall. intros x Hx.
  rewrite Forall_forall in H. apply is_byteb_spec. auto.
Qed.

(** [AddInt64] appends the minimal push of the number. *)
Lemma AddInt64_minimal (b : ScriptBuilder) (t : Z) :
  err b = None ->
  len (script b) + 10 <= MaxScriptSize ->
  Int64.InRange t -> t <> Int64.min_int ->
  exists i,
    Layout.minimal_num_push t i = true
    /\ Layout.direct i = true
    /\ (forall op, In op [OP_IF; OP_ELSE; OP_ENDIF; OP_CHECKSIG; OP_CHECKSEQUENCEVERIFY] ->
        Layout.is_op op i = false)
    /\ 1 <= len (Layout.encode_instr i) <= 10
    /\ AddInt64 b t = Some (push b (Layout.encode_instr i)).
Proof.
  intros He Hlen Hr Hmin. unfold AddInt64. rewrite He.
  destruct (Z.gtb_spec (len (script b) + 1) MaxScriptSize); [lia|].
  destruct (Z.eqb_spec t 0) as [-> | Hnz].
  { exists (Layout.IOp OP_0). repeat split; try reflexivity; try (cbn; lia).
    intros op Hop. cbn in Hop. cbn. intuition (subst; reflexivity). }
  destruct (Z.eqb_spec t (-1)) as [-> | Hm1].
  { exists (Layout.IOp OP_1NEGATE). repeat split; try reflexivity; try (cbn; lia).
    intros op Hop. cbn in Hop. cbn. intuition (subst; reflexivity). }
  destruct (Z.leb_spec 1 t) as [H1 | H1]; [destruct (Z.leb_spec t 16) as [H16 | H16]|];
    cbn [andb orb].
  { exists (Layout.IOp (OP_1 - 1 + t)). unfold OP_1.
    rewrite byte_of_id by (unfold is_byte; lia).
    split.
    { cbn [Layout.minimal_num_push]. unfold OP_1.
      destruct (Z.leb_spec 1 t); [|lia]. destruct (Z.leb_spec t 16); [|lia].
      rewrite Z.eqb_refl. cbn [andb]. apply orb_true_r. }
    split.
    { cbn [Layout.direct]. unfold OP_DATA_1, OP_PUSHDATA4.
      destruct (Z.leb_spec (0x51 - 1 + t) 0x4e); [lia|]. now rewrite andb_false_r. }
    split.
    { intros op Hop. cbn [Layout.is_op].
      unfold OP_IF, OP_ELSE, OP_ENDIF, OP_CHECKSIG, OP_CHECKSEQUENCEVERIFY in Hop.
      cbn [In] in Hop. apply Z.eqb_neq. lia. }
    split; [cbn; lia | reflexivity]. }
  all: destruct (scriptNum_Bytes_spec t Hr Hmin Hnz)
         as (bs & Hbs & Hbytes & Hblen & Hdec & Hminimal);
       rewrite Hbs; cbn [option_map];
       exists (Layout.IPush (len bs) bs);
       (split;
        [ cbn [Layout.minimal_num_push];
          rewrite Z.eqb_refl, Hminimal, forallb_is_byteb, Hdec, Z.eqb_refl by assumption;
          destruct (Z.leb_spec (-1) t); destruct (Z.leb_spec t 16);
          destruct (Z.leb_spec 1 (len bs)); destruct (Z.leb_spec (len bs) 9);
          cbn [andb negb]; try reflexivity; lia |]);
       (split;
        [ cbn [Layout.direct]; unfold OP_DATA_1, OP_DATA_75;
          rewrite Z.eqb_refl;
          destruct (Z.leb_spec 1 (len bs)); destruct (Z.leb_spec (len bs) 0x4b);
          cbn [andb]; try reflexivity; lia |]);
       (split; [intros; reflexivity|]);
       (split; [cbn [Layout.encode_instr]; rewrite len_cons; lia|]);
       cbn [Layout.encode_instr]; f_equal;
       (destruct (Z.eq_dec (len bs) 1) as [E1 | E1];
        [ destruct bs as [|x [|y bs']];
          [ discriminate E1 | | rewrite !len_cons in E1; pose proof (len_nonneg bs'); lia ];
          pose proof (Forall_inv Hbytes) as Hx;
          rewrite scriptNum_decode_single in Hdec by assumption;
          unfold is_byte in Hx;
          apply AddData_single; try assumption;
          destruct (Z.ltb_spec x 128); lia
        | apply AddData_direct; [assumption | lia | lia] ]).
Qed.


(** ** Disassembly *)

Lemma encode_script_cons (i : Layout.instr) (l : list Layout.instr) :
  Layout.encode_script (i :: l) = Layout.encode_instr i ++ Layout.encode_script l.
Proof. reflexivity. Qed.

(** Disassembling the bytes of a list of direct instructions gives the list back. *)
Lemma disassemble_fuel_encode (l : list Layout.instr) :
  forallb Layout.direct l = true ->
  forall fuel, (length (Layout.encode_script l) <= fuel)%nat ->
  Layout.disassemble_fuel fuel (Layout.encode_script l) = Some l.
Proof.
  induction l as [|i l IH]; intros Hd fuel Hfuel.
  - destruct fuel; reflexivity.
  - cbn [forallb] in Hd. apply andb_prop in Hd. destruct Hd as [Hi Hl].
    rewrite encode_script_cons in *. rewrite length_app in Hfuel.
    destruct i as [op | op data]; cbn [Layout.encode_instr app length] in *.
    + destruct fuel as [|fuel]; [lia|]. cbn [Layout.disassemble_fuel].
      cbn [Layout.direct] in Hi. unfold OP_DATA_1, OP_DATA_75, OP_PUSHDATA1,
        OP_PUSHDATA2, OP_PUSHDATA4 in *.
      destruct (Z.leb_spec 1 op); destruct (Z.leb_spec op 0x4e);
        cbn [andb negb] in Hi; try discriminate;
        destruct (Z.leb_spec op 0x4b); try lia; cbn [andb];
        try (destruct (Z.eqb_spec op 0x4c); [lia|]);
        try (destruct (Z.eqb_spec op 0x4d); [lia|]);
        try (destruct (Z.eqb_spec op 0x4e); [lia|]);
        rewrite IH by (assumption || lia); reflexivity.
    + destruct fuel as [|fuel]; [lia|]. cbn [Layout.disassemble_fuel].
      cbn [Layout.direct] in Hi.
      apply andb_prop in Hi. destruct Hi as [Hi Hlen].
      rewrite Hi. apply Z.eqb_eq in Hlen.
      rewrite len_app.
      destruct (Z.ltb_spec (len data + len (Layout.encode_script l)) op);
        [pose proof (len_nonneg (Layout.encode_script l)); lia|].
      assert (Hn : Z.to_nat op = length data) by (unfold len in Hlen; lia).
      rewrite Hn, firstn_app, skipn_app, Nat.sub_diag, firstn_all, skipn_all.
      cbn [firstn skipn app]. rewrite app_nil_r.
      rewrite IH by (assumption || lia). reflexivity.
Qed.

Lemma disassemble_encode (l : list Layout.instr) :
  forallb Layout.direct l = true ->
  Layout.disassemble (Layout.encode_script l) = Some l.
Proof. intros Hd. apply disassemble_fuel_encode; [assumption | lia]. Qed.

Lemma len_33 (k : list Z) : length k = 33%nat -> len k = 33.
Proof. unfold len. lia. Qed.

Lemma len_nil {A : Type} : len (@nil A) = 0.
Proof. reflexivity. Qed.

(** Side conditions on script sizes. *)
Ltac script_size :=
  cbn [script err push NewScriptBuilder];
  rewrite ?len_app, ?len_cons, ?len_nil;
  unfold MaxScriptSize in *; lia.

(** One builder call on a builder known to be free of errors. *)
Ltac builder_step :=
  match goal with
  | |- context [AddOp (push ?b ?x) ?op] =>
      rewrite (AddOp_ok (push b x) op) by (reflexivity || script_size)
  | |- context [AddData (push ?b ?x) ?d] =>
      rewrite (AddData_direct (push b x) d) by (reflexivity || script_size)
  end.

(** The builder run of [buildRedeemScript], step by step. *)
Lemma buildRedeemScript_layout (o i : list Z) (t : Z) :
  length o = 33%nat -> length i = 33%nat ->
  Int64.InRange t -> t <> Int64.min_int ->
  exists num,
    Layout.minimal_num_push t num = true
    /\ Layout.direct num = true
    /\ (forall op, In op [OP_IF; OP_ELSE; OP_ENDIF; OP_CHECKSIG; OP_CHECKSEQUENCEVERIFY] ->
        Layout.is_op op num = false)
    /\ script.buildRedeemScript o i t
       = Ok (Layout.encode_script (Layout.redeem_layout o i num)).
Proof.
  intros Ho Hi Hr Hmin. apply len_33 in Ho, Hi.
  unfold script.buildRedeemScript.
  rewrite (AddOp_ok NewScriptBuilder) by (reflexivity || script_size).
  repeat builder_step.
  match goal with
  | |- context [AddInt64 ?b t] =>
      destruct (AddInt64_minimal b t) as (num & Hnum & Hdirect & Hops & Hlen & Heq);
      [reflexivity | script_size | assumption | assumption |]
  end.
  rewrite Heq.
  exists num. repeat split; try assumption.
  repeat builder_step.
  unfold Script. cbn [err push script NewScriptBuilder].
  rewrite Ho, Hi. f_equal.
  unfold Layout.redeem_layout, Layout.encode_script.
  cbn [map concat Layout.encode_instr app].
  rewrite <- !app_assoc. reflexivity.
Qed.

Lemma redeem_layout_branches (o i : list Z) (num : Layout.instr) :
  (forall op, In op [OP_IF; OP_ELSE; OP_ENDIF; OP_CHECKSIG; OP_CHECKSEQUENCEVERIFY] ->
   Layout.is_op op num = false) ->
  Layout.if_branch (Layout.redeem_layout o i num)
  = [Layout.IPush 33 o; Layout.IOp OP_CHECKSIG]
  /\ Layout.else_branch (Layout.redeem_layout o i num)
     = [num; Layout.IOp OP_CHECKSEQUENCEVERIFY; Layout.IOp OP_DROP;
        Layout.IPush 33 i; Layout.IOp OP_CHECKSIG]
  /\ Layout.count_op OP_CHECKSEQUENCEVERIFY (Layout.redeem_layout o i num) = 1%nat
  /\ Layout.count_op OP_CHECKSIG
       [num; Layout.IOp OP_CHECKSEQUENCEVERIFY; Layout.IOp OP_DROP;
        Layout.IPush 33 i; Layout.IOp OP_CHECKSIG] = 1%nat.
Proof.
  intros Hops.
  assert (Hendif : Layout.is_op OP_ENDIF num = false) by (apply Hops; cbn; tauto).
  assert (Hsig : Layout.is_op OP_CHECKSIG num = false) by (apply Hops; cbn; tauto).
  assert (Hcsv : Layout.is_op OP_CHECKSEQUENCEVERIFY num = false) by (apply Hops; cbn; tauto).
  unfold Layout.if_branch, Layout.else_branch, Layout.count_op, Layout.redeem_layout.
  unfold OP_IF, OP_ELSE, OP_ENDIF, OP_CHECKSIG, OP_CHECKSEQUENCEVERIFY, OP_DROP in *.
  split; [reflexivity|].
  split; [cbn; rewrite Hendif; reflexivity|].
  split; cbn; [rewrite Hcsv | rewrite Hsig]; reflexivity.
Qed.

(** C1: for 33-byte keys and every int64 timelock other than -2^63 (a
    value the encoder never returns, see [calculateRelativeTimelock_range]),
    [buildRedeemScript] succeeds and the script is, byte for byte,
    OP_IF, push of the owner key, OP_CHECKSIG, OP_ELSE, the minimal
    script-number push of the timelock, OP_CHECKSEQUENCEVERIFY, OP_DROP,
    push of the inheritor key, OP_CHECKSIG, OP_ENDIF.  It disassembles into
    exactly these ten instructions; it begins with 0x63 and ends with 0x68;
    both keys occur as contiguous runs; each branch holds one OP_CHECKSIG
    and the script holds one OP_CHECKSEQUENCEVERIFY. *)
Theorem buildRedeemScript_exact (o i : list Z) (t : Z) :
  length o = 33%nat -> length i = 33%nat ->
  Int64.InRange t -> t <> Int64.min_int ->
  exists (num : Layout.instr) (s : list Z),
    script.buildRedeemScript o i t = Ok s
    /\ Layout.minimal_num_push t num = true
    /\ s = [OP_IF] ++ (0x21 :: o) ++ [OP_CHECKSIG] ++ [OP_ELSE]
           ++ Layout.encode_instr num
           ++ [OP_CHECKSEQUENCEVERIFY] ++ [OP_DROP] ++ (0x21 :: i)
           ++ [OP_CHECKSIG] ++ [OP_ENDIF]
    /\ Layout.disassemble s = Some (Layout.redeem_layout o i num)
    /\ hd_error s = Some 0x63
    /\ last s 0 = 0x68
    /\ Layout.contains_run s o
    /\ Layout.contains_run s i
    /\ Layout.count_op OP_CHECKSIG (Layout.if_branch (Layout.redeem_layout o i num)) = 1%nat
    /\ Layout.count_op OP_CHECKSIG (Layout.else_branch (Layout.redeem_layout o i num)) = 1%nat
    /\ Layout.count_op OP_CHECKSEQUENCEVERIFY (Layout.redeem_layout o i num) = 1%nat.
Proof.
  intros Ho Hi Hr Hmin.
  destruct (buildRedeemScript_layout o i t Ho Hi Hr Hmin)
    as (num & Hnum & Hdirect & Hops & Hbuild).
  destruct (redeem_layout_branches o i num Hops) as (Hif & Helse & Hcsv & Hsig).
  exists num, (Layout.encode_script (Layout.redeem_layout o i num)).
  assert (Hbytes :
    Layout.encode_script (Layout.redeem_layout o i num)
    = [OP_IF] ++ (0x21 :: o) ++ [OP_CHECKSIG] ++ [OP_ELSE]
      ++ Layout.encode_instr num
      ++ [OP_CHECKSEQUENCEVERIFY] ++ [OP_DROP] ++ (0x21 :: i)
      ++ [OP_CHECKSIG] ++ [OP_ENDIF]).
  { unfold Layout.redeem_layout, Layout.encode_script.
    cbn [map concat Layout.encode_instr app]. reflexivity. }
  split; [exact Hbuild|].
  split; [exact Hnum|].
  split; [exact Hbytes|].
  split.
  { apply disassemble_encode. unfold Layout.redeem_layout. cbn [forallb].
    rewrite Hdirect. cbn [Layout.direct]. apply len_33 in Ho, Hi. rewrite Ho, Hi.
    reflexivity. }
  rewrite Hbytes.
  split; [reflexivity|].
  split.
  { rewrite !app_assoc. apply last_last. }
  split.
  { exists [OP_IF; 0x21]. eexists. cbn [app]. reflexivity. }
  split.
  { exists ([OP_IF] ++ (0x21 :: o) ++ [OP_CHECKSIG] ++ [OP_ELSE]
            ++ Layout.encode_instr num
            ++ [OP_CHECKSEQUENCEVERIFY] ++ [OP_DROP] ++ [0x21]).
    exists [OP_CHECKSIG; OP_ENDIF].
    cbn [app]. repeat (rewrite <- app_assoc; cbn [app]). reflexivity. }
  rewrite Hif, Helse. repeat split; assumption || reflexivity.
Qed.

Lemma buildRedeemScript_exact_witness :
  exists (num : Layout.instr) (s : list Z),
    script.buildRedeemScript Sample.ownerPubKey Sample.inheritorPubKey
      (script.calculateRelativeTimelock 180) = Ok s
    /\ Layout.minimal_num_push (script.calculateRelativeTimelock 180) num = true
    /\ Layout.disassemble s = Some (Layout.redeem_layout Sample.ownerPubKey Sample.inheritorPubKey num).
Proof.
  destruct (buildRedeemScript_exact Sample.ownerPubKey Sample.inheritorPubKey
              (script.calculateRelativeTimelock 180))
    as (num & s & H1 & H2 & _ & H3 & _).
  - reflexivity.
  - reflexivity.
  - vm_compute. split; discriminate.
  - vm_compute. discriminate.
  - exists num, s. auto.
Defined.

(* ------------------------------------------------------------------ *)
(** ** The withdrawal builders *)

Import wire transaction.

(** Both builders share the funds check and the output; they differ in the
    sequence number of the input. *)
Lemma BuildOwnerWithdrawTx_unfold (tb : TransactionBuilder) (u : UTXO)
    (dest : btcutil.Address) (rs : list Z) :
  BuildOwnerWithdrawTx tb u dest rs
  = if Int64.sub (Amount u) (fee tb) <=? 0
    then Err (ErrInsufficientFunds (fee tb) (Amount u))
    else match PayToAddrScript dest with
         | Ok s =>
             Ok {| Version := TxVersion;
                   TxIns := [NewTxIn (NewOutPoint (TxHash u) (Vout u)) [] []];
                   TxOuts := [NewTxOut (Int64.sub (Amount u) (fee tb)) s];
                   LockTime := 0 |}
         | Err e => Err (ErrDestinationScript e)
         | Panic => Panic
         end.
Proof.
  unfold BuildOwnerWithdrawTx.
  destruct (Int64.sub (Amount u) (fee tb) <=? 0); [reflexivity|].
  destruct (PayToAddrScript dest); reflexivity.
Qed.

Lemma BuildInheritorWithdrawTx_unfold (tb : TransactionBuilder) (u : UTXO)
    (dest : btcutil.Address) (rs : list Z) (t : Z) :
  BuildInheritorWithdrawTx tb u dest rs t
  = if Int64.sub (Amount u) (fee tb) <=? 0
    then Err (ErrInsufficientFunds (fee tb) (Amount u))
    else match PayToAddrScript dest with
         | Ok s =>
             Ok {| Version := TxVersion;
                   TxIns := [setSequence (NewTxIn (NewOutPoint (TxHash u) (Vout u)) [] [])
                               (Uint32.wrap t)];
                   TxOuts := [NewTxOut (Int64.sub (Amount u) (fee tb)) s];
                   LockTime := 0 |}
         | Err e => Err (ErrDestinationScript e)
         | Panic => Panic
         end.
Proof.
  unfold BuildInheritorWithdrawTx.
  destruct (Int64.sub (Amount u) (fee tb) <=? 0); [reflexivity|].
  destruct (PayToAddrScript dest); reflexivity.
Qed.

Lemma PayToAddrScript_no_panic (dest : btcutil.Address) : PayToAddrScript dest <> Panic.
Proof.
  destruct dest; unfold PayToAddrScript, Script;
    try match goal with |- context [err ?b] => destruct (err b) end; discriminate.
Qed.

(** C4, as stated, fails: the timelock encoded for -1 days is -168, and the
    inheritor's input gets the sequence number 4294967128. *)
Lemma BuildInheritorWithdrawTx_sequence_truncated :
  script.calculateRelativeTimelock (-1) = -168
  /\ exists tx,
       BuildInheritorWithdrawTx (Sample.builder 500) (Sample.utxo 100000)
         Sample.destination Sample.redeemScript (script.calculateRelativeTimelock (-1))
       = Ok tx
       /\ map Sequence (TxIns tx) = [4294967128]
       /\ map Sequence (TxIns tx) <> [script.calculateRelativeTimelock (-1)].
Proof.
  split; [reflexivity|]. eexists. split; [vm_compute; reflexivity|].
  split; [reflexivity | vm_compute; discriminate].
Qed.

(** C4, amended: when building succeeds, the inheritor transaction has one
    input whose sequence number is the supplied timelock reduced to 32 bits,
    [uint32(relativeTimelock)]; it is the supplied timelock itself whenever
    that lies in [0, 2^32).  The owner transaction has one input whose
    sequence number is 0xffffffff, which carries the disable flag (bit 31)
    and so asks for no relative lock. *)
Theorem withdraw_sequence (tb : TransactionBuilder) (u : UTXO)
    (dest : btcutil.Address) (rs : list Z) :
  (forall t tx,
      BuildInheritorWithdrawTx tb u dest rs t = Ok tx ->
      exists txIn,
        TxIns tx = [txIn]
        /\ Sequence txIn = t mod 2 ^ 32
        /\ (0 <= t < 2 ^ 32 -> Sequence txIn = t))
  /\ (forall tx,
      BuildOwnerWithdrawTx tb u dest rs = Ok tx ->
      exists txIn,
        TxIns tx = [txIn]
        /\ Sequence txIn = 0xffffffff
        /\ Z.land (Sequence txIn) SequenceLockTimeDisabled = SequenceLockTimeDisabled).
Proof.
  split.
  - intros t tx. rewrite BuildInheritorWithdrawTx_unfold.
    destruct (_ <=? 0); [discriminate|].
    destruct (PayToAddrScript dest); try discriminate.
    intros E. injection E as <-. eexists. split; [reflexivity|].
    split; [reflexivity|]. intros Ht. cbn. unfold Uint32.wrap. apply Z.mod_small. lia.
  - intros tx. rewrite BuildOwnerWithdrawTx_unfold.
    destruct (_ <=? 0); [discriminate|].
    destruct (PayToAddrScript dest); try discriminate.
    intros E. injection E as <-. eexists. split; [reflexivity|].
    split; reflexivity.
Qed.

Lemma withdraw_sequence_witness :
  exists tx txIn,
    BuildInheritorWithdrawTx (Sample.builder 500) (Sample.utxo 100000)
      Sample.destination Sample.redeemScript (script.calculateRelativeTimelock 180) = Ok tx
    /\ TxIns tx = [txIn]
    /\ Sequence txIn = script.calculateRelativeTimelock 180.
Proof.
  assert (Hb : exists tx,
             BuildInheritorWithdrawTx (Sample.builder 500) (Sample.utxo 100000)
               Sample.destination Sample.redeemScript
               (script.calculateRelativeTimelock 180) = Ok tx)
    by (eexists; vm_compute; reflexivity).
  destruct Hb as [tx Hb].
  destruct (proj1 (withdraw_sequence (Sample.builder 500) (Sample.utxo 100000)
                     Sample.destination Sample.redeemScript) _ tx Hb)
    as (txIn & Hins & _ & Hseq).
  exists tx, txIn. split; [exact Hb|]. split; [exact Hins|].
  apply Hseq. vm_compute. split; [discriminate | reflexivity].
Defined.

(** C6, as stated, fails in both directions.  With a funding value of 1000
    and a fee of 999 the builders still fail when the destination address
    yields no script (here the nil address).  And the funds check is made on
    the 64-bit difference: with a funding value of -2^63 and a fee of 1 the
    fee exceeds the value, yet the difference wraps to 2^63-1 and the
    builders succeed. *)
Lemma withdraw_not_only_insufficient_funds :
  (999 < 1000
   /\ BuildOwnerWithdrawTx (Sample.builder 999) (Sample.utxo 1000)
        btcutil.NilAddress Sample.redeemScript
      = Err (ErrDestinationScript ErrUnsupportedAddress)
   /\ BuildInheritorWithdrawTx (Sample.builder 999) (Sample.utxo 1000)
        btcutil.NilAddress Sample.redeemScript 0x4076A7
      = Err (ErrDestinationScript ErrUnsupportedAddress))
  /\ (1 >= Int64.min_int
      /\ (exists tx,
            BuildOwnerWithdrawTx (Sample.builder 1) (Sample.utxo Int64.min_int)
              Sample.destination Sample.redeemScript = Ok tx
            /\ map Value (TxOuts tx) = [Int64.max_int])
      /\ (exists tx,
            BuildInheritorWithdrawTx (Sample.builder 1) (Sample.utxo Int64.min_int)
              Sample.destination Sample.redeemScript 0x4076A7 = Ok tx
            /\ map Value (TxOuts tx) = [Int64.max_int])).
Proof.
  split; [split; [lia | split; reflexivity]|].
  split; [vm_compute; discriminate|].
  split; eexists; (split; [vm_compute; reflexivity | reflexivity]).
Qed.

(** C6, amended: both builders fail with InsufficientFunds exactly when the
    64-bit difference funding value - fee is not positive; for a funding
    value and a fee that are not negative this is exactly fee >= funding
    value, and the difference is the exact one.  Otherwise they succeed with
    a single output of that value when the destination address yields a
    script, and fail with the destination-script error when it does not. *)
Theorem withdraw_funds (tb : TransactionBuilder) (u : UTXO)
    (dest : btcutil.Address) (rs : list Z) (t : Z) :
  let diff := Int64.sub (Amount u) (fee tb) in
  (BuildOwnerWithdrawTx tb u dest rs = Err (ErrInsufficientFunds (fee tb) (Amount u))
   <-> diff <= 0)
  /\ (BuildInheritorWithdrawTx tb u dest rs t = Err (ErrInsufficientFunds (fee tb) (Amount u))
      <-> diff <= 0)
  /\ (0 <= Amount u <= Int64.max_int -> 0 <= fee tb <= Int64.max_int ->
      diff = Amount u - fee tb /\ (diff <= 0 <-> fee tb >= Amount u))
  /\ (0 < diff ->
      forall s, PayToAddrScript dest = Ok s ->
      exists txo txi,
        BuildOwnerWithdrawTx tb u dest rs = Ok txo
        /\ BuildInheritorWithdrawTx tb u dest rs t = Ok txi
        /\ TxOuts txo = [{| Value := diff; PkScript := s |}]
        /\ TxOuts txi = [{| Value := diff; PkScript := s |}])
  /\ (0 < diff ->
      forall e, PayToAddrScript dest = Err e ->
      BuildOwnerWithdrawTx tb u dest rs = Err (ErrDestinationScript e)
      /\ BuildInheritorWithdrawTx tb u dest rs t = Err (ErrDestinationScript e)).
Proof.
  intros diff.
  rewrite BuildOwnerWithdrawTx_unfold, BuildInheritorWithdrawTx_unfold.
  fold diff.
  pose proof (PayToAddrScript_no_panic dest) as Hnp.
  assert (Hexact : 0 <= Amount u <= Int64.max_int -> 0 <= fee tb <= Int64.max_int ->
                   diff = Amount u - fee tb).
  { intros. unfold diff, Int64.sub. apply Int64_wrap_small.
    unfold Int64.InRange, Int64.min_int, Int64.max_int in *. lia. }
  destruct (Z.leb_spec diff 0) as [Hle | Hgt];
    [| destruct (PayToAddrScript dest) as [s | e |]; [| |contradiction]];
    repeat match goal with
           | |- _ /\ _ => split
           | |- _ <-> _ => split
           | |- _ -> _ => intro
           end;
    try reflexivity; try discriminate; try lia; try congruence;
    try (apply Hexact; assumption);
    try (rewrite (Hexact ltac:(assumption) ltac:(assumption)) in *; lia).
  match goal with E : Ok _ = Ok _ |- _ => injection E as <- end.
  do 2 eexists. repeat split; reflexivity.
Qed.

Lemma withdraw_funds_witness :
  (BuildOwnerWithdrawTx (Sample.builder 1000) (Sample.utxo 1000)
     Sample.destination Sample.redeemScript
   = Err (ErrInsufficientFunds 1000 1000))
  /\ exists txo txi,
       BuildOwnerWithdrawTx (Sample.builder 999) (Sample.utxo 1000)
         Sample.destination Sample.redeemScript = Ok txo
       /\ BuildInheritorWithdrawTx (Sample.builder 999) (Sample.utxo 1000)
            Sample.destination Sample.redeemScript 0x4076A7 = Ok txi
       /\ map Value (TxOuts txo) = [1]
       /\ map Value (TxOuts txi) = [1].
Proof.
  split.
  - apply (withdraw_funds (Sample.builder 1000) (Sample.utxo 1000)
             Sample.destination Sample.redeemScript 0x4076A7).
    vm_compute. discriminate.
  - destruct (withdraw_funds (Sample.builder 999) (Sample.utxo 1000)
                Sample.destination Sample.redeemScript 0x4076A7)
      as (_ & _ & _ & Hok & _).
    destruct (Hok eq_refl _ eq_refl) as (txo & txi & Ho & Hi & Hoo & Hio).
    exists txo, txi. rewrite Hoo, Hio. repeat split; assumption.
Defined.

(* ------------------------------------------------------------------ *)
(** ** Transaction validation *)




(* ------------------------------------------------------------------ *)
(** ** The commitment *)

(** [GetScriptPubKey] returns the spend script: OP_0, 0x20 and the single
    SHA-256 of the redeem script, 34 bytes. *)
Lemma GetScriptPubKey_spendScript {H : btcutil.Hashes} (s : script.InheritanceScript) :
  script.GetScriptPubKey s = Ok (Layout.spendScript (script.RedeemScript s))
  /\ length (Layout.spendScript (script.RedeemScript s)) = 34%nat.
Proof.
  assert (Hlen : len (btcutil.Sum256 (script.RedeemScript s)) = 32)
    by (unfold len; rewrite btcutil.Sum256_length; reflexivity).
  split.
  - unfold script.GetScriptPubKey, script.GetP2WSHAddress,
      btcutil.NewAddressWitnessScriptHash.
    rewrite Hlen. cbn [Z.eqb Pos.eqb wrapErr bind PayToAddrScript].
    rewrite (AddOp_ok NewScriptBuilder) by (reflexivity || script_size).
    rewrite AddData_direct by (reflexivity || script_size).
    unfold Script. cbn [err push script NewScriptBuilder]. rewrite Hlen. reflexivity.
  - unfold Layout.spendScript. cbn [app length].
    rewrite btcutil.Sum256_length. reflexivity.
Qed.

(* ------------------------------------------------------------------ *)
(** ** The signers *)

Section SignerProperties.
Context {H : btcutil.Hashes} {L : SigLib}.

(** The script the signers hand to the signature-hash cache as the previous
    output's script: OP_0, a 20-byte push, HASH160 of the redeem script. *)
Lemma signer_prevout_script (rs : list Z) :
  Script (AddData (AddOp NewScriptBuilder OP_0) (btcutil.Hash160 rs))
  = Ok ([OP_0; 0x14] ++ btcutil.Hash160 rs).
Proof.
  assert (Hlen : len (btcutil.Hash160 rs) = 20)
    by (unfold len; rewrite btcutil.Hash160_length; reflexivity).
  rewrite (AddOp_ok NewScriptBuilder) by (reflexivity || script_size).
  rewrite AddData_direct by (reflexivity || script_size).
  unfold Script. cbn [err push script NewScriptBuilder]. rewrite Hlen. reflexivity.
Qed.

(** A successful signer has obtained a signature hash and found a first
    input; the goal is left at the equation of the signed transaction. *)
Ltac signer_inversion E :=
  rewrite signer_prevout_script in E; cbn [wrapErr bind] in E;
  unfold AddPrevOut, NewMultiPrevOutFetcher, setFirstWitness in E;
  match type of E with
  | context [CalcWitnessSigHash ?a ?b ?c ?d ?e ?f] =>
      let sigHash := fresh "sigHash" in
      let HsigHash := fresh "HsigHash" in
      destruct (CalcWitnessSigHash a b c d e f) as [sigHash | |] eqn:HsigHash;
      cbn [wrapErr bind] in E; try discriminate E
  end;
  match type of E with
  | context [TxIns ?tx] =>
      let txIn := fresh "txIn" in
      let rest := fresh "rest" in
      let Hins := fresh "Hins" in
      destruct (TxIns tx) as [|txIn rest] eqn:Hins; try discriminate E
  end;
  injection E as E; subst.

(** C10: a successful signer changes nothing but the witness of the first
    input: version, lock time and outputs are the same, every input keeps
    its outpoint, signature script and sequence number, and the inputs
    after the first are untouched. *)
Theorem sign_frame (tb : TransactionBuilder) (tx tx' : MsgTx) (u : UTXO)
    (rs : list Z) (key : PrivateKey) :
  SignOwnerTransaction tb tx u rs key = Ok tx'
  \/ SignInheritorTransaction tb tx u rs key = Ok tx' ->
  Version tx' = Version tx
  /\ LockTime tx' = LockTime tx
  /\ TxOuts tx' = TxOuts tx
  /\ map PreviousOutPoint (TxIns tx') = map PreviousOutPoint (TxIns tx)
  /\ map Sequence (TxIns tx') = map Sequence (TxIns tx)
  /\ map SignatureScript (TxIns tx') = map SignatureScript (TxIns tx)
  /\ tl (TxIns tx') = tl (TxIns tx).
Proof.
  intros [E | E]; [unfold SignOwnerTransaction in E | unfold SignInheritorTransaction in E];
    signer_inversion E; cbn; repeat split; reflexivity.
Qed.

(** C3, on the code: after a successful signer the first input's witness
    has three elements: the signature followed by the sighash-type byte
    0x01, the selector, and the redeem script.  The owner's selector is the
    one byte 0x51 and the inheritor's the one byte 0x00: they read as true
    and as false, but they are the bytes of the opcodes OP_1 and OP_0, not
    the minimal selectors 0x01 and the empty string. *)
Theorem sign_witness_stack (tb : TransactionBuilder) (tx tx' : MsgTx) (u : UTXO)
    (rs : list Z) (key : PrivateKey) :
  (SignOwnerTransaction tb tx u rs key = Ok tx' ->
   exists sig txIn rest,
     TxIns tx' = txIn :: rest
     /\ Witness txIn = [sig ++ [0x01]; [0x51]; rs]
     /\ Layout.asBool [0x51] = true
     /\ [0x51] <> Layout.minimal_true_selector)
  /\ (SignInheritorTransaction tb tx u rs key = Ok tx' ->
      exists sig txIn rest,
        TxIns tx' = txIn :: rest
        /\ Witness txIn = [sig ++ [0x01]; [0x00]; rs]
        /\ Layout.asBool [0x00] = false
        /\ [0x00] <> Layout.minimal_false_selector).
Proof.
  split; intros E;
    [unfold SignOwnerTransaction in E | unfold SignInheritorTransaction in E];
    signer_inversion E;
    eexists; eexists; eexists; cbn [TxIns];
    (split; [reflexivity|]); (split; [reflexivity|]);
    (split; [reflexivity | discriminate]).
Qed.

(** C2, on the code: the signers compute the signature hash with the redeem
    script as script code, the funding value as amount, and a previous
    output whose value is the funding value and whose script is the 22
    bytes OP_0, 0x14, HASH160(redeem script).  That script is not the
    34-byte spend script OP_0, 0x20, SHA-256(redeem script). *)
Theorem sign_prevout_script (tb : TransactionBuilder) (tx tx' : MsgTx) (u : UTXO)
    (rs : list Z) (key : PrivateKey) :
  SignOwnerTransaction tb tx u rs key = Ok tx'
  \/ SignInheritorTransaction tb tx u rs key = Ok tx' ->
  let prevScript := [OP_0; 0x14] ++ btcutil.Hash160 rs in
  let prevOut := {| Value := Amount u; PkScript := prevScript |} in
  (exists sigHash txIn rest,
     CalcWitnessSigHash rs
       (NewTxSigHashes tx [(NewOutPoint (TxHash u) (Vout u), prevOut)])
       SigHashAll tx 0 (Amount u) = Ok sigHash
     /\ TxIns tx' = txIn :: rest
     /\ hd [] (Witness txIn) = SignSerialize key sigHash ++ [0x01])
  /\ length prevScript = 22%nat
  /\ length (Layout.spendScript rs) = 34%nat
  /\ prevScript <> Layout.spendScript rs.
Proof.
  intros Hsign prevScript prevOut.
  assert (Hlen : length prevScript = 22%nat)
    by (unfold prevScript; cbn [app length]; rewrite btcutil.Hash160_length; reflexivity).
  assert (Hlen' : length (Layout.spendScript rs) = 34%nat)
    by (unfold Layout.spendScript; cbn [app length]; rewrite btcutil.Sum256_length;
        reflexivity).
  split.
  - destruct Hsign as [E | E];
      [unfold SignOwnerTransaction in E | unfold SignInheritorTransaction in E];
      signer_inversion E;
      eexists; eexists; eexists; (split; [eassumption|]); split; reflexivity.
  - split; [exact Hlen|]. split; [exact Hlen'|].
    intros Heq. rewrite Heq in Hlen. rewrite Hlen in Hlen'. discriminate.
Qed.

End SignerProperties.

Lemma sample_signing :
  (exists tx', @SignOwnerTransaction Sample.hashes Sample.sigLib (Sample.builder 500)
                 Sample.spendTx (Sample.utxo 100000) Sample.redeemScript 7 = Ok tx')
  /\ (exists tx', @SignInheritorTransaction Sample.hashes Sample.sigLib (Sample.builder 500)
                    Sample.spendTx (Sample.utxo 100000) Sample.redeemScript 9 = Ok tx').
Proof. split; eexists; vm_compute; reflexivity. Qed.

Lemma sign_frame_witness :
  exists tx',
    @SignOwnerTransaction Sample.hashes Sample.sigLib (Sample.builder 500)
      Sample.spendTx (Sample.utxo 100000) Sample.redeemScript 7 = Ok tx'
    /\ Version tx' = Version Sample.spendTx
    /\ LockTime tx' = LockTime Sample.spendTx
    /\ TxOuts tx' = TxOuts Sample.spendTx
    /\ map PreviousOutPoint (TxIns tx') = map PreviousOutPoint (TxIns Sample.spendTx)
    /\ map Sequence (TxIns tx') = map Sequence (TxIns Sample.spendTx)
    /\ map SignatureScript (TxIns tx') = map SignatureScript (TxIns Sample.spendTx)
    /\ tl (TxIns tx') = tl (TxIns Sample.spendTx).
Proof.
  destruct (proj1 sample_signing) as [tx' Hsign].
  exists tx'. split; [exact Hsign|].
  apply (@sign_frame Sample.hashes Sample.sigLib (Sample.builder 500)
           Sample.spendTx tx' (Sample.utxo 100000) Sample.redeemScript 7).
  left. exact Hsign.
Defined.

Lemma sign_witness_stack_witness :
  exists tx' sig txIn rest,
    @SignInheritorTransaction Sample.hashes Sample.sigLib (Sample.builder 500)
      Sample.spendTx (Sample.utxo 100000) Sample.redeemScript 9 = Ok tx'
    /\ TxIns tx' = txIn :: rest
    /\ Witness txIn = [sig ++ [0x01]; [0x00]; Sample.redeemScript].
Proof.
  destruct (proj2 sample_signing) as [tx' Hsign].
  destruct (proj2 (@sign_witness_stack Sample.hashes Sample.sigLib (Sample.builder 500)
                     Sample.spendTx tx' (Sample.utxo 100000) Sample.redeemScript 9) Hsign)
    as (sig & txIn & rest & Hins & Hwit & _).
  exists tx', sig, txIn, rest. repeat split; assumption.
Defined.

Lemma sign_prevout_script_witness :
  exists tx',
    @SignOwnerTransaction Sample.hashes Sample.sigLib (Sample.builder 500)
      Sample.spendTx (Sample.utxo 100000) Sample.redeemScript 7 = Ok tx'
    /\ length ([OP_0; 0x14] ++ @btcutil.Hash160 Sample.hashes Sample.redeemScript) = 22%nat
    /\ [OP_0; 0x14] ++ @btcutil.Hash160 Sample.hashes Sample.redeemScript
       <> @Layout.spendScript Sample.hashes Sample.redeemScript.
Proof.
  destruct (proj1 sample_signing) as [tx' Hsign].
  exists tx'. split; [exact Hsign|].
  destruct (@sign_prevout_script Sample.hashes Sample.sigLib (Sample.builder 500)
              Sample.spendTx tx' (Sample.utxo 100000) Sample.redeemScript 7
              (or_introl Hsign))
    as (_ & Hlen & _ & Hneq).
  split; assumption.
Defined.

(* ================================================================== *)
(** * Further properties *)

(** ** The script builder on data of any length *)

Lemma err_fail (b : ScriptBuilder) : err (fail b) = Some ErrScriptNotCanonical.
Proof. reflexivity. Qed.

Lemma AddOp_sticky (b : ScriptBuilder) (op : Z) (e : error) :
  err b = Some e -> AddOp b op = b.
Proof. intros He. unfold AddOp. now rewrite He. Qed.

Lemma AddData_sticky (b : ScriptBuilder) (data : list Z) (e : error) :
  err b = Some e -> AddData b data = b.
Proof. intros He. unfold AddData. now rewrite He. Qed.

Lemma AddInt64_sticky (b : ScriptBuilder) (val : Z) (e : error) :
  err b = Some e -> AddInt64 b val = Some b.
Proof. intros He. unfold AddInt64. now rewrite He. Qed.

Lemma canonicalDataSize_bound (data : list Z) :
  1 <= canonicalDataSize data <= 5 + len data
  /\ (len data <= 520 -> canonicalDataSize data <= 3 + len data)
  /\ (520 < len data -> 520 < canonicalDataSize data).
Proof.
  pose proof (len_nonneg data). unfold canonicalDataSize, OP_PUSHDATA1.
  repeat match goal with
         | |- context [if ?c then _ else _] => destruct c eqn:?
         end;
    rewrite ?andb_true_iff, ?andb_false_iff in *; lia.
Qed.

(** Data of at most 520 bytes is pushed, at a cost of at most three bytes. *)
Lemma AddData_fits (b : ScriptBuilder) (data : list Z) :
  err b = None ->
  len data <= MaxScriptElementSize ->
  len (script b) + 3 + len data <= MaxScriptSize ->
  exists bytes,
    AddData b data = push b bytes /\ 1 <= len bytes <= 3 + len data.
Proof.
  intros He Hd Hlen. unfold MaxScriptElementSize, MaxScriptSize in *.
  pose proof (len_nonneg data) as Hn.
  destruct (canonicalDataSize_bound data) as (Hc & Hc' & _). specialize (Hc' Hd).
  unfold AddData. rewrite He.
  destruct (Z.gtb_spec (len (script b) + canonicalDataSize data) MaxScriptSize);
    [unfold MaxScriptSize in *; lia|].
  destruct (Z.gtb_spec (len data) MaxScriptElementSize);
    [unfold MaxScriptElementSize in *; lia|].
  unfold addData, OP_PUSHDATA1.
  repeat match goal with
         | |- context [if ?c then _ else _] => destruct c eqn:?
         end;
    rewrite ?push_push;
    (eexists; split; [reflexivity|]);
    rewrite ?len_app, ?len_cons, ?len_nil; unfold PutUint16, PutUint32;
    rewrite ?len_cons, ?len_nil; try lia.
  all: rewrite ?Z.leb_gt, ?Z.ltb_ge, ?Z.leb_le in *; lia.
Qed.

(** Data of more than 520 bytes puts the builder into its error state. *)
Lemma AddData_oversize (b : ScriptBuilder) (data : list Z) :
  err b = None ->
  MaxScriptElementSize < len data ->
  AddData b data = fail b.
Proof.
  intros He Hd. unfold AddData. rewrite He.
  destruct (_ >? MaxScriptSize); [reflexivity|].
  destruct (Z.gtb_spec (len data) MaxScriptElementSize); [reflexivity | lia].
Qed.

(** ** Generating a script *)

(** The builder run of [buildRedeemScript] on keys of any length up to 520
    bytes: every push fits, and the script keeps its first and last opcode. *)
Lemma buildRedeemScript_fits (o i : list Z) (t : Z) :
  len o <= 520 -> len i <= 520 ->
  Int64.InRange t -> t <> Int64.min_int ->
  exists po pt pi,
    script.buildRedeemScript o i t
    = Ok ([OP_IF] ++ po ++ [OP_CHECKSIG; OP_ELSE] ++ pt
          ++ [OP_CHECKSEQUENCEVERIFY; OP_DROP] ++ pi ++ [OP_CHECKSIG; OP_ENDIF])
    /\ 1 <= len po <= 3 + len o
    /\ 1 <= len pt <= 10
    /\ 1 <= len pi <= 3 + len i.
Proof.
  intros Ho Hi Hr Hmin. unfold script.buildRedeemScript.
  pose proof (len_nonneg o). pose proof (len_nonneg i).
  rewrite (AddOp_ok NewScriptBuilder) by (reflexivity || script_size).
  destruct (AddData_fits (push NewScriptBuilder [OP_IF]) o)
    as (po & -> & Hpo); [reflexivity | assumption | script_size |].
  repeat builder_step.
  match goal with
  | |- context [AddInt64 ?b t] =>
      destruct (AddInt64_minimal b t) as (num & _ & _ & _ & Hpt & ->);
      [reflexivity | script_size | assumption | assumption |]
  end.
  repeat builder_step.
  match goal with
  | |- context [AddData ?b i] =>
      destruct (AddData_fits b i) as (pi & -> & Hpi);
      [reflexivity | assumption | script_size |]
  end.
  repeat builder_step.
  exists po, (Layout.encode_instr num), pi.
  split; [|repeat split; lia].
  unfold Script. cbn [err push script NewScriptBuilder]. f_equal.
  repeat (rewrite <- app_assoc; cbn [app]). reflexivity.
Qed.

(** One builder call on a builder in its error state. *)
Ltac sticky_step :=
  match goal with
  | |- context [AddOp (fail ?b) ?op] =>
      rewrite (AddOp_sticky (fail b) op ErrScriptNotCanonical) by reflexivity
  | |- context [AddData (fail ?b) ?d] =>
      rewrite (AddData_sticky (fail b) d ErrScriptNotCanonical) by reflexivity
  | |- context [AddInt64 (fail ?b) ?t] =>
      rewrite (AddInt64_sticky (fail b) t ErrScriptNotCanonical) by reflexivity;
      cbv beta iota
  end.

(** Once a key is too long the builder stays in its error state to the end. *)
Lemma buildRedeemScript_oversize (o i : list Z) (t : Z) :
  Int64.InRange t -> t <> Int64.min_int ->
  520 < len o \/ 520 < len i ->
  script.buildRedeemScript o i t = Err ErrScriptNotCanonical.
Proof.
  intros Hr Hmin Hlong. unfold script.buildRedeemScript.
  rewrite (AddOp_ok NewScriptBuilder) by (reflexivity || script_size).
  destruct (Z_lt_le_dec 520 (len o)) as [Hlo | Hso].
  - rewrite AddData_oversize by (reflexivity || assumption).
    repeat sticky_step. reflexivity.
  - destruct Hlong as [|Hli]; [lia|].
    pose proof (len_nonneg o).
    destruct (AddData_fits (push NewScriptBuilder [OP_IF]) o)
      as (po & -> & Hpo); [reflexivity | assumption | script_size |].
    repeat builder_step.
    match goal with
    | |- context [AddInt64 ?b t] =>
        destruct (AddInt64_minimal b t) as (num & _ & _ & _ & Hpt & ->);
        [reflexivity | script_size | assumption | assumption |]
    end.
    repeat builder_step.
    match goal with
    | |- context [AddData ?b i] =>
        rewrite (AddData_oversize b i) by (reflexivity || assumption)
    end.
    repeat sticky_step. reflexivity.
Qed.

Lemma NewInheritanceScript_fits (o i : list Z) (days : Z)
    (params : script.ChainParams) :
  len o <= 520 -> len i <= 520 ->
  exists rs,
    script.NewInheritanceScript o i days params
    = Ok {| script.OwnerPubKey := o;
            script.InheritorPubKey := i;
            script.RelativeTimelock := script.calculateRelativeTimelock days;
            script.RedeemScript := rs;
            script.Params := params |}
    /\ hd_error rs = Some OP_IF
    /\ last rs 0 = OP_ENDIF
    /\ 10 <= len rs <= 1063.
Proof.
  intros Ho Hi.
  destruct (calculateRelativeTimelock_range days) as [Hr Hmin].
  unfold script.NewInheritanceScript.
  destruct (buildRedeemScript_fits o i _ Ho Hi Hr Hmin)
    as (po & pt & pi & -> & Hpo & Hpt & Hpi).
  cbn [wrapErr bind]. eexists. split; [reflexivity|].
  split; [reflexivity|]. split.
  - change [OP_CHECKSIG; OP_ENDIF] with ([OP_CHECKSIG] ++ [OP_ENDIF]).
    rewrite !app_assoc. apply last_last.
  - rewrite !len_app, !len_cons, !len_nil. lia.
Qed.

Lemma NewInheritanceScript_oversize (o i : list Z) (days : Z)
    (params : script.ChainParams) :
  520 < len o \/ 520 < len i ->
  script.NewInheritanceScript o i days params
  = Err (ErrBuildRedeemScript ErrScriptNotCanonical).
Proof.
  intros Hlong. destruct (calculateRelativeTimelock_range days) as [Hr Hmin].
  unfold script.NewInheritanceScript.
  rewrite buildRedeemScript_oversize by assumption. reflexivity.
Qed.

(** X1: [NewInheritanceScript] succeeds exactly when both keys are at most
    520 bytes long, whatever the day count; otherwise it fails with the
    builder's error wrapped as a redeem-script error.  On success the keys
    are stored as given, the timelock is the encoding of the day count, and
    the script starts with OP_IF, ends with OP_ENDIF and has between 10 and
    1063 bytes. *)
Theorem NewInheritanceScript_outcome (o i : list Z) (days : Z)
    (params : script.ChainParams) :
  (len o <= 520 -> len i <= 520 ->
   exists s,
     script.NewInheritanceScript o i days params = Ok s
     /\ script.OwnerPubKey s = o
     /\ script.InheritorPubKey s = i
     /\ script.RelativeTimelock s = script.calculateRelativeTimelock days
     /\ script.Params s = params
     /\ hd_error (script.RedeemScript s) = Some OP_IF
     /\ last (script.RedeemScript s) 0 = OP_ENDIF
     /\ 10 <= len (script.RedeemScript s) <= 1063)
  /\ (520 < len o \/ 520 < len i ->
      script.NewInheritanceScript o i days params
      = Err (ErrBuildRedeemScript ErrScriptNotCanonical)).
Proof.
  split.
  - intros Ho Hi.
    destruct (NewInheritanceScript_fits o i days params Ho Hi)
      as (rs & -> & Hhd & Hlast & Hlen).
    eexists. split; [reflexivity|]. cbn. repeat split; assumption || lia.
  - apply NewInheritanceScript_oversize.
Qed.

Lemma NewInheritanceScript_outcome_witness :
  exists s,
    script.NewInheritanceScript [] (repeat 7 520) (-3) script.MainNetParams = Ok s
    /\ script.OwnerPubKey s = [].
Proof.
  destruct (proj1 (NewInheritanceScript_outcome [] (repeat 7 520) (-3) script.MainNetParams))
    as (s & Hs & Ho & _).
  - vm_compute. discriminate.
  - vm_compute. discriminate.
  - exists s. split; assumption.
Defined.

(** What [NewInheritanceScript] returns when it succeeds. *)
Lemma NewInheritanceScript_inv (o i : list Z) (days : Z)
    (params : script.ChainParams) (s : script.InheritanceScript) :
  script.NewInheritanceScript o i days params = Ok s ->
  script.OwnerPubKey s = o
  /\ script.InheritorPubKey s = i
  /\ script.RelativeTimelock s = script.calculateRelativeTimelock days
  /\ script.RedeemScript s <> [].
Proof.
  intros Hs.
  destruct (Z_lt_le_dec 520 (len o)) as [Hlo | Hso];
    [rewrite NewInheritanceScript_oversize in Hs by (left; assumption); discriminate|].
  destruct (Z_lt_le_dec 520 (len i)) as [Hli | Hsi];
    [rewrite NewInheritanceScript_oversize in Hs by (right; assumption); discriminate|].
  destruct (NewInheritanceScript_fits o i days params Hso Hsi)
    as (rs & Heq & Hhd & _).
  rewrite Heq in Hs. injection Hs as <-. cbn.
  repeat (split; [reflexivity|]).
  intros ->. discriminate Hhd.
Qed.

(** X2: validating a script that [NewInheritanceScript] returned never
    reports an empty script; the result is decided by the length of the
    owner key, then of the inheritor key, then by the sign of the encoded
    day count. *)
Theorem generated_script_validation (o i : list Z) (days : Z)
    (params : script.ChainParams) (s : script.InheritanceScript) :
  script.NewInheritanceScript o i days params = Ok s ->
  script.ValidateScript s <> Err ErrEmptyScript
  /\ script.ValidateScript s
     = if negb (len o =? 33) then Err ErrOwnerKeyLength
       else if negb (len i =? 33) then Err ErrInheritorKeyLength
       else if script.calculateRelativeTimelock days <=? 0
            then Err ErrNonPositiveTimelock
            else Ok tt.
Proof.
  intros Hs.
  destruct (NewInheritanceScript_inv o i days params s Hs) as (Ho & Hi & Ht & Hne).
  assert (Hform :
    script.ValidateScript s
    = if negb (len o =? 33) then Err ErrOwnerKeyLength
      else if negb (len i =? 33) then Err ErrInheritorKeyLength
      else if script.calculateRelativeTimelock days <=? 0
           then Err ErrNonPositiveTimelock
           else Ok tt).
  { unfold script.ValidateScript. rewrite Ho, Hi, Ht.
    destruct (Z.eqb_spec (len (script.RedeemScript s)) 0) as [E | _]; [|reflexivity].
    apply len_nil_iff in E. contradiction. }
  split; [|exact Hform].
  rewrite Hform.
  destruct (negb _); [discriminate|].
  destruct (negb _); [discriminate|].
  destruct (_ <=? 0); discriminate.
Qed.

Lemma generated_script_validation_witness :
  exists s,
    script.NewInheritanceScript (repeat 0 32) (repeat 0 33) 365 script.TestNet3Params = Ok s
    /\ script.ValidateScript s = Err ErrOwnerKeyLength.
Proof.
  assert (Hs : exists s,
             script.NewInheritanceScript (repeat 0 32) (repeat 0 33) 365
               script.TestNet3Params = Ok s)
    by (eexists; vm_compute; reflexivity).
  destruct Hs as [s Hs]. exists s. split; [exact Hs|].
  destruct (generated_script_validation _ _ _ _ s Hs) as [_ ->]. reflexivity.
Defined.

(** ** The sign of the encoded timelock *)

(** The largest day count whose seconds fit an [int64]. *)
Lemma totalSeconds_exact_wide (days : Z) :
  - 106751991167300 <= days <= 106751991167300 ->
  Int64.mul (Int64.mul (Int64.mul days 24) 60) 60 = days * 86400.
Proof.
  intros Hd. unfold Int64.mul.
  rewrite (Int64_wrap_small (days * 24))
    by (unfold Int64.InRange, Int64.min_int, Int64.max_int; lia).
  rewrite (Int64_wrap_small (days * 24 * 60))
    by (unfold Int64.InRange, Int64.min_int, Int64.max_int; lia).
  rewrite Int64_wrap_small
    by (unfold Int64.InRange, Int64.min_int, Int64.max_int; lia).
  lia.
Qed.

Lemma calculateRelativeTimelock_sign (days : Z) :
  - 106751991167300 <= days <= 106751991167300 ->
  (0 <= days -> 0 < script.calculateRelativeTimelock days)
  /\ (days < 0 -> script.calculateRelativeTimelock days < 0).
Proof.
  intros Hd. unfold script.calculateRelativeTimelock.
  rewrite totalSeconds_exact_wide by assumption.
  unfold Int64.div.
  assert (Hq : Int64.InRange (Z.quot (days * 86400) 512)).
  { unfold Int64.InRange, Int64.min_int, Int64.max_int.
    pose proof (Z.quot_div (days * 86400) 512 ltac:(lia)) as Hqd.
    destruct (Z_lt_le_dec days 0).
    - rewrite <- (Z.opp_involutive (days * 86400)), Z.quot_opp_l by lia.
      rewrite Z.quot_div_nonneg by lia.
      assert (0 <= - (days * 86400) / 512 <= 2 ^ 63 - 1); [|lia].
      split; [apply Z.div_pos; lia|].
      apply Z.div_le_upper_bound; lia.
    - rewrite Z.quot_div_nonneg by lia. split.
      + assert (0 <= days * 86400 / 512) by (apply Z.div_pos; lia). lia.
      + apply Z.div_le_upper_bound; lia. }
  rewrite Int64_wrap_small by assumption.
  split; intros Hs.
  - assert (Hnn : 0 <= Z.lor (Z.quot (days * 86400) 512) 0x400000).
    { apply Z.lor_nonneg. split; [|lia].
      rewrite Z.quot_div_nonneg by lia. apply Z.div_pos; lia. }
    assert (Hnz : Z.lor (Z.quot (days * 86400) 512) 0x400000 <> 0).
    { intros E. apply Z.lor_eq_0_iff in E. destruct E as [_ E]. discriminate E. }
    lia.
  - apply Z.lor_neg. left.
    rewrite <- (Z.opp_involutive (days * 86400)), Z.quot_opp_l by lia.
    rewrite Z.quot_div_nonneg by lia.
    assert (0 < - (days * 86400) / 512); [|lia].
    apply Z.div_str_pos. lia.
Qed.

(** X3: with two 33-byte keys and a day count whose seconds fit an int64
    (at most 106751991167300 days either way), generation succeeds; the
    script passes validation when the day count is 0 or more and fails it
    with NonPositiveTimelock when the day count is negative. *)
Theorem generated_script_day_count (o i : list Z) (days : Z)
    (params : script.ChainParams) :
  length o = 33%nat -> length i = 33%nat ->
  - 106751991167300 <= days <= 106751991167300 ->
  exists s,
    script.NewInheritanceScript o i days params = Ok s
    /\ (0 <= days -> script.ValidateScript s = Ok tt)
    /\ (days < 0 ->
        script.RelativeTimelock s < 0
        /\ script.ValidateScript s = Err ErrNonPositiveTimelock).
Proof.
  intros Ho Hi Hd. apply len_33 in Ho, Hi.
  destruct (NewInheritanceScript_fits o i days params) as (rs & Hs & Hhd & _); try lia.
  eexists. split; [exact Hs|].
  destruct (calculateRelativeTimelock_sign days Hd) as [Hpos Hneg].
  assert (Hne : (len rs =? 0) = false).
  { apply Z.eqb_neq. intros E. apply len_nil_iff in E. subst rs. discriminate Hhd. }
  unfold script.ValidateScript.
  cbn [script.RedeemScript script.OwnerPubKey script.InheritorPubKey
         script.RelativeTimelock].
  rewrite Hne, Ho, Hi. cbn [Z.eqb Pos.eqb negb].
  split; [intros H0 | intros H0; split; [auto|]].
  - specialize (Hpos H0). destruct (Z.leb_spec (script.calculateRelativeTimelock days) 0);
      [lia | reflexivity].
  - specialize (Hneg H0). destruct (Z.leb_spec (script.calculateRelativeTimelock days) 0);
      [reflexivity | lia].
Qed.

Lemma generated_script_day_count_witness :
  exists s,
    script.NewInheritanceScript Sample.ownerPubKey Sample.inheritorPubKey (-1)
      script.TestNet3Params = Ok s
    /\ script.ValidateScript s = Err ErrNonPositiveTimelock.
Proof.
  destruct (generated_script_day_count Sample.ownerPubKey Sample.inheritorPubKey (-1)
              script.TestNet3Params eq_refl eq_refl)
    as (s & Hs & _ & Hneg).
  - lia.
  - exists s. split; [exact Hs|]. apply Hneg. lia.
Defined.

(** ** The commitment *)

(** X4: for every script, the witness-program address is always obtained
    and carries the 32-byte SHA-256 of the redeem script, [GetScriptHash]
    returns the same 32 bytes, and [GetScriptPubKey] returns the 34 bytes
    0x00, 0x20 followed by that hash. *)
Theorem commitment_of_script {H : btcutil.Hashes} (s : script.InheritanceScript) :
  script.GetP2WSHAddress s
  = Ok (btcutil.AddressWitnessScriptHash (script.GetScriptHash s))
  /\ length (script.GetScriptHash s) = 32%nat
  /\ script.GetScriptPubKey s = Ok ([0x00; 0x20] ++ script.GetScriptHash s)
  /\ length ([0x00; 0x20] ++ script.GetScriptHash s) = 34%nat.
Proof.
  assert (Hlen : length (script.GetScriptHash s) = 32%nat)
    by apply btcutil.Sum256_length.
  assert (Haddr : script.GetP2WSHAddress s
                  = Ok (btcutil.AddressWitnessScriptHash (script.GetScriptHash s))).
  { unfold script.GetP2WSHAddress, btcutil.NewAddressWitnessScriptHash.
    fold (script.GetScriptHash s).
    replace (len (script.GetScriptHash s)) with 32 by (unfold len; lia).
    reflexivity. }
  split; [exact Haddr|]. split; [exact Hlen|]. split.
  - exact (proj1 (GetScriptPubKey_spendScript s)).
  - cbn [app length]. rewrite Hlen. reflexivity.
Qed.

Lemma commitment_of_script_witness :
  exists s,
    script.NewInheritanceScript Sample.ownerPubKey Sample.inheritorPubKey 180
      script.TestNet3Params = Ok s
    /\ length (@script.GetScriptHash Sample.hashes s) = 32%nat.
Proof.
  assert (Hs : exists s,
            script.NewInheritanceScript Sample.ownerPubKey Sample.inheritorPubKey 180
              script.TestNet3Params = Ok s)
    by (eexists; vm_compute; reflexivity).
  destruct Hs as [s Hs]. exists s. split; [exact Hs|].
  exact (proj1 (proj2 (@commitment_of_script Sample.hashes s))).
Defined.

(** ** The encoder on day counts that fit *)

Lemma land_flag_below (q : Z) : 0 <= q < 0x400000 -> Z.land q 0x400000 = 0.
Proof.
  intros Hq. apply Z.bits_inj'. intros n Hn.
  rewrite Z.land_spec, Z.bits_0.
  destruct (Z.eq_dec n 22) as [-> | Hne].
  - rewrite (bits_of_lt_pow2 q 22 22) by (change (2 ^ 22) with 0x400000; lia).
    reflexivity.
  - change 0x400000 with (2 ^ 22). rewrite Z.pow2_bits_false by lia.
    apply andb_false_r.
Qed.

Lemma calculateRelativeTimelock_small (days : Z) :
  0 <= days <= 24855 ->
  script.calculateRelativeTimelock days = (days * 86400) / 512 + 0x400000.
Proof.
  intros Hd. unfold script.calculateRelativeTimelock.
  rewrite totalSeconds_exact by lia.
  assert (Hq : 0 <= (days * 86400) / 512 < 0x400000).
  { split; [apply Z.div_pos; lia | apply Z.div_lt_upper_bound; lia]. }
  unfold Int64.div. rewrite Z.quot_div_nonneg by lia.
  rewrite Int64_wrap_small
    by (unfold Int64.InRange, Int64.min_int, Int64.max_int; lia).
  pose proof (Z.add_lor_land ((days * 86400) / 512) 0x400000) as Hadd.
  rewrite land_flag_below in Hadd by assumption. lia.
Qed.

(** X5: between 0 and 24855 days the encoder is strictly increasing, so
    different day counts give different timelocks and a longer delay a
    larger one; one more day adds at least 168 intervals. *)
Theorem calculateRelativeTimelock_increasing (a b : Z) :
  0 <= a -> a < b -> b <= 24855 ->
  script.calculateRelativeTimelock a + 168 * (b - a)
  <= script.calculateRelativeTimelock b.
Proof.
  intros Ha Hab Hb.
  rewrite !calculateRelativeTimelock_small by lia.
  assert (a * 86400 / 512 + 168 * (b - a) <= b * 86400 / 512); [|lia].
  replace (a * 86400 / 512 + 168 * (b - a))
    with ((a * 86400 + 168 * (b - a) * 512) / 512)
    by (rewrite Z.div_add by lia; reflexivity).
  apply Z.div_le_mono; lia.
Qed.

Lemma calculateRelativeTimelock_increasing_witness :
  script.calculateRelativeTimelock 30 + 168 * (180 - 30)
  <= script.calculateRelativeTimelock 180.
Proof. apply calculateRelativeTimelock_increasing; lia. Defined.

(** ** Built transactions *)

Lemma Int64_sub_range (a b : Z) : Int64.InRange (Int64.sub a b).
Proof. apply Int64_wrap_range. Qed.

(** X6: the inheritor builder is the owner builder followed by the
    assignment of the sequence number: both fail alike, and on success the
    two transactions differ in that field only.  A transaction the owner
    builder returns has version 1, lock time 0, one input that spends the
    funding outpoint with an empty signature script, no witness and the
    sequence 0xffffffff, and one output with a positive value. *)
Theorem builders_agree (tb : TransactionBuilder) (u : UTXO)
    (dest : btcutil.Address) (rs : list Z) (t : Z) :
  BuildInheritorWithdrawTx tb u dest rs t
  = match BuildOwnerWithdrawTx tb u dest rs with
    | Ok tx =>
        Ok {| Version := Version tx;
              TxIns := map (fun txIn => setSequence txIn (Uint32.wrap t)) (TxIns tx);
              TxOuts := TxOuts tx;
              LockTime := LockTime tx |}
    | Err e => Err e
    | Panic => Panic
    end
  /\ forall tx,
       BuildOwnerWithdrawTx tb u dest rs = Ok tx ->
       exists destinationScript,
         PayToAddrScript dest = Ok destinationScript
         /\ Version tx = 1
         /\ LockTime tx = 0
         /\ TxIns tx = [{| PreviousOutPoint := {| Hash := TxHash u; Index := Vout u |};
                           SignatureScript := [];
                           Witness := [];
                           Sequence := 0xffffffff |}]
         /\ TxOuts tx = [{| Value := Int64.sub (Amount u) (fee tb);
                            PkScript := destinationScript |}]
         /\ 0 < Int64.sub (Amount u) (fee tb) <= Int64.max_int.
Proof.
  rewrite BuildOwnerWithdrawTx_unfold, BuildInheritorWithdrawTx_unfold.
  pose proof (Int64_sub_range (Amount u) (fee tb)) as Hr.
  destruct (Z.leb_spec (Int64.sub (Amount u) (fee tb)) 0) as [Hle | Hgt].
  - split; [reflexivity | discriminate].
  - destruct (PayToAddrScript dest) as [s | e |]; split; try reflexivity; try discriminate.
    intros tx E. injection E as <-. exists s. cbn.
    unfold Int64.InRange, Int64.min_int, Int64.max_int in *.
    repeat split; try reflexivity; lia.
Qed.

Lemma builders_agree_witness :
  exists tx,
    BuildOwnerWithdrawTx (Sample.builder 500) (Sample.utxo 100000) Sample.destination
      Sample.redeemScript = Ok tx
    /\ map Sequence (TxIns tx) = [0xffffffff].
Proof.
  assert (Hb : exists tx,
            BuildOwnerWithdrawTx (Sample.builder 500) (Sample.utxo 100000) Sample.destination
              Sample.redeemScript = Ok tx)
    by (eexists; vm_compute; reflexivity).
  destruct Hb as [tx Hb]. exists tx. split; [exact Hb|].
  destruct (proj2 (builders_agree (Sample.builder 500) (Sample.utxo 100000) Sample.destination
                     Sample.redeemScript 0) tx Hb)
    as (pk & _ & _ & _ & Hins & _).
  rewrite Hins. reflexivity.
Defined.

(** ** Validation of built and of signed transactions *)

Lemma sumOutputs_single (v : Z) (pk : list Z) :
  Int64.InRange v -> sumOutputs 0 [{| Value := v; PkScript := pk |}] = v.
Proof.
  intros Hv. cbn [sumOutputs Value]. unfold Int64.add. rewrite Z.add_0_l.
  apply Int64_wrap_small. exact Hv.
Qed.

(** A transaction with one input and one output of a positive value. *)
Lemma ValidateTransaction_one_in_one_out (tb : TransactionBuilder)
    (version lockTime : Z) (txIn : TxIn) (v : Z) (pk : list Z) :
  0 < v <= Int64.max_int ->
  ValidateTransaction tb
    (Some {| Version := version; TxIns := [txIn];
             TxOuts := [{| Value := v; PkScript := pk |}]; LockTime := lockTime |})
  = Ok tt.
Proof.
  intros Hv. unfold ValidateTransaction. cbn [TxIns TxOuts].
  change (len [txIn] =? 0) with false.
  change (len [{| Value := v; PkScript := pk |}] =? 0) with false. cbv iota.
  rewrite sumOutputs_single
    by (unfold Int64.InRange, Int64.min_int, Int64.max_int in *; lia).
  destruct (Z.ltb_spec v 0); [lia | reflexivity].
Qed.

(** X7: every transaction that either builder returns passes
    [ValidateTransaction]. *)
Theorem built_transaction_validates (tb tb' : TransactionBuilder) (u : UTXO)
    (dest : btcutil.Address) (rs : list Z) (t : Z) (tx : MsgTx) :
  BuildOwnerWithdrawTx tb u dest rs = Ok tx
  \/ BuildInheritorWithdrawTx tb u dest rs t = Ok tx ->
  ValidateTransaction tb' (Some tx) = Ok tt.
Proof.
  pose proof (Int64_sub_range (Amount u) (fee tb)) as Hr.
  rewrite BuildOwnerWithdrawTx_unfold, BuildInheritorWithdrawTx_unfold.
  destruct (Z.leb_spec (Int64.sub (Amount u) (fee tb)) 0) as [Hle | Hgt];
    [intros [E | E]; discriminate E|].
  destruct (PayToAddrScript dest) as [s | e |];
    intros [E | E]; try discriminate E; injection E as <-;
    apply ValidateTransaction_one_in_one_out;
    unfold Int64.InRange, Int64.min_int, Int64.max_int in *; lia.
Qed.

Lemma built_transaction_validates_witness :
  exists tx,
    BuildInheritorWithdrawTx (Sample.builder 500) (Sample.utxo 100000)
      Sample.destination Sample.redeemScript 0x4076A7 = Ok tx
    /\ ValidateTransaction (Sample.builder 2000) (Some tx) = Ok tt.
Proof.
  assert (Hb : exists tx,
             BuildInheritorWithdrawTx (Sample.builder 500) (Sample.utxo 100000)
               Sample.destination Sample.redeemScript 0x4076A7 = Ok tx)
    by (eexists; vm_compute; reflexivity).
  destruct Hb as [tx Hb]. exists tx. split; [exact Hb|].
  apply (built_transaction_validates (Sample.builder 500) (Sample.builder 2000)
           (Sample.utxo 100000) Sample.destination Sample.redeemScript 0x4076A7 tx).
  right. exact Hb.
Defined.

(** ** What the signers return *)

Section SignerOutcomes.
Context {H : btcutil.Hashes} {L : SigLib}.

(** The signature-hash call of both signers. *)
Local Abbreviation sigHashCall tx u rs :=
  (CalcWitnessSigHash rs
     (NewTxSigHashes tx
        [(NewOutPoint (TxHash u) (Vout u),
          {| Value := Amount u; PkScript := [OP_0; 0x14] ++ btcutil.Hash160 rs |})])
     SigHashAll tx 0 (Amount u)).

Lemma SignOwnerTransaction_cases tb tx u rs key :
  SignOwnerTransaction tb tx u rs key
  = match sigHashCall tx u rs with
    | Ok sigHash =>
        setFirstWitness tx [SignSerialize key sigHash ++ [0x01]; [OP_1]; rs]
    | Err e => Err (ErrSignatureHash e)
    | Panic => Panic
    end.
Proof.
  unfold SignOwnerTransaction. rewrite signer_prevout_script. cbn [wrapErr bind].
  unfold AddPrevOut, NewMultiPrevOutFetcher.
  destruct (CalcWitnessSigHash _ _ _ _ _ _); reflexivity.
Qed.

Lemma SignInheritorTransaction_cases tb tx u rs key :
  SignInheritorTransaction tb tx u rs key
  = match sigHashCall tx u rs with
    | Ok sigHash =>
        setFirstWitness tx [SignSerialize key sigHash ++ [0x01]; [OP_0]; rs]
    | Err e => Err (ErrSignatureHash e)
    | Panic => Panic
    end.
Proof.
  unfold SignInheritorTransaction. rewrite signer_prevout_script. cbn [wrapErr bind].
  unfold AddPrevOut, NewMultiPrevOutFetcher.
  destruct (CalcWitnessSigHash _ _ _ _ _ _); reflexivity.
Qed.

(** Either signer, with its selector. *)
Lemma signer_cases
    (sign : TransactionBuilder -> MsgTx -> UTXO -> list Z -> PrivateKey -> outcome MsgTx) :
  sign = SignOwnerTransaction \/ sign = SignInheritorTransaction ->
  exists selector,
    forall tb tx u rs key,
      sign tb tx u rs key
      = match sigHashCall tx u rs with
        | Ok sigHash =>
            setFirstWitness tx [SignSerialize key sigHash ++ [0x01]; selector; rs]
        | Err e => Err (ErrSignatureHash e)
        | Panic => Panic
        end.
Proof.
  intros [-> | ->]; eexists; intros.
  - apply SignOwnerTransaction_cases.
  - apply SignInheritorTransaction_cases.
Qed.

(** X8: a signer fails with an error exactly when the signature-hash
    computation does, and then with that error wrapped; the error of the
    script-building step is never returned.  When the signature hash is
    computed, the signer succeeds exactly when the transaction has an input;
    on a transaction without inputs it never succeeds. *)
Theorem signer_outcomes
    (sign : TransactionBuilder -> MsgTx -> UTXO -> list Z -> PrivateKey -> outcome MsgTx)
    (tb : TransactionBuilder) (tx : MsgTx) (u : UTXO) (rs : list Z) (key : PrivateKey) :
  sign = SignOwnerTransaction \/ sign = SignInheritorTransaction ->
  (forall e, sign tb tx u rs key = Err e <->
             exists cause, sigHashCall tx u rs = Err cause /\ e = ErrSignatureHash cause)
  /\ (forall cause, sign tb tx u rs key <> Err (ErrP2WSHScript cause))
  /\ (TxIns tx = [] -> forall tx', sign tb tx u rs key <> Ok tx')
  /\ (forall sigHash, sigHashCall tx u rs = Ok sigHash -> TxIns tx <> [] ->
      exists tx', sign tb tx u rs key = Ok tx').
Proof.
  intros Hsign. destruct (signer_cases sign Hsign) as [selector Heq].
  rewrite Heq. unfold setFirstWitness.
  destruct (CalcWitnessSigHash _ _ _ _ _ _) as [h | c |];
    destruct (TxIns tx) as [|txIn rest];
    repeat match goal with
           | |- _ /\ _ => split
           | |- _ <-> _ => split
           | |- forall _, _ => intro
           | H : exists _, _ |- _ => destruct H as (? & ? & ?)
           end;
    try discriminate; try congruence;
    try (eexists; reflexivity);
    try (eexists; split; [reflexivity | congruence]).
Qed.

(** X9: a transaction returned by either builder and then signed by either
    signer still passes [ValidateTransaction]: it has the same single
    output, and its single input now carries a witness of three elements
    ending with the redeem script.  Signing a built transaction succeeds
    whenever the signature hash is computed. *)
Theorem signed_built_transaction
    (sign : TransactionBuilder -> MsgTx -> UTXO -> list Z -> PrivateKey -> outcome MsgTx)
    (tb tb' : TransactionBuilder) (u u' : UTXO) (dest : btcutil.Address)
    (rs rs' : list Z) (t : Z) (key : PrivateKey) (tx : MsgTx) :
  sign = SignOwnerTransaction \/ sign = SignInheritorTransaction ->
  BuildOwnerWithdrawTx tb u dest rs = Ok tx
  \/ BuildInheritorWithdrawTx tb u dest rs t = Ok tx ->
  (forall sigHash, sigHashCall tx u' rs' = Ok sigHash ->
   exists tx', sign tb' tx u' rs' key = Ok tx')
  /\ (forall tx',
      sign tb' tx u' rs' key = Ok tx' ->
      ValidateTransaction tb' (Some tx') = Ok tt
      /\ TxOuts tx' = TxOuts tx
      /\ exists txIn sig selector,
           TxIns tx' = [txIn] /\ Witness txIn = [sig; selector; rs']).
Proof.
  intros Hsign Hbuild. destruct (signer_cases sign Hsign) as [selector Heq].
  rewrite Heq. clear Heq Hsign.
  pose proof (Int64_sub_range (Amount u) (fee tb)) as Hr.
  rewrite BuildOwnerWithdrawTx_unfold, BuildInheritorWithdrawTx_unfold in Hbuild.
  destruct (Z.leb_spec (Int64.sub (Amount u) (fee tb)) 0) as [Hle | Hgt];
    [destruct Hbuild as [E | E]; discriminate E|].
  destruct (PayToAddrScript dest) as [s | e |];
    destruct Hbuild as [E | E]; try discriminate E; injection E as <-;
    unfold setFirstWitness; cbn [TxIns];
    (split;
     [ intros sigHash ->; eexists; reflexivity
     | intros tx'; destruct (CalcWitnessSigHash _ _ _ _ _ _) as [h | c |];
       try discriminate; intros E; injection E as <-;
       split;
       [ apply ValidateTransaction_one_in_one_out;
         unfold Int64.InRange, Int64.min_int, Int64.max_int in *; lia
       | split; [reflexivity | do 3 eexists; split; reflexivity] ] ]).
Qed.

End SignerOutcomes.

Lemma signer_outcomes_witness :
  exists tx',
    @SignInheritorTransaction Sample.hashes Sample.sigLib (Sample.builder 500)
      Sample.spendTx (Sample.utxo 100000) Sample.redeemScript 9 = Ok tx'.
Proof.
  eapply (proj2 (proj2 (proj2
            (@signer_outcomes Sample.hashes Sample.sigLib
               (@SignInheritorTransaction Sample.hashes Sample.sigLib)
               (Sample.builder 500) Sample.spendTx (Sample.utxo 100000)
               Sample.redeemScript 9 (or_intror eq_refl))))).
  - vm_compute. reflexivity.
  - discriminate.
Defined.

Lemma signed_built_transaction_witness :
  exists tx tx',
    BuildOwnerWithdrawTx (Sample.builder 500) (Sample.utxo 100000)
      Sample.destination Sample.redeemScript = Ok tx
    /\ @SignOwnerTransaction Sample.hashes Sample.sigLib (Sample.builder 500)
         tx (Sample.utxo 100000) Sample.redeemScript 7 = Ok tx'
    /\ ValidateTransaction (Sample.builder 500) (Some tx') = Ok tt.
Proof.
  assert (Hb : exists tx,
             BuildOwnerWithdrawTx (Sample.builder 500) (Sample.utxo 100000)
               Sample.destination Sample.redeemScript = Ok tx)
    by (eexists; vm_compute; reflexivity).
  destruct Hb as [tx Hb].
  destruct (@signed_built_transaction Sample.hashes Sample.sigLib
              (@SignOwnerTransaction Sample.hashes Sample.sigLib)
              (Sample.builder 500) (Sample.builder 500)
              (Sample.utxo 100000) (Sample.utxo 100000) Sample.destination
              Sample.redeemScript Sample.redeemScript 0 7 tx
              (or_introl eq_refl) (or_introl Hb))
    as [Hsucc Hval].
  edestruct Hsucc as [tx' Hs].
  - revert Hb. vm_compute. intros E. injection E as <-. reflexivity.
  - exists tx, tx'. split; [exact Hb|]. split; [exact Hs|].
    apply (Hval tx' Hs).
Defined.

(** ** The running sum of the outputs *)

Lemma Int64_wrap_add_l (a b : Z) : Int64.wrap (Int64.wrap a + b) = Int64.wrap (a + b).
Proof.
  unfold Int64.wrap. f_equal.
  replace ((a + 2 ^ 63) mod 2 ^ 64 - 2 ^ 63 + b + 2 ^ 63)
    with ((a + 2 ^ 63) mod 2 ^ 64 + b) by lia.
  rewrite Zplus_mod_idemp_l. f_equal. lia.
Qed.

Lemma sumOutputs_wrap (outs : list TxOut) (acc : Z) :
  sumOutputs (Int64.wrap acc) outs
  = Int64.wrap (acc + fold_right Z.add 0 (map Value outs)).
Proof.
  revert acc. induction outs as [|out outs IH]; intros acc; cbn [sumOutputs map fold_right].
  - now rewrite Z.add_0_r.
  - unfold Int64.add. rewrite Int64_wrap_add_l, IH. f_equal. lia.
Qed.

(** X10: the total that [ValidateTransaction] tests is the exact sum of the
    output values reduced to 64 bits.  So a transaction with an input and an
    output is accepted when the exact sum lies in [0, 2^63) and rejected
    with NegativeOutputValue when it lies in [-2^63, 0); in particular it is
    accepted when no output is negative and the sum is below 2^63. *)
Theorem ValidateTransaction_total (tb : TransactionBuilder) (tx : MsgTx) :
  let total := fold_right Z.add 0 (map Value (TxOuts tx)) in
  sumOutputs 0 (TxOuts tx) = Int64.wrap total
  /\ (TxIns tx <> [] -> TxOuts tx <> [] ->
      (0 <= total <= Int64.max_int -> ValidateTransaction tb (Some tx) = Ok tt)
      /\ (Int64.min_int <= total < 0 ->
          ValidateTransaction tb (Some tx) = Err ErrNegativeOutputValue)
      /\ (Forall (fun out => 0 <= Value out) (TxOuts tx) -> total <= Int64.max_int ->
          ValidateTransaction tb (Some tx) = Ok tt)).
Proof.
  intros total.
  assert (Hsum : sumOutputs 0 (TxOuts tx) = Int64.wrap total).
  { change 0 with (Int64.wrap 0) at 1. rewrite sumOutputs_wrap. reflexivity. }
  split; [exact Hsum|]. intros Hi Ho.
  assert (Hcases : forall r, Int64.InRange total ->
            (if total <? 0 then Err ErrNegativeOutputValue else Ok tt) = r ->
            ValidateTransaction tb (Some tx) = r).
  { intros r Hr <-. unfold ValidateTransaction.
    destruct (Z.eqb_spec (len (TxIns tx)) 0) as [E | _];
      [apply len_nil_iff in E; contradiction|].
    destruct (Z.eqb_spec (len (TxOuts tx)) 0) as [E | _];
      [apply len_nil_iff in E; contradiction|].
    rewrite Hsum, Int64_wrap_small by assumption. reflexivity. }
  assert (Hnonneg : Forall (fun out => 0 <= Value out) (TxOuts tx) -> 0 <= total).
  { unfold total. clear. induction 1; cbn [map fold_right]; lia. }
  unfold Int64.InRange, Int64.min_int, Int64.max_int in *.
  repeat split; intros.
  - apply Hcases; [lia|]. destruct (Z.ltb_spec total 0); [lia | reflexivity].
  - apply Hcases; [lia|]. destruct (Z.ltb_spec total 0); [reflexivity | lia].
  - specialize (Hnonneg ltac:(assumption)).
    apply Hcases; [lia|]. destruct (Z.ltb_spec total 0); [lia | reflexivity].
Qed.

Lemma ValidateTransaction_total_witness :
  ValidateTransaction (Sample.builder 500) (Some Sample.mixedTx) = Ok tt.
Proof.
  destruct (proj2 (ValidateTransaction_total (Sample.builder 500) Sample.mixedTx))
    as (Haccept & _ & _); [discriminate | discriminate |].
  apply Haccept. cbn. unfold Int64.max_int. lia.
Defined.

(** ** Contract identifiers and contract files *)

Lemma gostring_eqb_eq (a b : list Z) : gostring.eqb a b = true <-> a = b.
Proof.
  revert b. induction a as [|x a IH]; intros [|y b]; cbn [gostring.eqb];
    try (split; (discriminate || reflexivity)).
  rewrite andb_true_iff, IH, Z.eqb_eq. split.
  - intros [-> ->]. reflexivity.
  - intros E. injection E as -> ->. auto.
Qed.

Lemma suffix_split (n : nat) (s : list Z) :
  (n <= length s)%nat ->
  s = gostring.dropEnd n s ++ gostring.suffix n s
  /\ length (gostring.suffix n s) = n.
Proof.
  intros Hn. unfold gostring.dropEnd, gostring.suffix. split.
  - symmetry. apply firstn_skipn.
  - rewrite length_skipn. lia.
Qed.

(** X11: for a non-nil address whose text has at least 8 bytes,
    [GenerateContractID] returns a 16-byte identifier: the prefix mainnet
    on the main network and testnet on every other network (the regression
    network too), an underscore, and the last 8 bytes of the address text.
    So addresses that end alike get the same identifier.  With a shorter
    address text it panics. *)
Theorem GenerateContractID_shape (EncodeAddress : btcutil.Address -> list Z)
    (addr : btcutil.Address) (params : script.ChainParams) :
  addr <> btcutil.NilAddress ->
  (8 <= len (EncodeAddress addr) ->
   exists front tail_,
     EncodeAddress addr = front ++ tail_
     /\ length tail_ = 8%nat
     /\ contract.GenerateContractID EncodeAddress addr params
        = Done ((match params with
                 | script.MainNetParams => contract.mainnetPrefix
                 | _ => contract.testnetPrefix
                 end) ++ contract.underscore ++ tail_)
     /\ (forall id, contract.GenerateContractID EncodeAddress addr params = Done id ->
         length id = 16%nat)
     /\ (forall addr' front',
         addr' <> btcutil.NilAddress ->
         EncodeAddress addr' = front' ++ tail_ ->
         contract.GenerateContractID EncodeAddress addr' params
         = contract.GenerateContractID EncodeAddress addr params))
  /\ (len (EncodeAddress addr) < 8 ->
      contract.GenerateContractID EncodeAddress addr params = Crashed).
Proof.
  intros Hnil.
  assert (Hgen : forall a, a <> btcutil.NilAddress ->
            contract.GenerateContractID EncodeAddress a params
            = if len (EncodeAddress a) <? 8 then Crashed
              else Done ((match params with
                          | script.MainNetParams => contract.mainnetPrefix
                          | _ => contract.testnetPrefix
                          end) ++ contract.underscore
                         ++ gostring.suffix 8 (EncodeAddress a))).
  { intros a Ha. destruct a; try contradiction; reflexivity. }
  split.
  - intros Hlen.
    destruct (suffix_split 8 (EncodeAddress addr)) as [Hsplit Hslen];
      [unfold len in Hlen; lia|].
    exists (gostring.dropEnd 8 (EncodeAddress addr)),
           (gostring.suffix 8 (EncodeAddress addr)).
    assert (Heq : contract.GenerateContractID EncodeAddress addr params
                  = Done ((match params with
                           | script.MainNetParams => contract.mainnetPrefix
                           | _ => contract.testnetPrefix
                           end) ++ contract.underscore
                          ++ gostring.suffix 8 (EncodeAddress addr))).
    { rewrite Hgen by assumption.
      destruct (Z.ltb_spec (len (EncodeAddress addr)) 8); [lia | reflexivity]. }
    split; [exact Hsplit|]. split; [exact Hslen|]. split; [exact Heq|]. split.
    + intros id Hid. rewrite Heq in Hid. injection Hid as <-.
      rewrite !length_app. cbn [length]. rewrite Hslen. destruct params; reflexivity.
    + intros addr' front' Hnil' Henc. rewrite Heq, Hgen by assumption.
      assert (Hlen' : length (EncodeAddress addr') = (length front' + 8)%nat)
        by (rewrite Henc, length_app, Hslen; reflexivity).
      destruct (Z.ltb_spec (len (EncodeAddress addr')) 8); [unfold len in *; lia|].
      do 3 f_equal. unfold gostring.suffix at 1. rewrite Hlen', Henc.
      replace (length front' + 8 - 8)%nat with (length front' + 0)%nat by lia.
      rewrite skipn_app, Nat.add_0_r, skipn_all, Nat.sub_diag. reflexivity.
  - intros Hlen. rewrite Hgen by assumption.
    destruct (Z.ltb_spec (len (EncodeAddress addr)) 8); [reflexivity | lia].
Qed.

Lemma GenerateContractID_shape_witness :
  exists id,
    contract.GenerateContractID Sample2.encodeAddress Sample.destination
      script.RegressionNetParams = Done id
    /\ length id = 16%nat.
Proof.
  destruct (proj1 (GenerateContractID_shape Sample2.encodeAddress Sample.destination
                     script.RegressionNetParams ltac:(discriminate))
              ltac:(vm_compute; discriminate))
    as (front & tail_ & _ & _ & Hid & Hlen & _).
  eexists. split; [exact Hid|]. apply Hlen. exact Hid.
Defined.

(** The scan of [filepath.Ext], read from the end of the path. *)
Lemma Ext_scan_found (s rest seen : list Z) :
  Forall (fun c => c <> 46 /\ c <> 47) s ->
  contract.Ext_scan (rev s ++ 46 :: rest) seen = 46 :: s ++ seen.
Proof.
  revert rest seen. induction s as [|c s IH] using rev_ind; intros rest seen Hs.
  - reflexivity.
  - apply Forall_app in Hs. destruct Hs as [Hs Hc].
    apply Forall_inv in Hc. destruct Hc as [Hc1 Hc2].
    rewrite rev_unit. cbn [app contract.Ext_scan].
    destruct (Z.eqb_spec c 47); [contradiction|].
    destruct (Z.eqb_spec c 46); [contradiction|].
    rewrite IH by assumption. rewrite <- app_assoc. reflexivity.
Qed.

Lemma Ext_scan_inv (reversed seen : list Z) :
  contract.Ext_scan reversed seen = []
  \/ exists s rest,
       reversed = rev s ++ 46 :: rest
       /\ contract.Ext_scan reversed seen = 46 :: s ++ seen.
Proof.
  revert seen. induction reversed as [|c r IH]; intros seen; cbn [contract.Ext_scan].
  - left. reflexivity.
  - destruct (Z.eqb_spec c 47); [left; reflexivity|].
    destruct (Z.eqb_spec c 46) as [-> | Hne].
    + right. exists [], r. split; reflexivity.
    + destruct (IH (c :: seen)) as [E | (s & rest & Hr & E)]; [left; exact E|].
      right. exists (s ++ [c]), rest. split.
      * rewrite rev_unit, Hr. reflexivity.
      * rewrite E, <- app_assoc. reflexivity.
Qed.

(** [filepath.Ext] answers ".json" exactly for the names that end in it. *)
Lemma Ext_json (name : list Z) :
  contract.Ext name = contract.jsonExt <->
  exists stem, name = stem ++ contract.jsonExt.
Proof.
  unfold contract.Ext. split.
  - intros E. destruct (Ext_scan_inv (rev name) []) as [E0 | (s & rest & Hr & Es)].
    + rewrite E0 in E. discriminate E.
    + rewrite Es, app_nil_r in E.
      exists (rev rest).
      apply (f_equal (@rev Z)) in Hr. rewrite rev_involutive in Hr.
      rewrite Hr, rev_app_distr, rev_involutive. cbn [rev].
      rewrite <- app_assoc. cbn [app]. rewrite <- E. reflexivity.
  - intros [stem ->]. rewrite rev_app_distr.
    change (rev contract.jsonExt) with (rev [106; 115; 111; 110] ++ 46 :: []).
    rewrite <- app_assoc. cbn [app].
    change (110 :: 111 :: 115 :: 106 :: 46 :: rev stem)
      with (rev [106; 115; 111; 110] ++ 46 :: rev stem).
    rewrite Ext_scan_found; [reflexivity|].
    repeat constructor; lia.
Qed.

Lemma dropEnd_app (stem ext : list Z) :
  gostring.dropEnd (length ext) (stem ++ ext) = stem.
Proof.
  unfold gostring.dropEnd. rewrite length_app.
  replace (length stem + length ext - length ext)%nat with (length stem + 0)%nat by lia.
  rewrite firstn_app_2. cbn [firstn]. apply app_nil_r.
Qed.

(** The loop lists, in order, the stems of the regular entries named
    [stem ++ ".json"]. *)
Lemma listLoop_names (files : list contract.DirEntry) (acc : list (list Z)) :
  map contract.contractFileName (contract.listLoop files acc)
  = map contract.contractFileName acc
    ++ map contract.Name
         (filter (fun file => negb (contract.IsDir file)
                              && gostring.eqb (contract.Ext (contract.Name file))
                                   contract.jsonExt)
                 files).
Proof.
  revert acc. induction files as [|file files IH]; intros acc;
    cbn [contract.listLoop filter map].
  - now rewrite app_nil_r.
  - destruct (negb (contract.IsDir file)
              && gostring.eqb (contract.Ext (contract.Name file)) contract.jsonExt)
      eqn:Hsel.
    + rewrite IH, map_app, <- app_assoc. cbn [map app]. do 2 f_equal.
      apply andb_prop in Hsel. destruct Hsel as [_ Hext].
      apply gostring_eqb_eq, Ext_json in Hext. destruct Hext as [stem Hname].
      rewrite Hname. unfold contract.contractFileName.
      change 5%nat with (length contract.jsonExt). rewrite dropEnd_app. reflexivity.
    + apply IH.
Qed.

(** X12: [ListContracts] returns no identifier when the directory is
    missing and the wrapped error when it cannot be read.  Otherwise the
    file names that [LoadContractInfo] forms from the identifiers it
    returns (identifier followed by ".json") are exactly the names of the
    entries that are not directories and end in ".json", in the same
    order; an entry named just ".json" gives the empty identifier. *)
Theorem ListContracts_file_names {E : Type} (dirMissing : bool)
    (readDir : result E (list contract.DirEntry)) :
  (dirMissing = true -> contract.ListContracts dirMissing readDir = Done [])
  /\ (dirMissing = false ->
      forall e, readDir = Failed e ->
      contract.ListContracts dirMissing readDir
      = Failed (contract.ErrReadContractsDir e))
  /\ (dirMissing = false ->
      forall files, readDir = Done files ->
      exists ids,
        contract.ListContracts dirMissing readDir = Done ids
        /\ map contract.contractFileName ids
           = map contract.Name
               (filter (fun file =>
                          negb (contract.IsDir file)
                          && gostring.eqb
                               (gostring.suffix 5 (contract.Name file)) contract.jsonExt
                          && (5 <=? len (contract.Name file)))
                       files)).
Proof.
  split; [intros ->; reflexivity|].
  split; [intros -> e ->; reflexivity|].
  intros -> files ->. eexists. split; [reflexivity|].
  rewrite listLoop_names. cbn [map app].
  f_equal. apply filter_ext. intros file.
  rewrite <- andb_assoc. f_equal.
  apply eq_true_iff_eq. rewrite andb_true_iff, !gostring_eqb_eq, Ext_json, Z.leb_le.
  split.
  - intros [stem Hname]. rewrite Hname. split.
    + unfold gostring.suffix. rewrite length_app.
      replace (length stem + length contract.jsonExt - 5)%nat
        with (length stem + 0)%nat by (cbn; lia).
      rewrite skipn_app, Nat.add_0_r, skipn_all, Nat.sub_diag. reflexivity.
    + rewrite len_app. pose proof (len_nonneg stem). cbn. lia.
  - intros [Hsuf Hlen].
    exists (gostring.dropEnd 5 (contract.Name file)).
    rewrite <- Hsuf. apply suffix_split. unfold len in Hlen. lia.
Qed.

Lemma ListContracts_file_names_witness :
  exists ids,
    contract.ListContracts (E := unit) false (Done Sample2.directory) = Done ids
    /\ map contract.contractFileName ids
       = map contract.Name
           (firstn 1 Sample2.directory ++ skipn 3 Sample2.directory).
Proof.
  destruct (proj2 (proj2 (@ListContracts_file_names unit false (Done Sample2.directory)))
              eq_refl Sample2.directory eq_refl)
    as (ids & Hids & Hnames).
  exists ids. split; [exact Hids|]. rewrite Hnames. reflexivity.
Defined.

(** ** Loading the configuration *)

Lemma isEmpty_spec (s : list Z) : config.isEmpty s = true <-> s = [].
Proof. destruct s; cbn; split; intros; (reflexivity || discriminate). Qed.

(** The network is read off BITCOIN_NETWORK alone. *)
Lemma network_choice (env : config.Env) :
  gostring.eqb (config.getEnvString env config.BITCOIN_NETWORK config.testnet)
    config.mainnet
  = gostring.eqb (env config.BITCOIN_NETWORK) config.mainnet.
Proof.
  unfold config.getEnvString.
  destruct (env config.BITCOIN_NETWORK) as [|c s]; reflexivity.
Qed.

(** The second reading of an integer variable, with the first reading as
    its default, is the first reading. *)
Lemma getEnvInt64_again (env : config.Env) (key : list Z) (d : Z) :
  config.getEnvInt64 env key (config.getEnvInt64 env key d)
  = config.getEnvInt64 env key d.
Proof.
  unfold config.getEnvInt64.
  destruct (negb (config.isEmpty (env key))); [|reflexivity].
  destruct (config.ParseInt (env key)); reflexivity.
Qed.

Lemma parseDigits_nonneg (s : list Z) :
  forall acc v, 0 <= acc -> config.parseDigits acc s = Some v -> 0 <= v.
Proof.
  induction s as [|c s IH]; intros acc v Hacc; cbn [config.parseDigits].
  - intros E. injection E as <-. exact Hacc.
  - destruct (Z.leb_spec 48 c); destruct (Z.leb_spec c 57); cbn [andb];
      try discriminate.
    apply IH. lia.
Qed.

Lemma ParseInt_range (s : list Z) (v : Z) :
  config.ParseInt s = Some v -> Int64.InRange v.
Proof.
  unfold config.ParseInt, Int64.InRange, Int64.min_int, Int64.max_int.
  destruct s as [|c rest]; [discriminate|].
  destruct ((if (c =? 43) || (c =? 45) then rest else c :: rest)) as [|d ds] eqn:Hd;
    [discriminate|].
  destruct (config.parseDigits 0 (d :: ds)) as [un|] eqn:Hp; [|discriminate].
  pose proof (parseDigits_nonneg _ _ _ (Z.le_refl 0) Hp).
  destruct (c =? 45).
  - destruct (Z.leb_spec un (2 ^ 63)); [|discriminate]. intros E. injection E as <-. lia.
  - destruct (Z.ltb_spec un (2 ^ 63)); [|discriminate]. intros E. injection E as <-. lia.
Qed.

Lemma getRequiredEnvString_cases (env : config.Env) (key : list Z) :
  (env key = [] /\ config.getRequiredEnvString env key
                   = Failed (config.RequiredEnvNotSet key))
  \/ (env key <> [] /\ config.getRequiredEnvString env key = Done (env key)).
Proof.
  unfold config.getRequiredEnvString.
  destruct (env key) as [|c s]; [left | right]; split; (reflexivity || discriminate).
Qed.

(** What the two constructors of a configuration return. *)
Lemma createConfig_cases (env : config.Env) (main : bool) :
  let create := if main then config.createMainnetConfig else config.createTestnetConfig in
  let params := if main then script.MainNetParams else script.TestNet3Params in
  let hostKey := if main then config.MAINNET_RPC_HOST else config.TESTNET_RPC_HOST in
  let userKey := if main then config.MAINNET_RPC_USER else config.TESTNET_RPC_USER in
  let passKey := if main then config.MAINNET_RPC_PASS else config.TESTNET_RPC_PASS in
  (env hostKey = [] /\ create env = Failed (config.RequiredEnvNotSet hostKey))
  \/ (env hostKey <> [] /\ env userKey = []
      /\ create env = Failed (config.RequiredEnvNotSet userKey))
  \/ (env hostKey <> [] /\ env userKey <> [] /\ env passKey = []
      /\ create env = Failed (config.RequiredEnvNotSet passKey))
  \/ (env hostKey <> [] /\ env userKey <> [] /\ env passKey <> []
      /\ exists post tls,
           create env
           = Done {| config.ChainParams := params;
                     config.RPC := {| config.Host := env hostKey;
                                      config.User := env userKey;
                                      config.Pass := env passKey;
                                      config.HTTPPostMode := post;
                                      config.DisableTLS := tls |};
                     config.Contract :=
                       {| config.TimelockDays :=
                            config.getEnvInt64 env config.TIMELOCK_DAYS 180;
                          config.DefaultFee :=
                            config.getEnvInt64 env config.DEFAULT_FEE_SATOSHIS 2000 |} |}).
Proof.
  destruct main; cbv zeta;
    unfold config.createMainnetConfig, config.createTestnetConfig;
    match goal with
    | |- context [config.getRequiredEnvString env ?k] =>
        destruct (getRequiredEnvString_cases env k) as [[H1 ->] | [H1 ->]];
        [left; split; [exact H1 | reflexivity]|]
    end;
    match goal with
    | |- context [config.getRequiredEnvString env ?k] =>
        destruct (getRequiredEnvString_cases env k) as [[H2 ->] | [H2 ->]];
        [right; left; repeat split; (assumption || reflexivity)|]
    end;
    match goal with
    | |- context [config.getRequiredEnvString env ?k] =>
        destruct (getRequiredEnvString_cases env k) as [[H3 ->] | [H3 ->]];
        [right; right; left; repeat split; (assumption || reflexivity)|]
    end;
    right; right; right; repeat split; try assumption;
    do 2 eexists; reflexivity.
Qed.

(** The two overrides at the end of [LoadConfig] change nothing. *)
Lemma LoadConfig_create (env : config.Env) :
  config.LoadConfig true env
  = if gostring.eqb (env config.BITCOIN_NETWORK) config.mainnet
    then config.createMainnetConfig env
    else config.createTestnetConfig env.
Proof.
  unfold config.LoadConfig. cbn [negb]. rewrite network_choice.
  set (main := gostring.eqb (env config.BITCOIN_NETWORK) config.mainnet).
  pose proof (createConfig_cases env main) as Hc. cbv zeta in Hc.
  replace (if main then config.createMainnetConfig env else config.createTestnetConfig env)
    with ((if main then config.createMainnetConfig else config.createTestnetConfig) env)
    by (destruct main; reflexivity).
  destruct Hc as [[_ ->] | [(_ & _ & ->) | [(_ & _ & _ & ->) | (_ & _ & _ & post & tls & ->)]]];
    try reflexivity.
  cbv zeta. cbn [config.Contract config.TimelockDays config.DefaultFee].
  rewrite getEnvInt64_again.
  destruct (config.getEnvInt64 env config.TIMELOCK_DAYS 180 >? 0);
    cbn [config.setTimelockDays config.Contract config.DefaultFee config.TimelockDays
           config.ChainParams config.RPC];
    rewrite getEnvInt64_again;
    destruct (config.getEnvInt64 env config.DEFAULT_FEE_SATOSHIS 2000 >? 0); reflexivity.
Qed.

(** X13: [LoadConfig] stops the process when the .env file is not loaded.
    Otherwise the network is the main network exactly when BITCOIN_NETWORK
    is the text mainnet, and the test network for every other value or
    none; the process stops at the first of that network's host, user and
    password variables that is empty or unset, and when all three are set
    the configuration carries them and the parameters of that network. *)
Theorem LoadConfig_outcome (dotenvLoaded : bool) (env : config.Env) :
  (dotenvLoaded = false ->
   config.LoadConfig dotenvLoaded env = Failed config.DotEnvNotFound)
  /\ (dotenvLoaded = true ->
      forall params hostKey userKey passKey,
        (env config.BITCOIN_NETWORK = config.mainnet
         /\ params = script.MainNetParams
         /\ hostKey = config.MAINNET_RPC_HOST
         /\ userKey = config.MAINNET_RPC_USER
         /\ passKey = config.MAINNET_RPC_PASS)
        \/ (env config.BITCOIN_NETWORK <> config.mainnet
            /\ params = script.TestNet3Params
            /\ hostKey = config.TESTNET_RPC_HOST
            /\ userKey = config.TESTNET_RPC_USER
            /\ passKey = config.TESTNET_RPC_PASS) ->
        (env hostKey = [] ->
         config.LoadConfig dotenvLoaded env = Failed (config.RequiredEnvNotSet hostKey))
        /\ (env hostKey <> [] -> env userKey = [] ->
            config.LoadConfig dotenvLoaded env = Failed (config.RequiredEnvNotSet userKey))
        /\ (env hostKey <> [] -> env userKey <> [] -> env passKey = [] ->
            config.LoadConfig dotenvLoaded env = Failed (config.RequiredEnvNotSet passKey))
        /\ (env hostKey <> [] -> env userKey <> [] -> env passKey <> [] ->
            exists cfg,
              config.LoadConfig dotenvLoaded env = Done cfg
              /\ config.ChainParams cfg = params
              /\ config.Host (config.RPC cfg) = env hostKey
              /\ config.User (config.RPC cfg) = env userKey
              /\ config.Pass (config.RPC cfg) = env passKey)).
Proof.
  split; [intros ->; reflexivity|].
  intros -> params hostKey userKey passKey Hnet.
  rewrite LoadConfig_create.
  assert (Hmain : exists main,
            gostring.eqb (env config.BITCOIN_NETWORK) config.mainnet = main
            /\ params = (if main then script.MainNetParams else script.TestNet3Params)
            /\ hostKey = (if main then config.MAINNET_RPC_HOST else config.TESTNET_RPC_HOST)
            /\ userKey = (if main then config.MAINNET_RPC_USER else config.TESTNET_RPC_USER)
            /\ passKey = (if main then config.MAINNET_RPC_PASS else config.TESTNET_RPC_PASS)).
  { destruct Hnet as [(Hn & -> & -> & -> & ->) | (Hn & -> & -> & -> & ->)].
    - exists true. rewrite Hn. repeat split; reflexivity.
    - exists false. repeat split; try reflexivity.
      destruct (gostring.eqb _ _) eqn:E; [|reflexivity].
      apply gostring_eqb_eq in E. contradiction. }
  destruct Hmain as (main & -> & -> & -> & -> & ->).
  pose proof (createConfig_cases env main) as Hc. cbv zeta in Hc.
  replace (if main then config.createMainnetConfig env else config.createTestnetConfig env)
    with ((if main then config.createMainnetConfig else config.createTestnetConfig) env)
    by (destruct main; reflexivity).
  destruct Hc as [[H1 ->] | [(H1 & H2 & ->) | [(H1 & H2 & H3 & ->) | (H1 & H2 & H3 & post & tls & ->)]]];
    repeat split; intros; try contradiction; try reflexivity.
  eexists. split; [reflexivity|]. repeat split.
Qed.

(** A loaded configuration is the one its constructor made. *)
Lemma LoadConfig_loaded (dotenvLoaded : bool) (env : config.Env) (cfg : config.Config) :
  config.LoadConfig dotenvLoaded env = Done cfg ->
  config.ChainParams cfg
  = (if gostring.eqb (env config.BITCOIN_NETWORK) config.mainnet
     then script.MainNetParams else script.TestNet3Params)
  /\ config.TimelockDays (config.Contract cfg)
     = config.getEnvInt64 env config.TIMELOCK_DAYS 180
  /\ config.DefaultFee (config.Contract cfg)
     = config.getEnvInt64 env config.DEFAULT_FEE_SATOSHIS 2000.
Proof.
  intros Hload.
  destruct dotenvLoaded; [|discriminate Hload].
  rewrite LoadConfig_create in Hload.
  pose proof (createConfig_cases env
                (gostring.eqb (env config.BITCOIN_NETWORK) config.mainnet)) as Hc.
  cbv zeta in Hc.
  destruct (gostring.eqb (env config.BITCOIN_NETWORK) config.mainnet);
    destruct Hc as [[_ E] | [(_ & _ & E) | [(_ & _ & _ & E) | (_ & _ & _ & post & tls & E)]]];
    rewrite E in Hload; try discriminate Hload; injection Hload as <-;
    repeat split.
Qed.

(** X14: in a loaded configuration the timelock is the value of
    TIMELOCK_DAYS when that parses as a 64-bit decimal integer, and 180
    when it is unset or does not parse; the fee is read from
    DEFAULT_FEE_SATOSHIS in the same way, with 2000.  A value that is zero
    or negative is taken as it is: the tests for a positive value at the
    end of [LoadConfig] do not change the result. *)
Theorem LoadConfig_contract_settings (dotenvLoaded : bool) (env : config.Env)
    (cfg : config.Config) :
  config.LoadConfig dotenvLoaded env = Done cfg ->
  config.TimelockDays (config.Contract cfg)
  = config.getEnvInt64 env config.TIMELOCK_DAYS 180
  /\ config.DefaultFee (config.Contract cfg)
     = config.getEnvInt64 env config.DEFAULT_FEE_SATOSHIS 2000
  /\ (forall v, config.ParseInt (env config.TIMELOCK_DAYS) = Some v ->
      config.TimelockDays (config.Contract cfg) = v /\ Int64.InRange v)
  /\ (config.ParseInt (env config.TIMELOCK_DAYS) = None ->
      config.TimelockDays (config.Contract cfg) = 180).
Proof.
  intros Hload.
  destruct (LoadConfig_loaded _ _ _ Hload) as (_ & Ht & Hf).
  split; [exact Ht|]. split; [exact Hf|].
  rewrite Ht. unfold config.getEnvInt64. split.
  - intros v Hv. rewrite Hv. split; [|exact (ParseInt_range _ _ Hv)].
    destruct (env config.TIMELOCK_DAYS); [discriminate Hv | reflexivity].
  - intros Hv. rewrite Hv. destruct (negb _); reflexivity.
Qed.

Lemma LoadConfig_outcome_witness :
  exists cfg,
    config.LoadConfig true Sample2.env = Done cfg
    /\ config.ChainParams cfg = script.TestNet3Params.
Proof.
  destruct (proj2 (LoadConfig_outcome true Sample2.env) eq_refl
              script.TestNet3Params config.TESTNET_RPC_HOST config.TESTNET_RPC_USER
              config.TESTNET_RPC_PASS)
    as (_ & _ & _ & Hok).
  - right. repeat split; try reflexivity. discriminate.
  - destruct Hok as (cfg & Hcfg & Hparams & _); try discriminate.
    exists cfg. split; assumption.
Defined.

Lemma LoadConfig_contract_settings_witness :
  exists cfg,
    config.LoadConfig true Sample2.env = Done cfg
    /\ config.TimelockDays (config.Contract cfg) = -5.
Proof.
  assert (Hc : exists cfg, config.LoadConfig true Sample2.env = Done cfg)
    by (eexists; vm_compute; reflexivity).
  destruct Hc as [cfg Hc]. exists cfg. split; [exact Hc|].
  destruct (LoadConfig_contract_settings true Sample2.env cfg Hc) as (_ & _ & Hv & _).
  apply (Hv (-5)). vm_compute. reflexivity.
Defined.

(** ** The commands *)

(** X15: the configuration that [PersistentPreRun] installs does not depend
    on the testnet flag: with either value the network is the one that
    BITCOIN_NETWORK names.  The timelock is the timelock-days flag when that
    is positive and the timelock of the loaded configuration otherwise. *)
Theorem PersistentPreRun_flags (testnet : bool) (timelockDays : Z)
    (dotenvLoaded : bool) (env : config.Env) :
  cmd.PersistentPreRun testnet timelockDays dotenvLoaded env
  = cmd.PersistentPreRun (negb testnet) timelockDays dotenvLoaded env
  /\ forall cfg,
       cmd.PersistentPreRun testnet timelockDays dotenvLoaded env = Done cfg ->
       config.ChainParams cfg
       = (if gostring.eqb (env config.BITCOIN_NETWORK) config.mainnet
          then script.MainNetParams else script.TestNet3Params)
       /\ config.TimelockDays (config.Contract cfg)
          = (if timelockDays >? 0 then timelockDays
             else config.getEnvInt64 env config.TIMELOCK_DAYS 180)
       /\ config.DefaultFee (config.Contract cfg)
          = config.getEnvInt64 env config.DEFAULT_FEE_SATOSHIS 2000.
Proof.
  assert (Hrun : forall flag,
            cmd.PersistentPreRun flag timelockDays dotenvLoaded env
            = match config.LoadConfig dotenvLoaded env with
              | Done cfg =>
                  Done (if timelockDays >? 0
                        then config.setTimelockDays cfg timelockDays else cfg)
              | Failed f => Failed f
              | Crashed => Crashed
              end).
  { intros flag. unfold cmd.PersistentPreRun.
    destruct (config.LoadConfig dotenvLoaded env) eqn:Hl; try reflexivity.
    destruct flag; reflexivity. }
  split; [rewrite !Hrun; reflexivity|].
  intros cfg. rewrite Hrun.
  destruct (config.LoadConfig dotenvLoaded env) as [cfg0 | |] eqn:Hl; try discriminate.
  intros E. injection E as <-.
  destruct (LoadConfig_loaded _ _ _ Hl) as (Hp & Ht & Hf).
  destruct (timelockDays >? 0); cbn; auto.
Qed.

Lemma PersistentPreRun_flags_witness :
  exists cfg,
    cmd.PersistentPreRun false 0 true Sample2.env = Done cfg
    /\ config.ChainParams cfg = script.TestNet3Params.
Proof.
  assert (Hc : exists cfg, cmd.PersistentPreRun false 0 true Sample2.env = Done cfg)
    by (eexists; vm_compute; reflexivity).
  destruct Hc as [cfg Hc]. exists cfg. split; [exact Hc|].
  apply (proj2 (PersistentPreRun_flags false 0 true Sample2.env) cfg Hc).
Defined.

(** ** The withdrawal commands *)

(** A transaction built and then signed, field by field. *)
Lemma owner_pipeline {H : btcutil.Hashes} {L : SigLib}
    (tb tb' : TransactionBuilder) (u u' : UTXO) (dest : btcutil.Address)
    (rs rs' : list Z) (key : PrivateKey) (tx0 tx1 : MsgTx) :
  BuildOwnerWithdrawTx tb u dest rs = Ok tx0 ->
  SignOwnerTransaction tb' tx0 u' rs' key = Ok tx1 ->
  exists pk sig,
    PayToAddrScript dest = Ok pk
    /\ 0 < Int64.sub (Amount u) (fee tb)
    /\ tx1 = {| Version := 1;
                TxIns := [{| PreviousOutPoint := {| Hash := TxHash u; Index := Vout u |};
                             SignatureScript := [];
                             Witness := [sig; [OP_1]; rs'];
                             Sequence := 0xffffffff |}];
                TxOuts := [{| Value := Int64.sub (Amount u) (fee tb); PkScript := pk |}];
                LockTime := 0 |}.
Proof.
  rewrite BuildOwnerWithdrawTx_unfold, SignOwnerTransaction_cases.
  destruct (Z.leb_spec (Int64.sub (Amount u) (fee tb)) 0); [discriminate|].
  destruct (PayToAddrScript dest) as [pk | |]; try discriminate.
  intros E. injection E as <-.
  destruct (CalcWitnessSigHash _ _ _ _ _ _) as [h | |]; try discriminate.
  unfold setFirstWitness. cbn [TxIns]. intros E. injection E as <-.
  do 2 eexists. repeat split. assumption.
Qed.

Lemma inheritor_pipeline {H : btcutil.Hashes} {L : SigLib}
    (tb tb' : TransactionBuilder) (u u' : UTXO) (dest : btcutil.Address)
    (rs rs' : list Z) (t : Z) (key : PrivateKey) (tx0 tx1 : MsgTx) :
  BuildInheritorWithdrawTx tb u dest rs t = Ok tx0 ->
  SignInheritorTransaction tb' tx0 u' rs' key = Ok tx1 ->
  exists pk sig,
    PayToAddrScript dest = Ok pk
    /\ 0 < Int64.sub (Amount u) (fee tb)
    /\ tx1 = {| Version := 1;
                TxIns := [{| PreviousOutPoint := {| Hash := TxHash u; Index := Vout u |};
                             SignatureScript := [];
                             Witness := [sig; [OP_0]; rs'];
                             Sequence := Uint32.wrap t |}];
                TxOuts := [{| Value := Int64.sub (Amount u) (fee tb); PkScript := pk |}];
                LockTime := 0 |}.
Proof.
  rewrite BuildInheritorWithdrawTx_unfold, SignInheritorTransaction_cases.
  destruct (Z.leb_spec (Int64.sub (Amount u) (fee tb)) 0); [discriminate|].
  destruct (PayToAddrScript dest) as [pk | |]; try discriminate.
  intros E. injection E as <-.
  destruct (CalcWitnessSigHash _ _ _ _ _ _) as [h | |]; try discriminate.
  unfold setFirstWitness. cbn [TxIns]. intros E. injection E as <-.
  do 2 eexists. repeat split. assumption.
Qed.

Section WithdrawalProperties.
Context {E : Type} {H : btcutil.Hashes} {L : SigLib} {C : cmd.Collaborators E}.

(** A command that ends with a transaction has come through each call. *)
Lemma call_through {A : Type} (proj : cmd.withdrawal E -> option MsgTx)
    (r : result E A) (wrap : E -> cmd.cliError E) (k : A -> cmd.withdrawal E)
    (tx : MsgTx) :
  (forall e, proj (cmd.Aborted e) = None) -> proj cmd.Panicked = None ->
  proj (cmd.call r wrap k) = Some tx ->
  exists a, r = Done a /\ proj (k a) = Some tx.
Proof.
  intros Ha Hp. unfold cmd.call. destruct r as [a | e |].
  - intros Hk. exists a. split; [reflexivity | exact Hk].
  - rewrite Ha. discriminate.
  - rewrite Hp. discriminate.
Qed.

Lemma step_through {A : Type} (proj : cmd.withdrawal E -> option MsgTx)
    (r : outcome A) (wrap : error -> cmd.cliError E) (k : A -> cmd.withdrawal E)
    (tx : MsgTx) :
  (forall e, proj (cmd.Aborted e) = None) -> proj cmd.Panicked = None ->
  proj (cmd.step r wrap k) = Some tx ->
  exists a, r = Ok a /\ proj (k a) = Some tx.
Proof.
  intros Ha Hp. unfold cmd.step. destruct r as [a | e |].
  - intros Hk. exists a. split; [reflexivity | exact Hk].
  - rewrite Ha. discriminate.
  - rewrite Hp. discriminate.
Qed.

(** Peels the next call of a command off the hypothesis [Hrun]. *)
Ltac peel_call Hrun Ha Hp a Hcall :=
  apply (call_through _ _ _ _ _ Ha Hp) in Hrun;
  destruct Hrun as (a & Hcall & Hrun); cbv beta zeta in Hrun.

Ltac peel_step Hrun Ha Hp a Hstep :=
  apply (step_through _ _ _ _ _ Ha Hp) in Hrun;
  destruct Hrun as (a & Hstep & Hrun); cbv beta zeta in Hrun.

Ltac peel_funded Hrun Ha Hfunded :=
  match type of Hrun with
  | context [if negb (contract.IsFunded ?info) then _ else _] =>
      destruct (contract.IsFunded info) eqn:Hfunded; cbn [negb] in Hrun;
      [|rewrite Ha in Hrun; discriminate Hrun]
  end.

(** Everything before the confirmation, for either command. *)
Ltac peel_command Hrun Ha Hp :=
  let idLine := fresh "idLine" in
  let info := fresh "info" in
  let key := fresh "key" in
  let destLine := fresh "destLine" in
  let dest := fresh "dest" in
  let fundingHash := fresh "fundingHash" in
  let rs := fresh "rs" in
  let tx0 := fresh "tx0" in
  let tx1 := fresh "tx1" in
  let ok := fresh "ok" in
  let txHex := fresh "txHex" in
  let Hid := fresh "Hid" in
  let Hload := fresh "Hload" in
  let Hfunded := fresh "Hfunded" in
  let Hkey := fresh "Hkey" in
  let HdestLine := fresh "HdestLine" in
  let Hdest := fresh "Hdest" in
  let Hhash := fresh "Hhash" in
  let Hrs := fresh "Hrs" in
  let Hbuild := fresh "Hbuild" in
  let Hsign := fresh "Hsign" in
  let Hvalid := fresh "Hvalid" in
  let Hhex := fresh "Hhex" in
  peel_call Hrun Ha Hp idLine Hid;
  peel_call Hrun Ha Hp info Hload;
  peel_funded Hrun Ha Hfunded;
  peel_call Hrun Ha Hp key Hkey;
  peel_call Hrun Ha Hp destLine HdestLine;
  peel_call Hrun Ha Hp dest Hdest;
  peel_call Hrun Ha Hp fundingHash Hhash;
  peel_call Hrun Ha Hp rs Hrs;
  peel_step Hrun Ha Hp tx0 Hbuild;
  peel_step Hrun Ha Hp tx1 Hsign;
  peel_step Hrun Ha Hp ok Hvalid;
  peel_call Hrun Ha Hp txHex Hhex.

(** The end of both commands: the confirmation and the broadcast. *)
Lemma confirmation_cases (stdin : cmd.Stdin E) (tx0 tx : MsgTx)
    (proj : cmd.withdrawal E -> option MsgTx) :
  proj = cmd.finished \/ proj = cmd.handedToBroadcast ->
  proj (cmd.call (cmd.readConfirmation stdin) cmd.ErrReadConfirmation (fun confirm =>
          if negb (gostring.eqb (cmd.TrimSpace (cmd.ToLower confirm)) cmd.yesShort)
             && negb (gostring.eqb (cmd.TrimSpace (cmd.ToLower confirm)) cmd.yesLong)
          then cmd.Cancelled tx0
          else match cmd.BroadcastTransaction tx0 with
               | Done txid => cmd.Broadcast tx0 txid
               | Failed e => cmd.BroadcastFailed tx0 (cmd.ErrBroadcast e)
               | Crashed => cmd.Panicked
               end)) = Some tx ->
  tx = tx0
  /\ exists confirm,
       cmd.readConfirmation stdin = Done confirm
       /\ (proj = cmd.handedToBroadcast ->
           cmd.TrimSpace (cmd.ToLower confirm) = cmd.yesShort
           \/ cmd.TrimSpace (cmd.ToLower confirm) = cmd.yesLong).
Proof.
  intros Hproj Hrun.
  assert (Ha : forall e, proj (cmd.Aborted e) = None)
    by (destruct Hproj as [-> | ->]; reflexivity).
  assert (Hp : proj cmd.Panicked = None)
    by (destruct Hproj as [-> | ->]; reflexivity).
  apply (call_through _ _ _ _ _ Ha Hp) in Hrun.
  destruct Hrun as (confirm & Hread & Hrun).
  destruct (gostring.eqb (cmd.TrimSpace (cmd.ToLower confirm)) cmd.yesShort) eqn:Hy;
    destruct (gostring.eqb (cmd.TrimSpace (cmd.ToLower confirm)) cmd.yesLong) eqn:Hyes;
    cbn [negb andb] in Hrun;
    rewrite ?gostring_eqb_eq in *;
    try (destruct (cmd.BroadcastTransaction tx0) as [txid | e |];
         [ | | rewrite Hp in Hrun; discriminate Hrun ]);
    (split;
     [ destruct Hproj as [-> | ->]; cbn in Hrun; congruence
     | exists confirm; split; [exact Hread|]; intros ->; cbn in Hrun;
       try discriminate Hrun; auto ]).
Qed.


(** X16: whichever of the two withdrawal commands hands a transaction to
    [BroadcastTransaction], the contract file was loaded and says the
    contract is funded, the confirmation line, lower-cased and trimmed, is
    y or yes, and the transaction is the signed one: version 1, lock time 0,
    one input that spends the funding outpoint of the contract file with a
    three-element witness ending in the decoded redeem script, and one
    output that pays the funding amount less the fixed fee of 500, a
    positive value, to the script of the decoded destination.  The fee of
    the configuration plays no part. *)
Theorem broadcast_conditions
    (run : config.Config -> cmd.Stdin E -> cmd.withdrawal E)
    (cfg : config.Config) (stdin : cmd.Stdin E) (tx : MsgTx) :
  run = cmd.ownerWithdraw \/ run = cmd.inheritorWithdraw ->
  cmd.handedToBroadcast (run cfg stdin) = Some tx ->
  exists idLine info confirm destLine dest pk fundingHash rs,
    cmd.readContractID stdin = Done idLine
    /\ cmd.LoadContractInfo (cmd.TrimSpace idLine) = Done info
    /\ contract.IsFunded info = true
    /\ cmd.readConfirmation stdin = Done confirm
    /\ (cmd.TrimSpace (cmd.ToLower confirm) = cmd.yesShort
        \/ cmd.TrimSpace (cmd.ToLower confirm) = cmd.yesLong)
    /\ cmd.readDestination stdin = Done destLine
    /\ cmd.DecodeAddress (cmd.TrimSpace destLine) (config.ChainParams cfg) = Done dest
    /\ PayToAddrScript dest = Ok pk
    /\ cmd.NewHashFromStr (contract.FundingTxID info) = Done fundingHash
    /\ cmd.DecodeString (contract.RedeemScript info) = Done rs
    /\ Version tx = 1
    /\ LockTime tx = 0
    /\ TxOuts tx = [{| Value := Int64.sub (contract.FundingAmount info) 500;
                       PkScript := pk |}]
    /\ 0 < Int64.sub (contract.FundingAmount info) 500
    /\ exists txIn sig selector,
         TxIns tx = [txIn]
         /\ PreviousOutPoint txIn
            = {| Hash := fundingHash; Index := contract.FundingVout info |}
         /\ Witness txIn = [sig; selector; rs].
Proof.
  assert (Ha : forall e : cmd.cliError E,
            cmd.handedToBroadcast (cmd.Aborted e) = None) by reflexivity.
  assert (Hp : cmd.handedToBroadcast (@cmd.Panicked E) = None) by reflexivity.
  intros [-> | ->] Hrun;
    [unfold cmd.ownerWithdraw in Hrun | unfold cmd.inheritorWithdraw in Hrun];
    peel_command Hrun Ha Hp;
    apply (confirmation_cases _ _ _ cmd.handedToBroadcast (or_intror eq_refl)) in Hrun;
    destruct Hrun as (-> & confirm & Hconfirm & Hyes);
    specialize (Hyes eq_refl);
    [ destruct (owner_pipeline _ _ _ _ _ _ _ _ _ _ Hbuild Hsign) as (pk & sig & Hpk & Hpos & ->)
    | destruct (inheritor_pipeline _ _ _ _ _ _ _ _ _ _ _ Hbuild Hsign)
        as (pk & sig & Hpk & Hpos & ->) ];
    exists idLine, info, confirm, destLine, dest, pk, fundingHash, rs;
    cbn [Version LockTime TxOuts TxIns transaction.Amount transaction.fee
           transaction.NewTransactionBuilder transaction.TxHash transaction.Vout] in *;
    repeat (split; [assumption || reflexivity|]);
    do 3 eexists; repeat split.
Qed.

(** X17: a transaction that [inheritorWithdraw] has finished carries, as the
    sequence number of its input, the day count of the contract file times
    144 (24 times 6, in 64-bit arithmetic, reduced to 32 bits), not the
    encoded timelock of the script.  For a day count from 0 to 24855 the
    sequence number is exactly 144 times the day count, its bit 22 is clear
    while bit 22 of the encoded timelock of that day count is set, and so
    the two differ.  A transaction that [ownerWithdraw] has finished has the
    sequence number 0xffffffff. *)
Theorem withdrawal_sequence (cfg : config.Config) (stdin : cmd.Stdin E) (tx : MsgTx) :
  (cmd.finished (cmd.inheritorWithdraw cfg stdin) = Some tx ->
   exists idLine info txIn,
     cmd.readContractID stdin = Done idLine
     /\ cmd.LoadContractInfo (cmd.TrimSpace idLine) = Done info
     /\ TxIns tx = [txIn]
     /\ Sequence txIn
        = Uint32.wrap (Int64.mul (Int64.mul (contract.TimelockDays info) 24) 6)
     /\ (0 <= contract.TimelockDays info <= 24855 ->
         Sequence txIn = 144 * contract.TimelockDays info
         /\ Z.testbit (Sequence txIn) 22 = false
         /\ Z.testbit (script.calculateRelativeTimelock (contract.TimelockDays info)) 22
            = true
         /\ Sequence txIn
            <> script.calculateRelativeTimelock (contract.TimelockDays info)))
  /\ (cmd.finished (cmd.ownerWithdraw cfg stdin) = Some tx ->
      exists txIn, TxIns tx = [txIn] /\ Sequence txIn = 0xffffffff).
Proof.
  assert (Ha : forall e : cmd.cliError E, cmd.finished (cmd.Aborted e) = None)
    by reflexivity.
  assert (Hp : cmd.finished (@cmd.Panicked E) = None) by reflexivity.
  split; intros Hrun;
    [unfold cmd.inheritorWithdraw in Hrun | unfold cmd.ownerWithdraw in Hrun];
    peel_command Hrun Ha Hp;
    apply (confirmation_cases _ _ _ cmd.finished (or_introl eq_refl)) in Hrun;
    destruct Hrun as (-> & _).
  - destruct (inheritor_pipeline _ _ _ _ _ _ _ _ _ _ _ Hbuild Hsign)
      as (pk & sig & Hpk & Hpos & ->).
    exists idLine, info. eexists. cbn [TxIns Sequence].
    repeat (split; [assumption || reflexivity|]).
    intros Hdays.
    assert (Hseq : Uint32.wrap (Int64.mul (Int64.mul (contract.TimelockDays info) 24) 6)
                   = 144 * contract.TimelockDays info).
    { unfold Int64.mul.
      rewrite (Int64_wrap_small (contract.TimelockDays info * 24))
        by (unfold Int64.InRange, Int64.min_int, Int64.max_int; lia).
      rewrite Int64_wrap_small
        by (unfold Int64.InRange, Int64.min_int, Int64.max_int; lia).
      unfold Uint32.wrap. rewrite Z.mod_small by lia. lia. }
    cbn [Sequence]. rewrite Hseq.
    assert (Hclear : Z.testbit (144 * contract.TimelockDays info) 22 = false)
      by (apply (bits_of_lt_pow2 _ 22); lia).
    assert (Hset : Z.testbit
                     (script.calculateRelativeTimelock (contract.TimelockDays info)) 22
                   = true).
    { unfold script.calculateRelativeTimelock. rewrite Z.lor_spec.
      change (Z.testbit 0x400000 22) with true. apply orb_true_r. }
    repeat split; try assumption.
    intros Eq. cbn [Sequence] in Eq. rewrite Eq, Hset in Hclear. discriminate Hclear.
  - destruct (owner_pipeline _ _ _ _ _ _ _ _ _ _ Hbuild Hsign)
      as (pk & sig & Hpk & Hpos & ->).
    eexists. split; reflexivity.
Qed.

End WithdrawalProperties.

Lemma broadcast_conditions_witness :
  exists tx,
    cmd.handedToBroadcast
      (@cmd.ownerWithdraw unit Sample.hashes Sample.sigLib Sample2.collaborators
         Sample2.cfg Sample2.stdin) = Some tx
    /\ map Value (TxOuts tx) = [99500].
Proof.
  assert (Hrun : exists tx,
            cmd.handedToBroadcast
              (@cmd.ownerWithdraw unit Sample.hashes Sample.sigLib Sample2.collaborators
                 Sample2.cfg Sample2.stdin) = Some tx)
    by (eexists; vm_compute; reflexivity).
  destruct Hrun as [tx Hrun]. exists tx. split; [exact Hrun|].
  destruct (@broadcast_conditions unit Sample.hashes Sample.sigLib Sample2.collaborators
              (@cmd.ownerWithdraw unit Sample.hashes Sample.sigLib Sample2.collaborators)
              Sample2.cfg Sample2.stdin tx (or_introl eq_refl) Hrun)
    as (idLine & info & confirm & destLine & dest & pk & fundingHash & rs
        & _ & Hinfo & _ & _ & _ & _ & _ & _ & _ & _ & _ & _ & Houts & _).
  rewrite Houts. cbn in Hinfo. injection Hinfo as <-. reflexivity.
Defined.

Lemma withdrawal_sequence_witness :
  exists tx,
    cmd.finished
      (@cmd.inheritorWithdraw unit Sample.hashes Sample.sigLib Sample2.collaborators
         Sample2.cfg Sample2.stdin) = Some tx
    /\ map Sequence (TxIns tx) = [25920]
    /\ script.calculateRelativeTimelock 180 = 0x4076A7.
Proof.
  assert (Hrun : exists tx,
            cmd.finished
              (@cmd.inheritorWithdraw unit Sample.hashes Sample.sigLib
                 Sample2.collaborators Sample2.cfg Sample2.stdin) = Some tx)
    by (eexists; vm_compute; reflexivity).
  destruct Hrun as [tx Hrun]. exists tx. split; [exact Hrun|].
  destruct (proj1 (@withdrawal_sequence unit Sample.hashes Sample.sigLib
                     Sample2.collaborators Sample2.cfg Sample2.stdin tx) Hrun)
    as (idLine & info & txIn & _ & Hinfo & Hins & _ & Hdays).
  cbn in Hinfo. injection Hinfo as <-.
  destruct Hdays as (Hseq & _); [cbn; lia|].
  rewrite Hins. cbn [map]. rewrite Hseq. split; reflexivity.
Defined.
